(** * Sentinel-2 product computation: a shallow embedding and its properties

    The development follows [Sentinel2/A1_sentinel2_products.py], the
    driver [sentinel-2_process.py] and the download stage
    [Sentinel2/A0_sentinel2_download.py].  Part I holds the definitions
    (numeric model, index calculators, path resolution, the orchestrator,
    the download stage), Part II the lemmas and the theorems about the
    product stage and the driver, Part III further properties of the whole
    program. *)

From Stdlib Require Import ZArith SpecFloat Ascii String.
From stdpp Require Import base option list gmap strings pretty.

Local Open Scope Z_scope.

#[local] Set Warnings "-clear-no-such-hyp".

(* ===================================================================== *)
(** * Part I: definitions                                                 *)
(* ===================================================================== *)

(** ** IEEE 754 binary32 ("float32")

    [openRasterOneBand] converts every band with [astype("float32")], so all
    the arithmetic of the index calculators is single precision, rounded to
    nearest even. The Standard Library's [SpecFloat] is its executable
    specification, instantiated here at precision 24 and [emax] 128. *)
Module F32.

Definition prec : Z := 24.
Definition emax : Z := 128.

(** The value [m * 2^e], correctly rounded: how a Python literal enters
    float32 arithmetic. *)
Definition of_bits (m e : Z) : spec_float := binary_normalize prec emax m e false.
Definition of_Z (n : Z) : spec_float := of_bits n 0.

Definition add : spec_float -> spec_float -> spec_float := SFadd prec emax.
Definition sub : spec_float -> spec_float -> spec_float := SFsub prec emax.
Definition mul : spec_float -> spec_float -> spec_float := SFmul prec emax.
Definition div : spec_float -> spec_float -> spec_float := SFdiv prec emax.

Definition eqb : spec_float -> spec_float -> bool := SFeqb.
Definition ltb : spec_float -> spec_float -> bool := SFltb.
Definition leb : spec_float -> spec_float -> bool := SFleb.

Definition is_nan (x : spec_float) : bool :=
  match x with S754_nan => true | _ => false end.
Definition is_inf (x : spec_float) : bool :=
  match x with S754_infinity _ => true | _ => false end.

(** The literals of the source. *)
Definition zero : spec_float := S754_zero false.
Definition one : spec_float := Eval vm_compute in of_Z 1.
Definition minus_one : spec_float := Eval vm_compute in of_Z (-1).
Definition c10000 : spec_float := Eval vm_compute in of_Z 10000.
Definition c6_0 : spec_float := Eval vm_compute in of_Z 6.
Definition c7_5 : spec_float := Eval vm_compute in of_bits 15 (-1).
Definition c2_5 : spec_float := Eval vm_compute in of_bits 5 (-1).
Definition c1_25 : spec_float := Eval vm_compute in of_bits 5 (-2).
(** -9999.0, "the agreed no data value". *)
Definition sentinel : spec_float := Eval vm_compute in of_Z (-9999).
(** The float32 nearest to 0.6: 6/10 correctly rounded. *)
Definition c0_6 : spec_float := Eval vm_compute in div (of_Z 6) (of_Z 10).

End F32.

(** ** NumPy grids

    A band is a two-dimensional float32 array: a list of rows. *)
Abbreviation grid := (list (list spec_float)).
Abbreviation mask := (list (list bool)).

Definition shape {A} (g : list (list A)) : list nat := length <$> g.

Definition pixel {A} (g : list (list A)) (i j : nat) : option A :=
  g !! i ≫= (.!! j).

(** [np.full(shape, v)] for a [rows] x [cols] array. *)
Definition np_full (rows cols : nat) (v : spec_float) : grid :=
  replicate rows (replicate cols v).

(** Element-wise operations. Between two arrays they are used only once the
    shapes are known to agree (see [same_shape] below). *)
Definition arr_map {A B} (f : A -> B) (g : list (list A)) : list (list B) :=
  (fun row : list A => f <$> row) <$> g.
Definition arr_zip {A B C} (f : A -> B -> C)
    (a : list (list A)) (b : list (list B)) : list (list C) :=
  zip_with (zip_with f) a b.

(** [a / c], [c * a], [a + c] with a scalar [c]. *)
Definition arr_div_scalar (a : grid) (c : spec_float) : grid :=
  arr_map (fun x => F32.div x c) a.
Definition arr_scalar_mul (c : spec_float) (a : grid) : grid :=
  arr_map (fun x => F32.mul c x) a.
Definition arr_add_scalar (a : grid) (c : spec_float) : grid :=
  arr_map (fun x => F32.add x c) a.

Definition arr_add : grid -> grid -> grid := arr_zip F32.add.
Definition arr_sub : grid -> grid -> grid := arr_zip F32.sub.
Definition arr_div : grid -> grid -> grid := arr_zip F32.div.

(** [np.isnan(a)], [np.isinf(a)], [a == c], [a > c], [a < c]. *)
Definition np_isnan (a : grid) : mask := arr_map F32.is_nan a.
Definition np_isinf (a : grid) : mask := arr_map F32.is_inf a.
Definition arr_eq_scalar (a : grid) (c : spec_float) : mask :=
  arr_map (fun x => F32.eqb x c) a.
Definition arr_gt_scalar (a : grid) (c : spec_float) : mask :=
  arr_map (fun x => F32.ltb c x) a.
Definition arr_lt_scalar (a : grid) (c : spec_float) : mask :=
  arr_map (fun x => F32.ltb x c) a.

(** [a[m] = v]: boolean-mask assignment of a scalar. *)
Definition set_where (a : grid) (m : mask) (v : spec_float) : grid :=
  arr_zip (fun x (b : bool) => if b then v else x) a m.

Definition same_shape (a b : grid) : bool := bool_decide (shape a = shape b).

(** ** The index calculators

    With two-dimensional arrays of different shapes NumPy raises: either the
    arithmetic cannot broadcast ([ValueError]) or a boolean mask built from
    an input does not match the broadcast result ([IndexError]; every input
    is used as a mask). The calculators return [None] in that case. *)

Definition calculateEVI (B08 B04 B02 : grid) : option grid :=
  if same_shape B08 B04 && same_shape B08 B02 then
    let s08 := arr_div_scalar B08 F32.c10000 in
    let s04 := arr_div_scalar B04 F32.c10000 in
    let s02 := arr_div_scalar B02 F32.c10000 in
    let EVI :=
      arr_scalar_mul F32.c2_5
        (arr_div (arr_sub s08 s04)
           (arr_add_scalar
              (arr_sub (arr_add s08 (arr_scalar_mul F32.c6_0 s04))
                       (arr_scalar_mul F32.c7_5 s02))
              F32.one)) in
    let EVI := set_where EVI (np_isnan EVI) F32.sentinel in
    let EVI := set_where EVI (np_isinf EVI) F32.sentinel in
    let EVI := set_where EVI (arr_eq_scalar B08 F32.zero) F32.sentinel in
    let EVI := set_where EVI (arr_eq_scalar B04 F32.zero) F32.sentinel in
    let EVI := set_where EVI (arr_eq_scalar B02 F32.zero) F32.sentinel in
    let EVI := set_where EVI (arr_gt_scalar EVI F32.c1_25) F32.sentinel in
    let EVI := set_where EVI (arr_lt_scalar EVI F32.minus_one) F32.sentinel in
    Some EVI
  else None.

Definition calculateNDMI (B8A B11 : grid) : option grid :=
  if same_shape B8A B11 then
    let s8A := arr_div_scalar B8A F32.c10000 in
    let s11 := arr_div_scalar B11 F32.c10000 in
    let NDMI := arr_div (arr_sub s8A s11) (arr_add s8A s11) in
    let NDMI := set_where NDMI (np_isnan NDMI) F32.sentinel in
    let NDMI := set_where NDMI (np_isinf NDMI) F32.sentinel in
    let NDMI := set_where NDMI (arr_eq_scalar B8A F32.zero) F32.sentinel in
    let NDMI := set_where NDMI (arr_eq_scalar B11 F32.zero) F32.sentinel in
    let NDMI := set_where NDMI (arr_gt_scalar NDMI F32.one) F32.sentinel in
    let NDMI := set_where NDMI (arr_lt_scalar NDMI F32.minus_one) F32.sentinel in
    Some NDMI
  else None.

Definition calculateNDWI (B03 B08 : grid) : option grid :=
  if same_shape B03 B08 then
    let s03 := arr_div_scalar B03 F32.c10000 in
    let s08 := arr_div_scalar B08 F32.c10000 in
    let NDWI := arr_div (arr_sub s03 s08) (arr_add s03 s08) in
    let NDWI := set_where NDWI (np_isnan NDWI) F32.sentinel in
    let NDWI := set_where NDWI (np_isinf NDWI) F32.sentinel in
    let NDWI := set_where NDWI (arr_eq_scalar B03 F32.zero) F32.sentinel in
    let NDWI := set_where NDWI (arr_eq_scalar B08 F32.zero) F32.sentinel in
    let NDWI := set_where NDWI (arr_gt_scalar NDWI F32.one) F32.sentinel in
    let NDWI := set_where NDWI (arr_lt_scalar NDWI F32.minus_one) F32.sentinel in
    Some NDWI
  else None.

Definition calculateNDVI (B08 B04 : grid) : option grid :=
  if same_shape B08 B04 then
    let s08 := arr_div_scalar B08 F32.c10000 in
    let s04 := arr_div_scalar B04 F32.c10000 in
    let NDVI := arr_div (arr_sub s08 s04) (arr_add s08 s04) in
    let NDVI := set_where NDVI (np_isnan NDVI) F32.sentinel in
    let NDVI := set_where NDVI (np_isinf NDVI) F32.sentinel in
    let NDVI := set_where NDVI (arr_eq_scalar B04 F32.zero) F32.sentinel in
    let NDVI := set_where NDVI (arr_eq_scalar B08 F32.zero) F32.sentinel in
    let NDVI := set_where NDVI (arr_gt_scalar NDVI F32.one) F32.sentinel in
    let NDVI := set_where NDVI (arr_lt_scalar NDVI F32.minus_one) F32.sentinel in
    Some NDVI
  else None.

(** ** The calculators seen at one pixel

    Every step of a calculator is element-wise, so its value at a pixel
    depends only on the inputs at that pixel. The functions below spell the
    steps out for one pixel; Part II proves that the array code agrees with
    them. *)

Definition mask_px (v : spec_float) (b : bool) : spec_float :=
  if b then F32.sentinel else v.

(** The two range assignments [X[X > hi] = -9999.0; X[X < -1] = -9999.0]. *)
Definition clamp_px (hi v : spec_float) : spec_float :=
  let v := mask_px v (F32.ltb hi v) in
  mask_px v (F32.ltb v F32.minus_one).

(** The two assignments [X[np.isnan(X)] = -9999.0; X[np.isinf(X)] = -9999.0]. *)
Definition finite_px (v : spec_float) : spec_float :=
  let v := mask_px v (F32.is_nan v) in
  mask_px v (F32.is_inf v).

Definition scaled (x : spec_float) : spec_float := F32.div x F32.c10000.

Definition evi_raw_px (b08 b04 b02 : spec_float) : spec_float :=
  F32.mul F32.c2_5
    (F32.div (F32.sub (scaled b08) (scaled b04))
       (F32.add
          (F32.sub (F32.add (scaled b08) (F32.mul F32.c6_0 (scaled b04)))
                   (F32.mul F32.c7_5 (scaled b02)))
          F32.one)).

Definition nd_raw_px (a b : spec_float) : spec_float :=
  F32.div (F32.sub (scaled a) (scaled b)) (F32.add (scaled a) (scaled b)).

Definition evi_px (b08 b04 b02 : spec_float) : spec_float :=
  let v := finite_px (evi_raw_px b08 b04 b02) in
  let v := mask_px v (F32.eqb b08 F32.zero) in
  let v := mask_px v (F32.eqb b04 F32.zero) in
  let v := mask_px v (F32.eqb b02 F32.zero) in
  clamp_px F32.c1_25 v.

(** NDMI and NDWI mask their first argument first, NDVI its second. *)
Definition nd_px (a b : spec_float) : spec_float :=
  let v := finite_px (nd_raw_px a b) in
  let v := mask_px v (F32.eqb a F32.zero) in
  let v := mask_px v (F32.eqb b F32.zero) in
  clamp_px F32.one v.

Definition ndvi_px (b08 b04 : spec_float) : spec_float :=
  let v := finite_px (nd_raw_px b08 b04) in
  let v := mask_px v (F32.eqb b04 F32.zero) in
  let v := mask_px v (F32.eqb b08 F32.zero) in
  clamp_px F32.one v.

(** A pixel value is acceptable for an index with ceiling [hi] when it is the
    sentinel or lies in [[-1, hi]]. *)
Definition in_domain (hi v : spec_float) : Prop :=
  v = F32.sentinel \/ (F32.leb F32.minus_one v = true /\ F32.leb v hi = true).

(** [x == 0.0] in float32: both signed zeros compare equal to [0.0]. *)
Definition is_zero (x : spec_float) : Prop := F32.eqb x F32.zero = true.

(* ===================================================================== *)
(** ** The machine the orchestrator runs on                               *)
(* ===================================================================== *)

(** *** Python values and strings *)

(** A value stored in a [processingPaths] entry: the placeholder [{}] put
    there before a band is matched, or a path string. *)
Inductive pyval :=
| VEmptyDict
| VStr (s : string).

(** [str(v)], as an f-string prints it. *)
Definition pyval_str (v : pyval) : string :=
  match v with
  | VEmptyDict => "{}"
  | VStr s => s
  end.

(** [s.split(sep)] for a one-character separator. *)
Fixpoint split_on (sep : ascii) (s : string) : list string :=
  match s with
  | EmptyString => [EmptyString]
  | String c s' =>
      if Ascii.eqb c sep then EmptyString :: split_on sep s'
      else match split_on sep s' with
           | [] => [String c EmptyString]
           | t :: ts => String c t :: ts
           end
  end.

(** [s[:n]]. *)
Definition str_take (n : nat) (s : string) : string := substring 0 n s.

(** Exceptions the code can meet; all derive from [Exception]. *)
Inductive Exn :=
| KeyError (k : string)
| IndexError
| UnboundLocalError (var : string)
| OSError (path : string)
| TypeError
| AttributeError
| ValueError
| RuntimeError (what : string).

(** [str(e)], which [logging.error(e)] writes; the wording is the
    interpreter's and no statement below depends on it. *)
Definition exn_str (e : Exn) : string :=
  match e with
  | KeyError k => "'" +:+ k +:+ "'"
  | IndexError => "list index out of range"
  | UnboundLocalError v => "local variable '" +:+ v +:+ "' referenced before assignment"
  | OSError p => "[Errno 2] No such file or directory: '" +:+ p +:+ "'"
  | TypeError => "not a string"
  | AttributeError => "'dict' object has no attribute 'split'"
  | ValueError => "operands could not be broadcast together"
  | RuntimeError m => m
  end.

(** *** Rasters *)

(** What GDAL reads from a single-band raster file. *)
Record Dataset := {
  ds_band1 : grid;                 (* GetRasterBand(1).ReadAsArray() as float32 *)
  ds_NoDataValue : option spec_float;
  RasterXSize : Z;
  RasterYSize : Z;
  RasterCount : Z;
  ds_DriverShortName : string;
  ds_GeoTransform : list spec_float;
  ds_Projection : string;
  ds_ProjectionRef : string;
}.

(** The tuple returned by [openRasterOneBand], components 0 to 9. *)
Record RasterBand := {
  inArray : grid;
  inCols : Z;
  inRows : Z;
  inBands : Z;
  inNoData : spec_float;
  inExtension : string;
  inDriver : string;
  inGeotransform : list spec_float;
  inProj : string;
  inProjRef : string;
}.

(** The in-memory raster built by [createMemoryRaster]. *)
Record MemRaster := {
  mr_array : grid;
  mr_cols : Z;
  mr_rows : Z;
  mr_nodata : spec_float;
  mr_geotransform : list spec_float;
  mr_proj : string;
}.

(** -9999.9 as a Python float (binary64). *)
Definition default_nodata : spec_float :=
  Eval vm_compute in
    SFdiv 53 1024 (binary_normalize 53 1024 (-99999) 0 false)
                  (binary_normalize 53 1024 10 0 false).

(** *** The environment

    Everything outside the program: the platform's [os.path], the raw input
    tree (read only during a run) and the outcome of each GDAL or [os] call,
    which depends on the call's arguments only. A [true] in a [_raises]
    field means that the call raises. The program never enables GDAL's
    exceptions, so [gdal.Warp] and [gdal.BuildVRT] may also fail without
    raising: they then return [None] and write nothing. A [_writes] field
    tells whether a call that returns has written its destination. *)
Record World := {
  os_path_join : string -> string -> string;
  os_path_splitext : string -> string * string;
  os_listdir : string -> option (list string);     (* None: raises OSError *)
  gdal_Open : string -> option Dataset;            (* None: the file cannot be read *)
  mem_Create_raises : string -> Z -> Z -> grid -> bool;
  gdal_Warp_raises : string -> MemRaster -> bool;
  gdal_Warp_writes : string -> MemRaster -> bool;
  gdal_BuildVRT_raises : string -> list string -> bool;
  gdal_BuildVRT_writes : string -> list string -> bool;
  os_makedirs_raises : string -> bool;
  publish_raises : string -> string -> bool;
}.

(** *** The state

    The file system as far as the program changes it, the log, the calls
    made to the outside, and the local variables of [calculateProducts] that
    live across loop iterations ([None]: not yet bound). *)
Inductive Level := INFO | ERROR.

Inductive Call :=
| CallOpen (path : pyval)                       (* gdal.Open *)
| CallIndex (name : string)                     (* an index calculator *)
| CallCreate (driver : string)                  (* driver.Create, "MEM" *)
| CallWarp (dst : string) (ok : bool)           (* gdal.Warp *)
| CallMakedirs (path : string)                  (* os.makedirs *)
| CallBuildVRT (dst : string) (srcs : list string) (ok : bool)
| CallPublish (name date : string).             (* publishNewDataset *)

Record State := {
  files : gset string;
  dirs : gset string;
  log : list (Level * string);
  calls : list Call;
  requiredInputOutputPaths : option (list (gmap string pyval));
  outName : option pyval;
  resultRaster : option MemRaster;
  tiles : list string;
  newProducts : list (string * gmap string string);
}.

Definition initial_state (fs ds : gset string) : State :=
  {| files := fs; dirs := ds; log := []; calls := [];
     requiredInputOutputPaths := None; outName := None; resultRaster := None;
     tiles := []; newProducts := [] |}.

Definition add_file (p : string) (s : State) : State :=
  {| files := {[p]} ∪ files s; dirs := dirs s; log := log s; calls := calls s;
     requiredInputOutputPaths := requiredInputOutputPaths s;
     outName := outName s; resultRaster := resultRaster s; tiles := tiles s;
     newProducts := newProducts s |}.
Definition add_dir (p : string) (s : State) : State :=
  {| files := files s; dirs := {[p]} ∪ dirs s; log := log s; calls := calls s;
     requiredInputOutputPaths := requiredInputOutputPaths s;
     outName := outName s; resultRaster := resultRaster s; tiles := tiles s;
     newProducts := newProducts s |}.
Definition add_log (r : Level * string) (s : State) : State :=
  {| files := files s; dirs := dirs s; log := log s ++ [r]; calls := calls s;
     requiredInputOutputPaths := requiredInputOutputPaths s;
     outName := outName s; resultRaster := resultRaster s; tiles := tiles s;
     newProducts := newProducts s |}.
Definition add_call (c : Call) (s : State) : State :=
  {| files := files s; dirs := dirs s; log := log s; calls := calls s ++ [c];
     requiredInputOutputPaths := requiredInputOutputPaths s;
     outName := outName s; resultRaster := resultRaster s; tiles := tiles s;
     newProducts := newProducts s |}.
Definition set_paths (v : list (gmap string pyval)) (s : State) : State :=
  {| files := files s; dirs := dirs s; log := log s; calls := calls s;
     requiredInputOutputPaths := Some v;
     outName := outName s; resultRaster := resultRaster s; tiles := tiles s;
     newProducts := newProducts s |}.
Definition set_outName (v : pyval) (s : State) : State :=
  {| files := files s; dirs := dirs s; log := log s; calls := calls s;
     requiredInputOutputPaths := requiredInputOutputPaths s;
     outName := Some v; resultRaster := resultRaster s; tiles := tiles s;
     newProducts := newProducts s |}.
Definition set_resultRaster (v : MemRaster) (s : State) : State :=
  {| files := files s; dirs := dirs s; log := log s; calls := calls s;
     requiredInputOutputPaths := requiredInputOutputPaths s;
     outName := outName s; resultRaster := Some v; tiles := tiles s;
     newProducts := newProducts s |}.
Definition set_tiles (v : list string) (s : State) : State :=
  {| files := files s; dirs := dirs s; log := log s; calls := calls s;
     requiredInputOutputPaths := requiredInputOutputPaths s;
     outName := outName s; resultRaster := resultRaster s; tiles := v;
     newProducts := newProducts s |}.
Definition set_newProducts (v : list (string * gmap string string)) (s : State) : State :=
  {| files := files s; dirs := dirs s; log := log s; calls := calls s;
     requiredInputOutputPaths := requiredInputOutputPaths s;
     outName := outName s; resultRaster := resultRaster s; tiles := tiles s;
     newProducts := v |}.

(** [os.path.exists] and [os.path.isdir]. *)
Definition path_exists (s : State) (p : string) : bool :=
  bool_decide (p ∈ files s) || bool_decide (p ∈ dirs s).
Definition path_isdir (s : State) (p : string) : bool :=
  bool_decide (p ∈ dirs s).

(** *** Control flow: state, exceptions, [continue]

    A statement maps a state to an outcome and the state it leaves behind.
    [Continue] is a [continue] statement on its way to the enclosing [for];
    [Raised e] is an exception on its way to the enclosing [try]. *)
Inductive Outcome (A : Type) :=
| Normal (a : A)
| Continue
| Raised (e : Exn).
Arguments Normal {A} a.
Arguments Continue {A}.
Arguments Raised {A} e.

Definition M (A : Type) : Type := State -> Outcome A * State.

Definition ret {A} (a : A) : M A := fun s => (Normal a, s).

Definition bind {A B} (m : M A) (f : A -> M B) : M B :=
  fun s =>
    match m s with
    | (Normal a, s') => f a s'
    | (Continue, s') => (Continue, s')
    | (Raised e, s') => (Raised e, s')
    end.

#[global] Instance M_ret : MRet M := @ret.
#[global] Instance M_bind : MBind M := fun A B f m => bind m f.

Definition raise {A} (e : Exn) : M A := fun s => (Raised e, s).
Definition continue_ {A} : M A := fun s => (Continue, s).

(** [try: body except Exception as e: handler]. *)
Definition try_except {A} (body : M A) (handler : Exn -> M A) : M A :=
  fun s =>
    match body s with
    | (Raised e, s') => handler e s'
    | r => r
    end.

(** [for x in xs: body], for a body without [break]. *)
Fixpoint for_each {X} (xs : list X) (body : X -> M unit) : M unit :=
  match xs with
  | [] => ret tt
  | x :: xs' =>
      fun s =>
        match body x s with
        | (Raised e, s') => (Raised e, s')
        | (_, s') => for_each xs' body s'
        end
  end.

Definition get : M State := fun s => (Normal s, s).
Definition modify (f : State -> State) : M unit := fun s => (Normal tt, f s).

Definition logging_info (msg : string) : M unit := modify (add_log (INFO, msg)).
Definition logging_error (msg : string) : M unit := modify (add_log (ERROR, msg)).

(** Reading a local variable of the running function. *)
Definition read_local {A} (var : string) (v : option A) : M A :=
  match v with
  | Some a => ret a
  | None => raise (UnboundLocalError var)
  end.

(** [d[k]] on a dictionary with string keys. *)
Definition lookup_key {V} (d : gmap string V) (k : string) : M V :=
  match d !! k with
  | Some v => ret v
  | None => raise (KeyError k)
  end.

(** [l[n]] on a list. *)
Definition list_index {A} (l : list A) (n : nat) : M A :=
  match l !! n with
  | Some a => ret a
  | None => raise IndexError
  end.

(** Insertion-ordered dictionaries ([productArgs], [newProducts]). *)
Fixpoint dict_get {V} (k : string) (d : list (string * V)) : option V :=
  match d with
  | [] => None
  | (k', v) :: d' => if String.eqb k' k then Some v else dict_get k d'
  end.

Fixpoint dict_set {V} (k : string) (v : V) (d : list (string * V)) : list (string * V) :=
  match d with
  | [] => [(k, v)]
  | (k', v') :: d' =>
      if String.eqb k' k then (k', v) :: d' else (k', v') :: dict_set k v d'
  end.

(** The configuration, [params] in the source. *)
Record ProductArgs := {
  name : string;
  resolution : string;
  bands : list (string * string);     (* logical band role -> sensor band code *)
}.

Record Params := {
  rawInput : string;
  clippingMask : string;
  outEPSG : string;
  productOutput : string;
  products : list (string * ProductArgs);
}.

(** The second argument -9999.0 of [createMemoryRaster], a Python float. *)
Definition nodata_f64 : spec_float :=
  Eval vm_compute in binary_normalize 53 1024 (-9999) 0 false.

Section Program.
Context (w : World).

(** *** Calls to the outside *)

Definition listdir (p : string) : M (list string) :=
  match os_listdir w p with
  | Some l => ret l
  | None => raise (OSError p)
  end.

(** [os.path.join(a, b)] where the arguments may be a placeholder. *)
Definition py_join (a b : pyval) : M string :=
  match a, b with
  | VStr a, VStr b => ret (os_path_join w a b)
  | _, _ => raise TypeError
  end.

Definition makedirs (p : string) : M unit :=
  modify (add_call (CallMakedirs p));;
  if os_makedirs_raises w p then raise (OSError p) else modify (add_dir p).

(** [gdal.Warp(dst, src, format='GTiff', cutlineDSName=clippingMask,
    dstNodata=-9999.0, dstSRS=outEPSG)]. The call raises, or it returns; a
    call that returns has written the tile file [dst], or it has failed
    without raising (it returned [None], which the program does not look
    at) and has written nothing. The flag of the recorded call tells
    whether the call returned. *)
Definition gdal_Warp (dst : string) (src : MemRaster) : M unit :=
  if gdal_Warp_raises w dst src then
    modify (add_call (CallWarp dst false));; raise (RuntimeError "Warp")
  else
    modify (add_call (CallWarp dst true));;
    if gdal_Warp_writes w dst src then modify (add_file dst) else ret tt.

(** [gdal.BuildVRT(dst, srcs, options=gdal.BuildVRTOptions())]: it is given
    the paths of the tiles, never their pixels. As for [gdal.Warp], a call
    that returns may have failed without raising and written nothing. *)
Definition gdal_BuildVRT (dst : string) (srcs : list string) : M unit :=
  if gdal_BuildVRT_raises w dst srcs then
    modify (add_call (CallBuildVRT dst srcs false));; raise (RuntimeError "BuildVRT")
  else
    modify (add_call (CallBuildVRT dst srcs true));;
    if gdal_BuildVRT_writes w dst srcs then modify (add_file dst) else ret tt.

Definition publishNewDataset (productName newDate : string) : M unit :=
  modify (add_call (CallPublish productName newDate));;
  if publish_raises w productName newDate then raise (RuntimeError "publish")
  else ret tt.

(** *** [createOutFolder] *)
Definition createOutFolder (outFolder : pyval) : M unit :=
  match outFolder with
  | VEmptyDict => raise TypeError
  | VStr p =>
      s ← get;
      if negb (path_isdir s p) then makedirs p else ret tt
  end.

(** *** [getRequiredBandsPaths]

    [processingPaths] is a dictionary keyed 0, 1, 2, ... in insertion
    order: a list of entries, the key being the position. *)

(** The loop [for rawBand in rawBands] for one required band code. *)
Fixpoint match_rawBands (product imageryDate outFolder : string) (ii : nat)
    (code pathToRaw : string) (rawBands : list string)
    (entry : gmap string pyval) : M (gmap string pyval) :=
  match rawBands with
  | [] => ret entry
  | rawBand :: rest =>
      rawBandStr ← list_index (split_on "_" rawBand) 2;
      if String.eqb rawBandStr code then
        let inRaster := os_path_join w pathToRaw rawBand in
        let outNameList := take 2 (split_on "_" rawBand) in
        o0 ← list_index outNameList 0;
        o1 ← list_index outNameList 1;
        let outName :=
          o0 +:+ "_" +:+ o1 +:+ "_" +:+ product +:+ "_" +:+ pretty ii +:+ ".tif" in
        let projectedBandPath :=
          os_path_join w (os_path_join w outFolder imageryDate) product in
        match_rawBands product imageryDate outFolder ii code pathToRaw rest
          (<["outName" := VStr outName]>
             (<["outFolder" := VStr projectedBandPath]>
                (<[code := VStr inRaster]> entry)))
      else
        match_rawBands product imageryDate outFolder ii code pathToRaw rest entry
  end.

(** The loop [for band in requiredBands.keys()]. *)
Fixpoint resolve_bands (product imageryDate outFolder : string) (ii : nat)
    (pathToRaw : string) (rawBands : list string)
    (requiredBands : list (string * string))
    (entry : gmap string pyval) : M (gmap string pyval) :=
  match requiredBands with
  | [] => ret entry
  | (band, code) :: rest =>
      entry' ← match_rawBands product imageryDate outFolder ii code pathToRaw
                 rawBands (<[code := VEmptyDict]> entry);
      resolve_bands product imageryDate outFolder ii pathToRaw rawBands rest entry'
  end.

(** The loop [for safeFolder in safeFolders]; leaving the [match] without
    a recursive call is the [break]. *)
Fixpoint resolve_granules (product imageryDate : string)
    (requiredBands : list (string * string))
    (rawBandFolder outFolder resolution : string)
    (safeFolders : list string) (ii : nat)
    (processingPaths : list (gmap string pyval))
    : M (list (gmap string pyval)) :=
  match safeFolders with
  | [] => ret processingPaths
  | safeFolder :: rest =>
      let granuleFolder :=
        os_path_join w (os_path_join w rawBandFolder safeFolder) "GRANULE" in
      match os_listdir w granuleFolder ≫= head with
      | None =>
          logging_error (granuleFolder +:+ " is empty.");;
          logging_error "e";;
          ret processingPaths
      | Some fFolder =>
          let pathToRaw :=
            os_path_join w
              (os_path_join w (os_path_join w granuleFolder fFolder) "IMG_DATA")
              resolution in
          rawBands ← listdir pathToRaw;
          entry ← resolve_bands product imageryDate outFolder ii pathToRaw
                    rawBands requiredBands ∅;
          resolve_granules product imageryDate requiredBands rawBandFolder
            outFolder resolution rest (S ii) (processingPaths ++ [entry])
      end
  end.

Definition getRequiredBandsPaths (product imageryDate : string)
    (requiredBands : list (string * string))
    (rawInput outFolder resolution : string) : M (list (gmap string pyval)) :=
  let rawBandFolder := os_path_join w rawInput imageryDate in
  safeFolders ← listdir rawBandFolder;
  resolve_granules product imageryDate requiredBands rawBandFolder outFolder
    resolution safeFolders 0 [].

(** *** [openRasterOneBand] and [createMemoryRaster] *)

Definition openRasterOneBand (inRasterP : pyval) : M RasterBand :=
  modify (add_call (CallOpen inRasterP));;
  match inRasterP with
  | VEmptyDict => raise TypeError
  | VStr p =>
      match gdal_Open w p with
      | None => raise (RuntimeError "gdal.Open")
      | Some inRaster =>
          ret {| inArray := ds_band1 inRaster;
                 inCols := RasterXSize inRaster;
                 inRows := RasterYSize inRaster;
                 inBands := RasterCount inRaster;
                 inNoData := default default_nodata (ds_NoDataValue inRaster);
                 inExtension := snd (os_path_splitext w p);
                 inDriver := ds_DriverShortName inRaster;
                 inGeotransform := ds_GeoTransform inRaster;
                 inProj := ds_Projection inRaster;
                 inProjRef := ds_ProjectionRef inRaster |}
      end
  end.

Definition createMemoryRaster (outArray : grid) (outRaster : string)
    (outCols outRows : Z) (outNoData : spec_float) (outDriver : string)
    (outGeotransform : list spec_float) (outProj : string) : M MemRaster :=
  modify (add_call (CallCreate outDriver));;
  if mem_Create_raises w outDriver outCols outRows outArray then
    raise (RuntimeError "createMemoryRaster")
  else
    ret {| mr_array := outArray; mr_cols := outCols; mr_rows := outRows;
           mr_nodata := outNoData; mr_geotransform := outGeotransform;
           mr_proj := outProj |}.

(** An index calculator called from the orchestrator. *)
Definition call_index (index : string) (result : option grid) : M grid :=
  modify (add_call (CallIndex index));;
  match result with
  | Some g => ret g
  | None => raise ValueError
  end.

(** *** [calculateProducts], statement by statement *)

(** [[
    try:
        B = openRasterOneBand(requiredInputOutputPaths[tile][k])
        logging.info(f"Opened {requiredInputOutputPaths[tile][k]}.")
    except Exception as e:
        logging.error(f"Error while opening {requiredInputOutputPaths[tile][k]}.")
        logging.error(e)
        continue
    ]]
    the form used for the first band of every product. *)
Definition open_failed (entry : gmap string pyval) (k : string) (e : Exn)
    : M RasterBand :=
  v ← lookup_key entry k;
  logging_error ("Error while opening " +:+ pyval_str v +:+ ".");;
  logging_error (exn_str e);;
  continue_.

Definition open_then_log (entry : gmap string pyval) (k : string) : M RasterBand :=
  try_except
    (v ← lookup_key entry k;
     B ← openRasterOneBand v;
     v' ← lookup_key entry k;
     logging_info ("Opened " +:+ pyval_str v' +:+ ".");;
     ret B)
    (open_failed entry k).

(** The form used for the later bands: the "Opened" record is written
    before the band is opened. *)
Definition log_then_open (entry : gmap string pyval) (k : string) : M RasterBand :=
  try_except
    (v' ← lookup_key entry k;
     logging_info ("Opened " +:+ pyval_str v' +:+ ".");;
     v ← lookup_key entry k;
     openRasterOneBand v)
    (open_failed entry k).

(** [[
    try:
        resultRaster = createMemoryRaster(result, '', B[1], B[2], -9999.0, 'MEM', B[7], B[8])
        logging.info("Saved.")
    except Exception as e: ...; continue
    ]] *)
Definition save_to_memory (product : string) (result : grid) (B : RasterBand)
    : M unit :=
  logging_info "Saving calculated dataset to memory.";;
  try_except
    (r ← createMemoryRaster result EmptyString (inCols B) (inRows B) nodata_f64 "MEM"
           (inGeotransform B) (inProj B);
     modify (set_resultRaster r);;
     logging_info "Saved.")
    (fun e =>
       logging_error ("Error while creation in memory output for " +:+ product +:+ ".");;
       logging_error (exn_str e);;
       continue_).

Definition branch_EVI (product : string) (entry : gmap string pyval) : M unit :=
  logging_info "Opening input bands.";;
  B08 ← open_then_log entry "B08";
  B04 ← log_then_open entry "B04";
  B02 ← log_then_open entry "B02";
  logging_info "Calcultiong EVI2";;
  result ← try_except
    (r ← call_index "EVI" (calculateEVI (inArray B08) (inArray B04) (inArray B02));
     logging_info "EVI2 calculated";;
     ret r)
    (fun e =>
       v1 ← lookup_key entry "B08";
       v2 ← lookup_key entry "B04";
       v3 ← lookup_key entry "B02";
       logging_error ("Error while calculating EVI2 from " +:+ pyval_str v1 +:+ " and "
                      +:+ pyval_str v2 +:+ " and " +:+ pyval_str v3 +:+ ".");;
       logging_error (exn_str e);;
       continue_);
  save_to_memory product result B08.

Definition branch_NDMI (product : string) (entry : gmap string pyval) : M unit :=
  logging_info "Opening input bands.";;
  B8A ← open_then_log entry "B8A";
  B11 ← log_then_open entry "B11";
  logging_info "Calcultiong NDMI";;
  result ← try_except
    (r ← call_index "NDMI" (calculateNDMI (inArray B8A) (inArray B11));
     logging_info "NDMI calculated";;
     ret r)
    (fun e =>
       v1 ← lookup_key entry "B8A";
       v2 ← lookup_key entry "B11";
       logging_error ("Error while calculating NDMI from " +:+ pyval_str v1 +:+ " and "
                      +:+ pyval_str v2 +:+ ".");;
       logging_error (exn_str e);;
       continue_);
  save_to_memory product result B8A.

Definition branch_NDWI (product : string) (entry : gmap string pyval) : M unit :=
  logging_info "Opening input bands.";;
  B03 ← open_then_log entry "B03";
  B08 ← log_then_open entry "B08";
  logging_info "Calcultiong NDWI";;
  result ← try_except
    (r ← call_index "NDWI" (calculateNDWI (inArray B03) (inArray B08));
     logging_info "NDWI calculated";;
     ret r)
    (fun e =>
       v1 ← lookup_key entry "B03";
       v2 ← lookup_key entry "B08";
       logging_error ("Error while calculating NDWI from " +:+ pyval_str v1 +:+ " and "
                      +:+ pyval_str v2 +:+ ".");;
       logging_error (exn_str e);;
       continue_);
  save_to_memory product result B03.

Definition branch_NDVI (product : string) (entry : gmap string pyval) : M unit :=
  logging_info "Opening input bands.";;
  B04 ← open_then_log entry "B04";
  B08 ← log_then_open entry "B08";
  logging_info "Calcultiong NDVI";;
  result ← try_except
    (r ← call_index "NDVI" (calculateNDVI (inArray B08) (inArray B04));
     logging_info "NDVI calculated";;
     ret r)
    (fun e =>
       v1 ← lookup_key entry "B08";
       v2 ← lookup_key entry "B04";
       logging_error ("Error while calculating NDVI from " +:+ pyval_str v1 +:+ " and "
                      +:+ pyval_str v2 +:+ ".");;
       logging_error (exn_str e);;
       continue_);
  save_to_memory product result B04.

(** The four [if productArgs[prodId]["name"] == ...] blocks, in order. *)
Definition compute_index (product : string) (entry : gmap string pyval) : M unit :=
  (if String.eqb product "EVI" then branch_EVI product entry else ret tt);;
  (if String.eqb product "NDMI" then branch_NDMI product entry else ret tt);;
  (if String.eqb product "NDWI" then branch_NDWI product entry else ret tt);;
  (if String.eqb product "NDVI" then branch_NDVI product entry else ret tt).

(** [[
    try:
        gdal.Warp(os.path.join(outFolder, outName), resultRaster, ...)
        logging.info("Done.")
    except Exception as e: ...; continue
    ]] *)
Definition clip_and_reproject (product : string) (outFolder outName : pyval)
    : M unit :=
  logging_info "Clipping and reporjecting output dataset.";;
  try_except
    (dst ← py_join outFolder outName;
     s ← get;
     src ← read_local "resultRaster" (resultRaster s);
     gdal_Warp dst src;;
     logging_info "Done.")
    (fun e =>
       logging_error ("Error while clipping or reprojecting " +:+ product +:+ ".");;
       logging_error (exn_str e);;
       continue_).

(** The body of [for tile in requiredInputOutputPaths.keys()] in the main
    calculation loop; [entry] is [requiredInputOutputPaths[tile]]. *)
Definition tile_body (product : string) (entry : gmap string pyval) : M unit :=
  outFolder ← lookup_key entry "outFolder";
  outName_ ← lookup_key entry "outName";
  modify (set_outName outName_);;
  dst ← py_join outFolder outName_;
  s ← get;
  (if negb (path_exists s dst) then
     compute_index product entry;;
     clip_and_reproject product outFolder outName_
   else ret tt);;
  dst' ← py_join outFolder outName_;
  s' ← get;
  modify (set_tiles (tiles s' ++ [dst'])).

(** The body of the loop that creates the output folders. *)
Definition folder_body (entry : gmap string pyval) : M unit :=
  outFolder ← lookup_key entry "outFolder";
  try_except
    (createOutFolder outFolder)
    (fun e =>
       logging_error ("Error while creating " +:+ pyval_str outFolder +:+ ".");;
       logging_error (exn_str e);;
       continue_).

(** [[
    try:
        requiredInputOutputPaths = getRequiredBandsPaths(...)
        logging.info(f"Fetched.")
    except Exception as e:
        logging.error(...); logging.error(e)
    ]]
    The handler has no [continue]: control falls through to the loops. *)
Definition fetch_paths (params : Params) (imageryDate : string) (args : ProductArgs)
    : M unit :=
  logging_info "Fetching and constructing input and output datasets paths.";;
  try_except
    (paths ← getRequiredBandsPaths (name args) imageryDate (bands args)
               (rawInput params) (productOutput params) (resolution args);
     modify (set_paths paths);;
     logging_info "Fetched.")
    (fun e =>
       logging_error ("Error while fetching and calculationg paths for "
                      +:+ name args);;
       logging_error (exn_str e)).

Definition create_folders : M unit :=
  logging_info "Creating output folders.";;
  s ← get;
  paths ← read_local "requiredInputOutputPaths" (requiredInputOutputPaths s);
  for_each paths folder_body;;
  logging_info "Output folders created.".

Definition calculate_tiles (args : ProductArgs) : M unit :=
  logging_info "Starting main calculation loop.";;
  modify (set_tiles []);;
  s ← get;
  paths ← read_local "requiredInputOutputPaths" (requiredInputOutputPaths s);
  for_each paths (tile_body (name args)).

(** From "Mosaicing tiles to output" to the end of the product's iteration. *)
Definition build_mosaic (params : Params) (imageryDate prodId : string)
    (args : ProductArgs) : M unit :=
  logging_info "Mosaicing tiles to output";;
  let mosaicFolder :=
    os_path_join w (os_path_join w (productOutput params) imageryDate) (name args) in
  s ← get;
  outName_ ← read_local "outName" (outName s);
  outNameStr ← match outName_ with
               | VStr n => ret n
               | VEmptyDict => raise AttributeError
               end;
  t1 ← list_index (split_on "_" outNameStr) 1;
  t2 ← list_index (split_on "_" outNameStr) 2;
  let mosaicName := str_take 8 t1 +:+ "_" +:+ t2 +:+ ".vrt" in
  logging_info "Creating mosaic output folder.";;
  try_except
    (createOutFolder (VStr mosaicFolder);;
     logging_info "Done.")
    (fun e =>
       logging_error ("Error while creating " +:+ mosaicFolder +:+ ".");;
       logging_error (exn_str e);;
       continue_);;
  let mosaicPath := os_path_join w mosaicFolder mosaicName in
  logging_info ("Creating tile mosaic " +:+ mosaicPath +:+ ".");;
  try_except
    (s' ← get;
     gdal_BuildVRT mosaicPath (tiles s');;
     logging_info ("Succesfully created mosaic: " +:+ mosaicPath +:+ "."))
    (fun e =>
       logging_error "Failed to create mosaic.";;
       logging_error (exn_str e);;
       continue_);;
  s'' ← get;
  entry ← match dict_get prodId (newProducts s'') with
          | Some e => ret e
          | None => raise (KeyError prodId)
          end;
  modify (set_newProducts
            (dict_set prodId (<["newDate" := imageryDate]> entry) (newProducts s''))).

(** The body of [for prodId in productArgs.keys()]. *)
Definition product_body (params : Params) (imageryDate : string)
    (item : string * ProductArgs) : M unit :=
  let '(prodId, args) := item in
  logging_info ("Start calculating " +:+ name args +:+ ".");;
  s ← get;
  modify (set_newProducts
            (dict_set prodId {["name" := name args]} (newProducts s)));;
  fetch_paths params imageryDate args;;
  create_folders;;
  calculate_tiles args;;
  build_mosaic params imageryDate prodId args.

(** A call starts with a fresh frame: no local variable is bound. *)
Definition fresh_frame (s : State) : State :=
  {| files := files s; dirs := dirs s; log := log s; calls := calls s;
     requiredInputOutputPaths := None; outName := None; resultRaster := None;
     tiles := []; newProducts := [] |}.

Definition calculateProducts (params : Params) (imageryDate : string)
    : M (list (string * gmap string string)) :=
  modify fresh_frame;;
  logging_info "Fetching arguments.";;
  logging_info "Parameters fetched.";;
  logging_info "Start processing products.";;
  for_each (products params) (product_body params imageryDate);;
  logging_info "Done.";;
  s ← get;
  ret (newProducts s).

(** *** The driver, [main] of [sentinel-2_process.py]

    The download stage has its own model (module [Download] below) and
    the loading of the JSON parameters is outside this development:
    [main] takes the date the downloader returned and the parameters
    [sentinelProductCalculator] read. *)
Definition publish_body (item : string * gmap string string) : M unit :=
  let '(prId, entry) := item in
  productName ← lookup_key entry "name";
  newDate ← lookup_key entry "newDate";
  publishNewDataset productName newDate.

Definition main (params : Params) (imageryDate dataSource : string) : M unit :=
  if String.eqb dataSource "sentinel-2" then
    newProducts_ ← calculateProducts params imageryDate;
    for_each newProducts_ publish_body
  else ret tt.

End Program.

(* ===================================================================== *)
(** ** Vocabulary of the statements in Part II                            *)
(* ===================================================================== *)

(** [respects R m]: whatever the outcome, the state [m] leaves is related by
    [R] to the state it started from. Instantiating [R] with a preorder that
    is closed under the primitive updates a statement may perform gives a
    frame property of that statement. *)
Definition respects (R : relation State) {A} (m : M A) : Prop :=
  forall s, R s (m s).2.

(** The calls of the band-to-raster part of the tile pipeline. *)
Definition band_call (c : Call) : Prop :=
  match c with
  | CallOpen _ | CallIndex _ | CallCreate _ => True
  | _ => False
  end.

(** The calls made before the mosaic of a product is built. *)
Definition tile_stage_call (c : Call) : Prop :=
  match c with
  | CallBuildVRT _ _ _ | CallPublish _ _ => False
  | _ => True
  end.

(** [s'] extends the call trace of [s] by calls that satisfy [P]. *)
Definition calls_extend (P : Call -> Prop) (s s' : State) : Prop :=
  exists new, calls s' = calls s ++ new /\ Forall P new.

(** The band codes each product's branch reads from its entry. *)
Definition bands_read (product : string) : list string :=
  if String.eqb product "EVI" then ["B08"; "B04"; "B02"]
  else if String.eqb product "NDMI" then ["B8A"; "B11"]
  else if String.eqb product "NDWI" then ["B03"; "B08"]
  else if String.eqb product "NDVI" then ["B04"; "B08"]
  else [].

(** The tile path of an entry whose output folder and name are resolved. *)
Definition entry_path (w : World) (entry : gmap string pyval) (p : string) : Prop :=
  exists f n, entry !! "outFolder" = Some (VStr f)
              /\ entry !! "outName" = Some (VStr n)
              /\ p = os_path_join w f n.

(** [s'] differs from [s] at most in the log, the call trace and
    [resultRaster]: what the band-to-raster part of the pipeline may change. *)
Definition same_disk_and_locals (s s' : State) : Prop :=
  files s' = files s /\ dirs s' = dirs s /\ tiles s' = tiles s
  /\ newProducts s' = newProducts s
  /\ requiredInputOutputPaths s' = requiredInputOutputPaths s
  /\ outName s' = outName s.

(* ===================================================================== *)
(** ** Concrete scenarios                                                 *)
(* ===================================================================== *)

(** A small world: directory listings and readable rasters are given by
    association lists, no GDAL or [os] call raises, and paths are joined
    with a slash. *)
Definition slash_join (a b : string) : string := a +:+ "/" +:+ b.

Definition one_pixel (v : Z) : Dataset :=
  {| ds_band1 := [[F32.of_Z v]]; ds_NoDataValue := None;
     RasterXSize := 1; RasterYSize := 1; RasterCount := 1;
     ds_DriverShortName := "JP2OpenJPEG"; ds_GeoTransform := [];
     ds_Projection := EmptyString; ds_ProjectionRef := EmptyString |}.

Definition world_of (listing : list (string * list string))
    (rasters : list (string * Dataset)) : World :=
  {| os_path_join := slash_join;
     os_path_splitext := fun p => (p, EmptyString);
     os_listdir := fun p => dict_get p listing;
     gdal_Open := fun p => dict_get p rasters;
     mem_Create_raises := fun _ _ _ _ => false;
     gdal_Warp_raises := fun _ _ => false;
     gdal_Warp_writes := fun _ _ => true;
     gdal_BuildVRT_raises := fun _ _ => false;
     gdal_BuildVRT_writes := fun _ _ => true;
     os_makedirs_raises := fun _ => false;
     publish_raises := fun _ _ => false |}.

Definition demo_params (product : string) (bands_ : list (string * string)) : Params :=
  {| rawInput := "raw"; clippingMask := "mask.shp"; outEPSG := "EPSG:3857";
     productOutput := "out";
     products := [("1", {| name := product; resolution := "R10m";
                           bands := bands_ |})] |}.

Definition img_dir (safe : string) : string :=
  "raw/20200105/" +:+ safe +:+ "/GRANULE/L2A_T33/IMG_DATA/R10m".

(** Two granules; the second one has no listable GRANULE directory. *)
Definition listing_second_granule_missing : list (string * list string) :=
  [ ("raw/20200105", ["A.SAFE"; "B.SAFE"]);
    ("raw/20200105/A.SAFE/GRANULE", ["L2A_T33"]);
    (img_dir "A.SAFE", ["T33_20200105T100_B04_10m.jp2"; "T33_20200105T100_B08_10m.jp2"]) ].

(** One granule in which the red band (B04) file is absent. *)
Definition listing_red_band_absent : list (string * list string) :=
  [ ("raw/20200105", ["A.SAFE"]);
    ("raw/20200105/A.SAFE/GRANULE", ["L2A_T33"]);
    (img_dir "A.SAFE", ["T33_20200105T100_B02_10m.jp2"; "T33_20200105T100_B08_10m.jp2"]) ].

(** One complete granule for NDVI. *)
Definition listing_one_granule : list (string * list string) :=
  [ ("raw/20200105", ["A.SAFE"]);
    ("raw/20200105/A.SAFE/GRANULE", ["L2A_T33"]);
    (img_dir "A.SAFE", ["T33_20200105T100_B04_10m.jp2"; "T33_20200105T100_B08_10m.jp2"]) ].

Definition rasters_A : list (string * Dataset) :=
  [ (img_dir "A.SAFE" +:+ "/T33_20200105T100_B02_10m.jp2", one_pixel 1000);
    (img_dir "A.SAFE" +:+ "/T33_20200105T100_B04_10m.jp2", one_pixel 2000);
    (img_dir "A.SAFE" +:+ "/T33_20200105T100_B08_10m.jp2", one_pixel 8000) ].

Definition ndvi_bands : list (string * string) := [("red", "B04"); ("nir", "B08")].
Definition evi_bands : list (string * string) :=
  [("nir", "B08"); ("red", "B04"); ("blue", "B02")].

Definition makedirs_call (c : Call) : Prop :=
  match c with
  | CallMakedirs _ => True
  | _ => False
  end.

(** What the path, folder and tile stages of a product may do: any call but
    BuildVRT and publishing, and no change to [newProducts]. *)
Definition tile_stage (s s' : State) : Prop :=
  newProducts s' = newProducts s /\ calls_extend tile_stage_call s s'.

(** The three stages that precede the mosaic of a product. *)
Definition before_mosaic (w : World) (params : Params) (imageryDate : string)
    (args : ProductArgs) : M unit :=
  fetch_paths w params imageryDate args;;
  create_folders w;;
  calculate_tiles w args.


(** The entry of the complete NDVI granule, and the state in which the tile
    loop finds it. *)
Definition demo_ndvi_args : ProductArgs :=
  {| name := "NDVI"; resolution := "R10m"; bands := ndvi_bands |}.

Definition demo_ndvi_entry : gmap string pyval :=
  <["outFolder" := VStr "out/20200105/NDVI"]>
    (<["outName" := VStr "T33_20200105T100_NDVI_0.tif"]>
       (<["B04" := VStr (img_dir "A.SAFE" +:+ "/T33_20200105T100_B04_10m.jp2")]>
          {["B08" := VStr (img_dir "A.SAFE" +:+ "/T33_20200105T100_B08_10m.jp2")]})).

Definition demo_ndvi_tile : string := "out/20200105/NDVI/T33_20200105T100_NDVI_0.tif".

Definition demo_world : World := world_of listing_one_granule rasters_A.

Definition demo_tile_state : State := set_paths [demo_ndvi_entry] (initial_state ∅ ∅).


(** The GRANULE folder of a .SAFE directory, and whether its first element
    can be obtained ([os.listdir(granuleFolder)[0]]). *)
Definition granule_folder (w : World) (rawBandFolder safeFolder : string) : string :=
  os_path_join w (os_path_join w rawBandFolder safeFolder) "GRANULE".

Definition granule_listable (w : World) (rawBandFolder safeFolder : string) : Prop :=
  is_Some (os_listdir w (granule_folder w rawBandFolder safeFolder) ≫= head).

(** A granule that path resolution gets through: the first element of its
    GRANULE folder can be obtained, the folder of its raw bands can be
    listed, and every name in it has a third [_]-separated token. *)
Definition granule_resolvable (w : World) (rawBandFolder resolution_
    safeFolder : string) : Prop :=
  exists fFolder rawBands,
    os_listdir w (granule_folder w rawBandFolder safeFolder) ≫= head
    = Some fFolder
    /\ os_listdir w
         (os_path_join w
            (os_path_join w
               (os_path_join w (granule_folder w rawBandFolder safeFolder)
                  fFolder) "IMG_DATA") resolution_)
       = Some rawBands
    /\ Forall (fun rawBand => is_Some (split_on "_" rawBand !! 2%nat)) rawBands.

Definition world_second_granule_missing : World :=
  world_of listing_second_granule_missing rasters_A.

(** The demo world in which no raster can be read: every tile fails at its
    first band. *)
Definition world_unreadable : World := world_of listing_one_granule [].

(** The mosaic folder and mosaic path of a product, as [build_mosaic] forms
    them from the output name left by the last tile. *)
Definition mosaic_folder (w : World) (params : Params) (imageryDate : string)
    (args : ProductArgs) : string :=
  os_path_join w (os_path_join w (productOutput params) imageryDate) (name args).

Definition mosaic_path (w : World) (params : Params) (imageryDate : string)
    (args : ProductArgs) (t1 t2 : string) : string :=
  os_path_join w (mosaic_folder w params imageryDate args)
    (str_take 8 t1 +:+ "_" +:+ t2 +:+ ".vrt").

(** The state the mosaic step finds when the only tile of the demo granule
    has failed: no tile, the output name left by the loop, the product
    registered under its name. *)
Definition demo_mosaic_state : State :=
  set_newProducts [("1", {["name" := "NDVI"]})]
    (set_outName (VStr "T33_20200105T100_NDVI_0.tif") (initial_state ∅ ∅)).

Definition is_error (r : Level * string) : bool :=
  match r.1 with
  | ERROR => true
  | INFO => false
  end.

Definition world_red_band_absent : World :=
  world_of listing_red_band_absent rasters_A.

(** The EVI entry of the granule whose red band is absent: the role B04 is
    left at its placeholder. *)
Definition demo_evi_entry : gmap string pyval :=
  <["outFolder" := VStr "out/20200105/EVI"]>
    (<["outName" := VStr "T33_20200105T100_EVI_0.tif"]>
       (<["B02" := VStr (img_dir "A.SAFE" +:+ "/T33_20200105T100_B02_10m.jp2")]>
          (<["B04" := VEmptyDict]>
             {["B08" := VStr (img_dir "A.SAFE" +:+ "/T33_20200105T100_B08_10m.jp2")]}))).

(** Three runs used as counterexamples in Part II. *)
Definition run_second_granule_missing : Outcome (list (gmap string pyval)) * State :=
  getRequiredBandsPaths world_second_granule_missing "NDVI" "20200105"
    ndvi_bands "raw" "out" "R10m" (initial_state ∅ ∅).

Definition run_red_band_absent
    : Outcome (list (string * gmap string string)) * State :=
  calculateProducts world_red_band_absent (demo_params "EVI" evi_bands)
    "20200105" (initial_state ∅ ∅).

Definition run_unreadable : Outcome (list (string * gmap string string)) * State :=
  calculateProducts world_unreadable (demo_params "NDVI" ndvi_bands) "20200105"
    (initial_state ∅ ∅).

(** [raises_always m]: [m] raises from every state. *)
Definition raises_always {A} (m : M A) : Prop :=
  forall s, exists e, (m s).1 = Raised e.

(** One granule whose IMG_DATA folder has no sub-folder for the configured
    resolution: [os.listdir(pathToRaw)] raises inside
    [getRequiredBandsPaths]. *)
Definition listing_resolution_missing : list (string * list string) :=
  [ ("raw/20200105", ["A.SAFE"]);
    ("raw/20200105/A.SAFE/GRANULE", ["L2A_T33"]) ].

Definition world_resolution_missing : World :=
  world_of listing_resolution_missing rasters_A.

(** The demo world in which [gdal.Warp] fails the way GDAL does when its
    exceptions are not enabled: it returns [None] and writes nothing (the
    clipping mask cannot be opened, say). *)
Definition world_warp_fails_silently : World :=
  {| os_path_join := slash_join;
     os_path_splitext := fun p => (p, EmptyString);
     os_listdir := fun p => dict_get p listing_one_granule;
     gdal_Open := fun p => dict_get p rasters_A;
     mem_Create_raises := fun _ _ _ _ => false;
     gdal_Warp_raises := fun _ _ => false;
     gdal_Warp_writes := fun _ _ => false;
     gdal_BuildVRT_raises := fun _ _ => false;
     gdal_BuildVRT_writes := fun _ _ => true;
     os_makedirs_raises := fun _ => false;
     publish_raises := fun _ _ => false |}.

Definition run_warp_fails_silently
    : Outcome (list (string * gmap string string)) * State :=
  calculateProducts world_warp_fails_silently (demo_params "NDVI" ndvi_bands)
    "20200105" (initial_state ∅ ∅).

(** The raster computed for the demo tile, and the state in which its warp
    step starts. *)
Definition demo_ndvi_raster : MemRaster :=
  {| mr_array := [[F32.c0_6]]; mr_cols := 1; mr_rows := 1;
     mr_nodata := nodata_f64; mr_geotransform := []; mr_proj := EmptyString |}.

Definition demo_warp_state : State :=
  (compute_index world_warp_fails_silently "NDVI" demo_ndvi_entry
     (set_outName (VStr "T33_20200105T100_NDVI_0.tif") (initial_state ∅ ∅))).2.
(* ===================================================================== *)
(** ** Further vocabulary: the rest of the program                        *)
(* ===================================================================== *)

(** A formula value [v] is kept by the post-processing of a calculator with
    ceiling [hi] when it is a number, finite, no contributing band is zero
    ([zero_any] false) and it lies in [[-1, hi]]. *)
Definition kept_px (hi v : spec_float) (zero_any : bool) : bool :=
  negb (F32.is_nan v) && negb (F32.is_inf v) && negb zero_any
  && negb (F32.ltb hi v) && negb (F32.ltb v F32.minus_one).

(** Whether the character [c] occurs in [s]. *)
Fixpoint has_char (c : ascii) (s : string) : bool :=
  match s with
  | EmptyString => false
  | String c' s' => Ascii.eqb c' c || has_char c s'
  end.

(** A raw file name matches a band code when the third of its
    underscore-separated tokens is the code. *)
Definition band_matches (code rawBand : string) : Prop :=
  split_on "_" rawBand !! 2%nat = Some code.

#[global] Instance band_matches_dec (code rawBand : string)
    : Decision (band_matches code rawBand) :=
  decide (split_on "_" rawBand !! 2%nat = Some code).

(** What the band loop leaves under a band code: the path of the last raw
    file that matches it, or the placeholder when none does. *)
Definition resolved_band (w : World) (pathToRaw : string) (rawBands : list string)
    (code : string) : pyval :=
  match last (filter (band_matches code) rawBands) with
  | Some rawBand => VStr (os_path_join w pathToRaw rawBand)
  | None => VEmptyDict
  end.

(** The tile name built from the first two tokens of a raw file name. *)
Definition tile_name (t0 t1 product : string) (ii : nat) : string :=
  t0 +:+ "_" +:+ t1 +:+ "_" +:+ product +:+ "_" +:+ pretty ii +:+ ".tif".

(** The folder of the raw band files of a granule. *)
Definition raw_band_folder (w : World) (rawBandFolder safeFolder fFolder
    resolution_ : string) : string :=
  os_path_join w
    (os_path_join w
       (os_path_join w (granule_folder w rawBandFolder safeFolder) fFolder)
       "IMG_DATA")
    resolution_.

(** The two error records of the [break] in the granule loop. *)
Definition log_break (granuleFolder : string) (s : State) : State :=
  add_log (ERROR, "e") (add_log (ERROR, granuleFolder +:+ " is empty.") s).

(** One granule whose band folder also holds a file that is not a band
    image: its name has fewer than three tokens. *)
Definition listing_stray_file : list (string * list string) :=
  [ ("raw/20200105", ["A.SAFE"]);
    ("raw/20200105/A.SAFE/GRANULE", ["L2A_T33"]);
    (img_dir "A.SAFE", ["T33_20200105T100_B04_10m.jp2"; "Thumbs.db";
                        "T33_20200105T100_B08_10m.jp2"]) ].

Definition world_stray_file : World := world_of listing_stray_file rasters_A.

(** A band folder in which the red band has been delivered twice. *)
Definition demo_rawBands_twice : list string :=
  ["T33_20200105T100_B04_10m.jp2"; "T33_20200105T100_B08_10m.jp2";
   "T33_20200105T101_B04_10m.jp2"].

Definition demo_entry_twice : gmap string pyval :=
  <["outName" := VStr "T33_20200105T100_NDVI_0.tif"]>
    (<["outFolder" := VStr "out/20200105/NDVI"]>
       (<["B08" := VStr (img_dir "A.SAFE" +:+ "/T33_20200105T100_B08_10m.jp2")]>
          (<["B04" := VStr (img_dir "A.SAFE" +:+ "/T33_20200105T101_B04_10m.jp2")]>
             ∅))).

(** [recovers m]: [m] lets no exception out. *)
Definition recovers {A} (m : M A) : Prop :=
  forall s e, (m s).1 <> Raised e.

(** An entry that has its two output keys and every band key the branch of
    the product reads. *)
Definition complete_entry (product : string) (entry : gmap string pyval) : Prop :=
  (exists f, entry !! "outFolder" = Some (VStr f))
  /\ (exists n, entry !! "outName" = Some (VStr n))
  /\ forall k, k ∈ bands_read product -> is_Some (entry !! k).

(** The publication of one entry of [newProducts], when it has both keys. *)
Definition publication (item : string * gmap string string) : option Call :=
  match item.2 !! "name", item.2 !! "newDate" with
  | Some n, Some d => Some (CallPublish n d)
  | _, _ => None
  end.

Definition publish_calls (np : list (string * gmap string string)) : list Call :=
  omap publication np.

(** The entry resolved for a granule whose band folder holds no file of a
    configured band, next to a complete one. *)
Definition demo_entry_no_file : gmap string pyval :=
  <["B08" := VEmptyDict]> (<["B04" := VEmptyDict]> ∅).

Definition demo_folder_state : State :=
  set_paths [demo_ndvi_entry; demo_entry_no_file] (initial_state ∅ ∅).

(** An NDVI entry resolved from a configuration that names the near-infrared
    band B8A where the NDVI branch reads B08. *)
Definition demo_entry_B8A : gmap string pyval :=
  <["outFolder" := VStr "out/20200105/NDVI"]>
    (<["outName" := VStr "T33_20200105T100_NDVI_0.tif"]>
       (<["B8A" := VStr (img_dir "A.SAFE" +:+ "/T33_20200105T100_B8A_20m.jp2")]>
          {["B04" := VStr (img_dir "A.SAFE" +:+ "/T33_20200105T100_B04_10m.jp2")]})).

(** The raster a previous product has left in [resultRaster]. *)
Definition demo_raster : MemRaster :=
  {| mr_array := [[F32.of_Z 1]]; mr_cols := 1; mr_rows := 1;
     mr_nodata := nodata_f64; mr_geotransform := []; mr_proj := EmptyString |}.

Definition demo_stale_state : State :=
  set_resultRaster demo_raster (initial_state ∅ ∅).

(** The demo world in which no folder can be created. *)
Definition world_makedirs_raises : World :=
  {| os_path_join := slash_join;
     os_path_splitext := fun p => (p, EmptyString);
     os_listdir := fun p => dict_get p listing_one_granule;
     gdal_Open := fun p => dict_get p rasters_A;
     mem_Create_raises := fun _ _ _ _ => false;
     gdal_Warp_raises := fun _ _ => false;
     gdal_Warp_writes := fun _ _ => true;
     gdal_BuildVRT_raises := fun _ _ => false;
     gdal_BuildVRT_writes := fun _ _ => true;
     os_makedirs_raises := fun _ => true;
     publish_raises := fun _ _ => false |}.

(** A date folder that holds no granule. *)
Definition world_no_granule : World := world_of [("raw/20200105", [])] rasters_A.

(** A complete run of the driver on the demo world. *)
Definition demo_published : list (string * gmap string string) :=
  [("1", <["newDate" := "20200105"]> {["name" := "NDVI"]})].

Definition demo_calc_run
    : Outcome (list (string * gmap string string)) * State :=
  calculateProducts demo_world (demo_params "NDVI" ndvi_bands) "20200105"
    (initial_state ∅ ∅).

Definition demo_main_run : Outcome unit * State :=
  main demo_world (demo_params "NDVI" ndvi_bands) "20200105" "sentinel-2"
    (initial_state ∅ ∅).

(** The state after the output folder of the demo tile has been created. *)
Definition demo_folder_made : State :=
  add_dir "out/20200105/NDVI"
    (add_call (CallMakedirs "out/20200105/NDVI") (initial_state ∅ ∅)).


(** The calculator a product's branch calls, on the arrays of the bands the
    branch reads, in the order it reads them. *)
Definition index_of (product : string) (arrays : list grid) : option grid :=
  if String.eqb product "EVI" then
    match arrays with
    | [b08; b04; b02] => calculateEVI b08 b04 b02
    | _ => None
    end
  else if String.eqb product "NDMI" then
    match arrays with
    | [b8a; b11] => calculateNDMI b8a b11
    | _ => None
    end
  else if String.eqb product "NDWI" then
    match arrays with
    | [b03; b08] => calculateNDWI b03 b08
    | _ => None
    end
  else if String.eqb product "NDVI" then
    match arrays with
    | [b04; b08] => calculateNDVI b08 b04
    | _ => None
    end
  else None.

(** The entry names, under key [k], a raster that opens as [d]. *)
Definition opens_as (w : World) (entry : gmap string pyval) (k : string)
    (d : Dataset) : Prop :=
  exists p, entry !! k = Some (VStr p) /\ gdal_Open w p = Some d.

(** The in-memory raster built from grid [g] with the geometry of [d]. *)
Definition raster_like (d : Dataset) (g : grid) : MemRaster :=
  {| mr_array := g; mr_cols := RasterXSize d; mr_rows := RasterYSize d;
     mr_nodata := nodata_f64; mr_geotransform := ds_GeoTransform d;
     mr_proj := ds_Projection d |}.

(* ===================================================================== *)
(** ** [clearIntermediateData]                                            *)
(* ===================================================================== *)

(** [shutil.rmtree] is given by three parameters: whether the call raises
    for a path, which paths lie inside a folder, and which of them a call
    that raises has deleted before it fails. A call that returns removes the
    folder and everything inside it. *)
Section Cleanup.
Context (w : World) (rmtree_raises : string -> bool)
  (inside lost : string -> string -> bool).

Definition survives (p q : string) : Prop := q <> p /\ inside p q = false.

#[local] Instance survives_dec (p q : string) : Decision (survives p q) :=
  decide (q <> p /\ inside p q = false).

Definition spared (p q : string) : Prop := inside p q && lost p q = false.

#[local] Instance spared_dec (p q : string) : Decision (spared p q) :=
  decide (inside p q && lost p q = false).

Definition remove_part (p : string) (s : State) : State :=
  {| files := filter (spared p) (files s);
     dirs := filter (spared p) (dirs s);
     log := log s; calls := calls s;
     requiredInputOutputPaths := requiredInputOutputPaths s;
     outName := outName s; resultRaster := resultRaster s; tiles := tiles s;
     newProducts := newProducts s |}.

Definition remove_tree (p : string) (s : State) : State :=
  {| files := filter (survives p) (files s);
     dirs := filter (survives p) (dirs s);
     log := log s; calls := calls s;
     requiredInputOutputPaths := requiredInputOutputPaths s;
     outName := outName s; resultRaster := resultRaster s; tiles := tiles s;
     newProducts := newProducts s |}.

Definition rmtree (p : string) : M unit :=
  if rmtree_raises p then modify (remove_part p);; raise (OSError p)
  else modify (remove_tree p).

(** The body of [for element in content]. *)
Definition clear_element (intermediateDataFolder element : string) : M unit :=
  let elPath := os_path_join w intermediateDataFolder element in
  s ← get;
  if path_isdir s elPath then
    logging_info ("Atempting to delete " +:+ elPath +:+ " and its contents.");;
    try_except
      (rmtree elPath;;
       logging_info "Success.")
      (fun e =>
         logging_error "Failed delete intermediate data.";;
         logging_error (exn_str e);;
         continue_)
  else
    logging_info ("Skipped " +:+ elPath +:+ ".").

Definition clearIntermediateData (intermediateDataFolder : string) : M unit :=
  logging_info ("Starting cleanup of " +:+ intermediateDataFolder +:+ ".");;
  content ← listdir w intermediateDataFolder;
  for_each content (clear_element intermediateDataFolder).
End Cleanup.

(** The paths on disk, and the paths a run has taken off it. *)
Definition on_disk (s : State) (q : string) : Prop := q ∈ files s \/ q ∈ dirs s.

Definition removed (s s' : State) (q : string) : Prop :=
  (q ∈ files s /\ q ∉ files s') \/ (q ∈ dirs s /\ q ∉ dirs s').

(** A processing folder with a log file and two tile folders, one of which
    cannot be deleted. *)
Definition demo_cleanup_state : State :=
  {| files := {["tmp/run.log"; "tmp/20200105/NDVI_0.tif"; "tmp/20200110/NDVI_0.tif"]};
     dirs := {["tmp"; "tmp/20200105"; "tmp/20200110"]};
     log := []; calls := [];
     requiredInputOutputPaths := None; outName := None; resultRaster := None;
     tiles := []; newProducts := [] |}.

Definition demo_cleanup_world : World :=
  world_of [("tmp", ["run.log"; "20200105"; "20200110"])] [].

Definition demo_inside (p q : string) : bool := String.prefix (p +:+ "/") q.

Definition demo_rmtree_raises (p : string) : bool := String.eqb p "tmp/20200110".

Definition demo_lost (p q : string) : bool := false.

(* ===================================================================== *)
(** ** The download stage, [Sentinel2/A0_sentinel2_download.py]           *)
(* ===================================================================== *)

(** The stage talks to the Copernicus hub, parses the hub's answer and
    unpacks archives. The hub, the XML parser, the archive library and the
    file system are parameters ([World]); what the code does with their
    answers is modelled statement by statement. The stage has its own state:
    the log (with warnings), the requests sent, the folders made and the
    archives unpacked. *)
Module Download.

Inductive Level := INFO | WARNING | ERROR.

(** [requests.Response], as far as the code reads it. *)
Record Response := {
  status_code : Z;
  content : string;
  text : string;
}.

(** An [xml.etree.ElementTree.Element]: its attributes, its text (which may
    be [None]) and its children. *)
#[local] Set Warnings "-register-all".
Inductive Element :=
| Elem (attrib : gmap string string) (text : option string)
       (children : list Element).

Definition attrib (e : Element) : gmap string string :=
  match e with Elem a _ _ => a end.
Definition el_text (e : Element) : option string :=
  match e with Elem _ t _ => t end.
Definition children (e : Element) : list Element :=
  match e with Elem _ _ c => c end.

(** The information kept for one product: a dictionary with (some of) the
    keys filename, pLevel, uuid and roNumber; a value is an element's text. *)
Abbreviation Product := (gmap string (option string)).

Record World := {
  (** [requests.get(url, auth=(user, password))], by the number of requests
      sent before it; [None]: the call raises. *)
  requests_get : nat -> string -> string -> string -> option Response;
  (** [ET.fromstring] on a response body; [None]: the call raises. *)
  ET_fromstring : string -> option Element;
  (** whether [ZipFile(BytesIO(content)).extractall(folder)] raises *)
  extractall_raises : string -> string -> bool;
  os_makedirs_raises : string -> bool;
  (** [str] of a dictionary, as an f-string writes it *)
  repr : Product -> string;
  repr_all : list (string * Product) -> string;
}.

(** The last field is the local variable [imageryDate] of
    [downoadImagery]; [None]: not bound yet. *)
Record State := {
  log : list (Level * string);
  requests : list string;              (* the URLs requested, in order *)
  dirs : gset string;
  extracted : list (string * string);  (* (folder, archive) *)
  imageryDate : option string;
}.

Definition initial_state : State :=
  {| log := []; requests := []; dirs := ∅; extracted := []; imageryDate := None |}.

Definition add_log (r : Level * string) (s : State) : State :=
  {| log := log s ++ [r]; requests := requests s; dirs := dirs s;
     extracted := extracted s; imageryDate := imageryDate s |}.
Definition add_request (url : string) (s : State) : State :=
  {| log := log s; requests := requests s ++ [url]; dirs := dirs s;
     extracted := extracted s; imageryDate := imageryDate s |}.
Definition add_dir (p : string) (s : State) : State :=
  {| log := log s; requests := requests s; dirs := {[p]} ∪ dirs s;
     extracted := extracted s; imageryDate := imageryDate s |}.
Definition add_extracted (folder archive : string) (s : State) : State :=
  {| log := log s; requests := requests s; dirs := dirs s;
     extracted := extracted s ++ [(folder, archive)];
     imageryDate := imageryDate s |}.
Definition set_imageryDate (v : option string) (s : State) : State :=
  {| log := log s; requests := requests s; dirs := dirs s;
     extracted := extracted s; imageryDate := v |}.

(** Statements of the download stage: the monad of the product stage, over
    this stage's state. *)
Definition D (A : Type) : Type := State -> Outcome A * State.

Definition ret {A} (a : A) : D A := fun s => (Normal a, s).

Definition bind {A B} (m : D A) (f : A -> D B) : D B :=
  fun s =>
    match m s with
    | (Normal a, s') => f a s'
    | (Continue, s') => (Continue, s')
    | (Raised e, s') => (Raised e, s')
    end.

#[global] Instance D_ret : MRet D := @ret.
#[global] Instance D_bind : MBind D := fun A B f m => bind m f.

Definition raise {A} (e : Exn) : D A := fun s => (Raised e, s).
Definition continue_ {A} : D A := fun s => (Continue, s).

Definition try_except {A} (body : D A) (handler : Exn -> D A) : D A :=
  fun s =>
    match body s with
    | (Raised e, s') => handler e s'
    | r => r
    end.

(** [for x in xs: body], for a body without [break]. *)
Fixpoint for_each {X} (xs : list X) (body : X -> D unit) : D unit :=
  match xs with
  | [] => ret tt
  | x :: xs' =>
      fun s =>
        match body x s with
        | (Raised e, s') => (Raised e, s')
        | (_, s') => for_each xs' body s'
        end
  end.

Definition modify (f : State -> State) : D unit := fun s => (Normal tt, f s).
Definition get_state : D State := fun s => (Normal s, s).

Definition logging_info (msg : string) : D unit := modify (add_log (INFO, msg)).
Definition logging_warning (msg : string) : D unit :=
  modify (add_log (WARNING, msg)).
Definition logging_error (msg : string) : D unit := modify (add_log (ERROR, msg)).

Definition lookup_key {V} (d : gmap string V) (k : string) : D V :=
  match d !! k with
  | Some v => ret v
  | None => raise (KeyError k)
  end.

Definition list_index {A} (l : list A) (n : nat) : D A :=
  match l !! n with
  | Some a => ret a
  | None => raise IndexError
  end.

(** The one-character string of a backslash, the path separator the code
    writes. *)
Definition backslash : string := String (ascii_of_nat 92) EmptyString.

(** [str(x)] in an f-string, for a text that may be [None]. *)
Definition str_of (t : option string) : string := default "None" t.

(** The parameters read from [A0P_sentinel2_download.json]. *)
Record Data := {
  user : string;
  password : string;
  extent : string;
  platform : string;
  daysback : string;
  processinglevel : string;
  relativeorbitnumber : string;
  outFolder : string;
}.

Section Program.
Context (w : World).

Definition requests_get_ (url user_ password_ : string) : D Response :=
  fun s =>
    match requests_get w (length (requests s)) url user_ password_ with
    | Some r => (Normal r, add_request url s)
    | None => (Raised (RuntimeError "requests.get"), add_request url s)
    end.

Definition makedirs (p : string) : D unit :=
  if os_makedirs_raises w p then raise (OSError p) else modify (add_dir p).

(** *** [createOutFolder] *)
Definition createOutFolder (outFolder_ : string) : D unit :=
  s ← get_state;
  if negb (bool_decide (outFolder_ ∈ dirs s)) then makedirs outFolder_
  else ret tt.

(** *** [getProductXML] *)

Definition search_url (extent_ platform_ daysback_ : string) : string :=
  "https://scihub.copernicus.eu/dhus/search?start=0&rows=100&q=(footprint:%22Intersects("
  +:+ extent_ +:+ ")%22%20AND%20platformname:" +:+ platform_
  +:+ "%20AND%20ingestiondate:%5bNOW-" +:+ daysback_ +:+ "%20TO%20NOW%5d)".

(** [[
    while response.status_code != 200:
        logging.warning(...); logging.info(...); logging.info(...)
        response = requests.get(URL, auth=(user, password))
        i += 1
        if i > 15:
            logging.error(...)
            break
    ]]
    The result is the response the loop is left with. The recursion is on
    [fuel]; [None] is returned when it runs out, which 16 units never do
    ([retry_spec] in Part III). *)
Fixpoint retry (fuel : nat) (user_ password_ extent_ platform_ daysback_ URL : string)
    (response : Response) (i : nat) : D (option Response) :=
  if negb (status_code response =? 200) then
    match fuel with
    | O => ret None
    | S fuel' =>
        logging_warning ("Got invalid response status code ("
                         +:+ pretty (status_code response)
                         +:+ "). Retrying. Attempt no." +:+ pretty i +:+ "/15.");;
        logging_info ("Starting fetch available products xml as user "
                      +:+ user_ +:+ ".");;
        logging_info ("Used arguments are: " +:+ extent_ +:+ "," +:+ platform_
                      +:+ "," +:+ daysback_ +:+ ".");;
        response' ← requests_get_ URL user_ password_;
        let i' := S i in
        if (15 <? i')%nat then
          logging_error "Exceeded number of allowed attempts.";;
          ret (Some response')
        else
          retry fuel' user_ password_ extent_ platform_ daysback_ URL response' i'
    end
  else ret (Some response).

(** The function returns [response.content], or [None] when the [except]
    branch is taken (it has no [return]). *)
Definition getProductXML (user_ password_ extent_ platform_ daysback_ : string)
    : D (option string) :=
  logging_info ("Starting fetch available products xml as user " +:+ user_ +:+ ".");;
  logging_info ("Used arguments are: " +:+ extent_ +:+ ", " +:+ platform_
                +:+ ", " +:+ daysback_ +:+ ".");;
  let URL := search_url extent_ platform_ daysback_ in
  try_except
    (response ← requests_get_ URL user_ password_;
     logging_info "Xml fetched.";;
     last ← retry 16 user_ password_ extent_ platform_ daysback_ URL response 0;
     match last with
     | Some response' => ret (Some (content response'))
     | None => raise (RuntimeError "out of fuel")
     end)
    (fun e =>
       logging_error "An error occured while fetching xml.";;
       logging_error (exn_str e);;
       ret None).

(** *** [getProductParams] *)

(** The four [if entry.attrib == {'name': ...}] of the inner loop. *)
Definition read_entry (queryDictEl : Product) (entry : Element) : Product :=
  let d1 := if decide (attrib entry = {["name" := "filename"]})
            then <["filename" := el_text entry]> queryDictEl else queryDictEl in
  let d2 := if decide (attrib entry = {["name" := "processinglevel"]})
            then <["pLevel" := el_text entry]> d1 else d1 in
  let d3 := if decide (attrib entry = {["name" := "uuid"]})
            then <["uuid" := el_text entry]> d2 else d2 in
  if decide (attrib entry = {["name" := "relativeorbitnumber"]})
  then <["roNumber" := el_text entry]> d3 else d3.

(** [for entry in child], from an empty dictionary. *)
Definition read_child (child : Element) : Product :=
  foldl read_entry ∅ (children child).

(** The first pass, [for child in root]. *)
Fixpoint first_pass (childs : list Element) (i : nat)
    (queryDict : list (string * Product)) : D (list (string * Product)) :=
  match childs with
  | [] => ret queryDict
  | child :: rest =>
      let queryDictEl := read_child child in
      if (0 <? size queryDictEl)%nat then
        logging_info ("Succesfully queried " +:+ pretty i +:+ ": "
                      +:+ repr w queryDictEl +:+ ".");;
        first_pass rest (S i) (dict_set (pretty i) queryDictEl queryDict)
      else first_pass rest i queryDict
  end.

(** [x in d.values()] for a string [x]. *)
Definition in_values (x : string) (d : Product) : bool :=
  bool_decide (Some x ∈ (map_to_list d).*2).

(** The second pass, [for productNo in queryDict.keys()], over the items of
    the dictionary; nothing in its body can raise. *)
Fixpoint second_pass (processinglevel_ relativeorbitnumber_ : string)
    (items : list (string * Product)) (i : nat)
    (productsToDownload : list (string * Product))
    : D (list (string * Product)) :=
  match items with
  | [] => ret productsToDownload
  | (productNo, el) :: rest =>
      if in_values processinglevel_ el && in_values relativeorbitnumber_ el then
        logging_info ("Succesfully queried " +:+ pretty i +:+ ": "
                      +:+ repr w el +:+ ".");;
        second_pass processinglevel_ relativeorbitnumber_ rest (S i)
          (dict_set (pretty i) el productsToDownload)
      else
        second_pass processinglevel_ relativeorbitnumber_ rest i
          productsToDownload
  end.

(** [productXML] is what [getProductXML] returned: a body or [None]. The
    handler of the parsing has no [return]: with [root] unbound, the loop
    over it raises. *)
Definition getProductParams (productXML : option string)
    (processinglevel_ relativeorbitnumber_ : string)
    : D (list (string * Product)) :=
  logging_info "Starting parsing product .xml.";;
  root ← try_except
    (match productXML with
     | None => raise TypeError
     | Some body =>
         match ET_fromstring w body with
         | Some r => ret (Some r)
         | None => raise (RuntimeError "ParseError")
         end
     end)
    (fun e =>
       logging_error "Error occured while parsing xml.";;
       logging_error (exn_str e);;
       ret None);
  logging_info "Starting queryng product .xml for imagery related info.";;
  root' ← match root with
          | Some r => ret r
          | None => raise (UnboundLocalError "root")
          end;
  queryDict ← first_pass (children root') 0 [];
  logging_info ("Succesfully queried " +:+ pretty (length queryDict)
                +:+ " imagery related entries.");;
  logging_info ("Starting queryng product .xml for processing level: "
                +:+ processinglevel_ +:+ " and relative orbit no.: "
                +:+ relativeorbitnumber_ +:+ ".");;
  productsToDownload ← second_pass processinglevel_ relativeorbitnumber_
                         queryDict 0 [];
  logging_info ("Succesfully queried " +:+ pretty (length productsToDownload)
                +:+ " entries that match input arguments.");;
  ret productsToDownload.

(** *** [downoadImagery] *)

Definition download_url (uuid : option string) : string :=
  "https://scihub.copernicus.eu/dhus/odata/v1/Products('" +:+ str_of uuid
  +:+ "')//$value".

(** [x.split('_')] for a text that may be [None]. *)
Definition split_text (t : option string) : D (list string) :=
  match t with
  | Some s => ret (split_on "_" s)
  | None => raise AttributeError
  end.

(** The body of [for productParam in productParams.keys()];
    [productParam] is [productParams[productParam]]. *)
Definition download_body (user_ password_ outFolder_ : string)
    (productParam : Product) : D unit :=
  filename ← lookup_key productParam "filename";
  tokens ← split_text filename;
  token ← list_index tokens 2;
  let imageryDate_ := str_take 8 token in
  modify (set_imageryDate (Some imageryDate_));;
  let imageryFolder := outFolder_ +:+ imageryDate_ +:+ backslash in
  let saveTo := imageryFolder +:+ str_of filename in
  try_except
    (logging_info ("Creating destination folder: " +:+ imageryFolder +:+ ".");;
     createOutFolder imageryFolder;;
     logging_info "Success.")
    (fun e =>
       logging_error ("Failed to create destination folder: "
                      +:+ imageryFolder +:+ ".");;
       logging_error (exn_str e);;
       continue_);;
  uuid ← lookup_key productParam "uuid";
  let url := download_url uuid in
  try_except
    (logging_info ("Downloading: " +:+ str_of filename +:+ ", from " +:+ url +:+ ".");;
     response ← requests_get_ url user_ password_;
     if status_code response =? 200 then
       logging_info ("Downloaded: " +:+ str_of filename +:+ ", from " +:+ url
                     +:+ ", proceeding to extract.");;
       try_except
         ((if extractall_raises w (content response) imageryFolder
           then raise (RuntimeError "zipfile")
           else modify (add_extracted imageryFolder (content response)));;
          logging_info ("Extraction of: " +:+ saveTo +:+ " successfull."))
         (fun e =>
            logging_error ("Failed to extract " +:+ saveTo +:+ ".");;
            logging_error (exn_str e);;
            continue_)
     else
       logging_warning ("Download failed. Response code was not 200 but "
                        +:+ pretty (status_code response) +:+ ".");;
       logging_warning (text response);;
       continue_)
    (fun e =>
       logging_error ("Something went wrong while retrieving "
                      +:+ str_of filename +:+ ", from " +:+ url +:+ ".");;
       logging_error (exn_str e);;
       continue_);;
  logging_info ("Succesfully downlaoded and extracted imagery for "
                +:+ imageryDate_ +:+ ".").

(** The function starts with [imageryDate] unbound and returns it after the
    loop. *)
Definition downoadImagery (user_ password_ : string)
    (productParams : list (string * Product)) (outFolder_ : string) : D string :=
  modify (set_imageryDate None);;
  logging_info "Starting downloading selected imagery.";;
  logging_info ("Used arguments are: " +:+ repr_all w productParams +:+ ", "
                +:+ outFolder_ +:+ ".");;
  for_each productParams.*2 (download_body user_ password_ outFolder_);;
  s ← get_state;
  match imageryDate s with
  | Some d => ret d
  | None => raise (UnboundLocalError "imageryDate")
  end.

(** *** [sentinelImageryDownloader], on the parameters read from the json *)
Definition sentinelImageryDownloader (data : Data) : D string :=
  productsXML ← getProductXML (user data) (password data) (extent data)
                  (platform data) (daysback data);
  productParams ← getProductParams productsXML (processinglevel data)
                    (relativeorbitnumber data);
  downoadImagery (user data) (password data) productParams (outFolder data).
End Program.

(** The products of the first pass, numbered from [i]. *)
Fixpoint enumerate_from (i : nat) (l : list Product) : list (string * Product) :=
  match l with
  | [] => []
  | el :: l' => (pretty i, el) :: enumerate_from (S i) l'
  end.

(** The products the second pass keeps. *)
Definition selected (processinglevel_ relativeorbitnumber_ : string)
    (el : Product) : Prop :=
  in_values processinglevel_ el && in_values relativeorbitnumber_ el = true.

#[global] Instance selected_dec (l o : string) (el : Product)
    : Decision (selected l o el) :=
  decide (in_values l el && in_values o el = true).

Definition informative (el : Product) : Prop := el <> ∅.

#[global] Instance informative_dec (el : Product) : Decision (informative el) :=
  decide (el <> ∅).

(** The answer of the hub to the [k]-th request made from state [s] on. *)
Definition answer (w : World) (s : State) (url user_ password_ : string)
    (k : nat) : option Response :=
  requests_get w (length (requests s) + k) url user_ password_.

(** The date in a product file name: the first eight characters of its
    third token. *)
Definition date_of (filename : string) : option string :=
  str_take 8 <$> (split_on "_" filename !! 2%nat).

(** The date the download loop reads from a product, when it can. *)
Definition product_date (el : Product) : option string :=
  match el !! "filename" with
  | Some (Some f) => date_of f
  | _ => None
  end.

(** A product the download loop can handle: it has a file name with a date
    and an identifier. *)
Definition downloadable (el : Product) : Prop :=
  is_Some (product_date el) /\ is_Some (el !! "uuid").

(** *** A small hub

    The first search request is refused with status 503, the second is
    answered; the document lists a Level-2A product of orbit 122, an element
    without any recognised field and a Level-1C product. Downloads are
    refused with status 500. *)
Definition field (name_ text_ : string) : Element :=
  Elem {["name" := name_]} (Some text_) [].

Definition demo_root : Element :=
  Elem ∅ None
    [ Elem ∅ None [ field "filename" "S2A_MSIL2A_20200105T100319_N0213.SAFE";
                    field "processinglevel" "Level-2A";
                    field "uuid" "u-1";
                    field "relativeorbitnumber" "122" ];
      Elem ∅ None [ Elem ∅ (Some "Sentinels Scientific Data Hub") [] ];
      Elem ∅ None [ field "filename" "S2A_MSIL1C_20200105T100319_N0208.SAFE";
                    field "processinglevel" "Level-1C";
                    field "uuid" "u-2";
                    field "relativeorbitnumber" "122" ] ].

Definition demo_data : Data :=
  {| user := "u"; password := "p"; extent := "POLYGON((14 45,15 45,15 46,14 45))";
     platform := "Sentinel-2"; daysback := "5DAYS";
     processinglevel := "Level-2A"; relativeorbitnumber := "122";
     outFolder := "raw" +:+ backslash |}.

Definition demo_hub : World :=
  {| requests_get := fun n url _ _ =>
       if String.eqb url (search_url (extent demo_data) (platform demo_data)
                            (daysback demo_data))
       then Some (if (n <? 1)%nat
                  then {| status_code := 503; content := "busy"; text := "busy" |}
                  else {| status_code := 200; content := "feed"; text := "feed" |})
       else Some {| status_code := 500; content := "error"; text := "error" |};
     ET_fromstring := fun body =>
       if String.eqb body "feed" then Some demo_root else None;
     extractall_raises := fun _ _ => false;
     os_makedirs_raises := fun _ => false;
     repr := fun _ => "{...}";
     repr_all := fun _ => "{...}" |}.

(** The hub when the network is down: every request raises. *)
Definition hub_down : World :=
  {| requests_get := fun _ _ _ _ => None;
     ET_fromstring := fun _ => None;
     extractall_raises := fun _ _ => false;
     os_makedirs_raises := fun _ => false;
     repr := fun _ => "{...}";
     repr_all := fun _ => "{...}" |}.

Definition demo_product : Product :=
  <["roNumber" := Some "122"]>
    (<["uuid" := Some "u-1"]>
       (<["pLevel" := Some "Level-2A"]>
          (<["filename" := Some "S2A_MSIL2A_20200105T100319_N0213.SAFE"]> ∅))).

(** The search of the demo run, and a run that asks for an orbit the
    document does not list. *)
Definition demo_fetch : Outcome (option string) * State :=
  getProductXML demo_hub (user demo_data) (password demo_data)
    (extent demo_data) (platform demo_data) (daysback demo_data) initial_state.

Definition demo_data_other_orbit : Data :=
  {| user := "u"; password := "p"; extent := "POLYGON((14 45,15 45,15 46,14 45))";
     platform := "Sentinel-2"; daysback := "5DAYS";
     processinglevel := "Level-2A"; relativeorbitnumber := "51";
     outFolder := "raw" +:+ backslash |}.

(** A product whose file name has no third token. *)
Definition demo_product_short_name : Product :=
  <["uuid" := Some "u-3"]> (<["filename" := Some "S2A.SAFE"]> ∅).

End Download.
(* ===================================================================== *)
(** * Part II: lemmas and theorems                                        *)
(* ===================================================================== *)


(** ** Pixels of element-wise array operations *)

Section Pixels.
Context {A B C : Type}.

Lemma pixel_arr_map (f : A -> B) (g : list (list A)) (i j : nat) :
  pixel (arr_map f g) i j = f <$> pixel g i j.
Proof.
  unfold pixel, arr_map. rewrite list_lookup_fmap.
  destruct (g !! i) as [row|]; simpl; [|done].
  apply list_lookup_fmap.
Qed.

Lemma pixel_arr_zip (f : A -> B -> C)
    (a : list (list A)) (b : list (list B)) (i j : nat) :
  pixel (arr_zip f a b) i j
  = pixel a i j ≫= λ x, pixel b i j ≫= λ y, Some (f x y).
Proof.
  unfold pixel, arr_zip. rewrite lookup_zip_with.
  destruct (a !! i) as [ra|]; simpl; [|done].
  destruct (b !! i) as [rb|]; simpl.
  - rewrite lookup_zip_with. done.
  - by destruct (ra !! j).
Qed.

End Pixels.

Lemma same_shape_true (a b : grid) : same_shape a b = true <-> shape a = shape b.
Proof. unfold same_shape. apply bool_decide_eq_true. Qed.

Ltac pixel_simpl :=
  unfold set_where, np_isnan, np_isinf, arr_eq_scalar, arr_gt_scalar,
    arr_lt_scalar, arr_div, arr_sub, arr_add, arr_add_scalar, arr_scalar_mul,
    arr_div_scalar;
  repeat (rewrite pixel_arr_zip || rewrite pixel_arr_map).

(** ** The array code agrees with the pixel functions *)

Lemma calculateEVI_pixel (B08 B04 B02 out : grid) (i j : nat) :
  calculateEVI B08 B04 B02 = Some out ->
  pixel out i j
  = pixel B08 i j ≫= λ x, pixel B04 i j ≫= λ y, pixel B02 i j ≫= λ z,
      Some (evi_px x y z).
Proof.
  unfold calculateEVI. destruct (_ && _); [|done].
  intros [= <-]. pixel_simpl.
  destruct (pixel B08 i j), (pixel B04 i j), (pixel B02 i j); reflexivity.
Qed.

Lemma calculateNDMI_pixel (B8A B11 out : grid) (i j : nat) :
  calculateNDMI B8A B11 = Some out ->
  pixel out i j
  = pixel B8A i j ≫= λ x, pixel B11 i j ≫= λ y, Some (nd_px x y).
Proof.
  unfold calculateNDMI. destruct (same_shape _ _); [|done].
  intros [= <-]. pixel_simpl.
  destruct (pixel B8A i j), (pixel B11 i j); reflexivity.
Qed.

Lemma calculateNDWI_pixel (B03 B08 out : grid) (i j : nat) :
  calculateNDWI B03 B08 = Some out ->
  pixel out i j
  = pixel B03 i j ≫= λ x, pixel B08 i j ≫= λ y, Some (nd_px x y).
Proof.
  unfold calculateNDWI. destruct (same_shape _ _); [|done].
  intros [= <-]. pixel_simpl.
  destruct (pixel B03 i j), (pixel B08 i j); reflexivity.
Qed.

Lemma calculateNDVI_pixel (B08 B04 out : grid) (i j : nat) :
  calculateNDVI B08 B04 = Some out ->
  pixel out i j
  = pixel B08 i j ≫= λ x, pixel B04 i j ≫= λ y, Some (ndvi_px x y).
Proof.
  unfold calculateNDVI. destruct (same_shape _ _); [|done].
  intros [= <-]. pixel_simpl.
  destruct (pixel B08 i j), (pixel B04 i j); reflexivity.
Qed.

(** ** Facts about float32 comparison *)

Lemma SFcompare_antisym (x y : spec_float) (c : comparison) :
  SFcompare x y = Some c -> SFcompare y x = Some (CompOpp c).
Proof.
  destruct x as [sx|sx| |sx mx ex], y as [sy|sy| |sy my ey];
    try destruct sx; try destruct sy; simpl; intros [= <-]; try reflexivity;
    fold (Pos.compare mx my); fold (Pos.compare my mx);
    rewrite (Z.compare_antisym ex ey), (Pos.compare_antisym mx my);
    destruct (ex ?= ey); simpl; try reflexivity;
    by destruct (mx ?= my)%positive.
Qed.

Lemma SFcompare_defined (x y : spec_float) :
  F32.is_nan x = false -> F32.is_nan y = false -> is_Some (SFcompare x y).
Proof. destruct x, y; simpl; intros; try discriminate; eauto. Qed.

(** Away from NaN, "not [y < x]" is [x <= y]. *)
Lemma leb_of_not_ltb (x y : spec_float) :
  F32.is_nan x = false -> F32.is_nan y = false ->
  F32.ltb y x = false -> F32.leb x y = true.
Proof.
  intros Hx Hy. unfold F32.ltb, F32.leb, SFltb, SFleb.
  destruct (SFcompare_defined y x Hy Hx) as [c Hc].
  rewrite Hc, (SFcompare_antisym _ _ _ Hc). by destruct c.
Qed.

(** ** Facts about the pixel functions *)

Lemma mask_px_not_nan (v : spec_float) (b : bool) :
  F32.is_nan v = false -> F32.is_nan (mask_px v b) = false.
Proof. by destruct b. Qed.

Lemma finite_px_not_nan (v : spec_float) : F32.is_nan (finite_px v) = false.
Proof. by destruct v. Qed.

Lemma clamp_px_sentinel (hi : spec_float) :
  clamp_px hi F32.sentinel = F32.sentinel.
Proof.
  unfold clamp_px, mask_px.
  destruct (F32.ltb hi F32.sentinel); reflexivity.
Qed.

Lemma clamp_px_in_domain (hi v : spec_float) :
  F32.is_nan hi = false -> F32.is_nan v = false -> in_domain hi (clamp_px hi v).
Proof.
  intros Hhi Hv. unfold clamp_px, mask_px.
  destruct (F32.ltb hi v) eqn:Hgt; [by left|].
  destruct (F32.ltb v F32.minus_one) eqn:Hlt; [by left|].
  right. split; by apply leb_of_not_ltb.
Qed.

Lemma in_domain_one_finite (v : spec_float) :
  in_domain F32.one v -> F32.is_nan v = false /\ F32.is_inf v = false.
Proof. intros [->|[H1 H2]]; [done|]. by destruct v as [?|[]| |]. Qed.

Lemma in_domain_c1_25_finite (v : spec_float) :
  in_domain F32.c1_25 v -> F32.is_nan v = false /\ F32.is_inf v = false.
Proof. intros [->|[H1 H2]]; [done|]. by destruct v as [?|[]| |]. Qed.

Lemma evi_px_zero (x y z : spec_float) :
  is_zero x \/ is_zero y \/ is_zero z -> evi_px x y z = F32.sentinel.
Proof.
  unfold is_zero, evi_px. intros H.
  destruct (F32.eqb z F32.zero) eqn:Hz; simpl; [apply clamp_px_sentinel|].
  destruct (F32.eqb y F32.zero) eqn:Hy; simpl; [apply clamp_px_sentinel|].
  destruct (F32.eqb x F32.zero) eqn:Hx; simpl; [apply clamp_px_sentinel|].
  destruct H as [H|H]; [|try destruct H as [H|H]]; congruence.
Qed.

Lemma nd_px_zero (x y : spec_float) :
  is_zero x \/ is_zero y -> nd_px x y = F32.sentinel.
Proof.
  unfold is_zero, nd_px. intros H.
  destruct (F32.eqb y F32.zero) eqn:Hy; simpl; [apply clamp_px_sentinel|].
  destruct (F32.eqb x F32.zero) eqn:Hx; simpl; [apply clamp_px_sentinel|].
  destruct H as [H|H]; [|try destruct H as [H|H]]; congruence.
Qed.

Lemma ndvi_px_zero (x y : spec_float) :
  is_zero x \/ is_zero y -> ndvi_px x y = F32.sentinel.
Proof.
  unfold is_zero, ndvi_px. intros H.
  destruct (F32.eqb x F32.zero) eqn:Hx; simpl; [apply clamp_px_sentinel|].
  destruct (F32.eqb y F32.zero) eqn:Hy; simpl; [apply clamp_px_sentinel|].
  destruct H as [H|H]; [|try destruct H as [H|H]]; congruence.
Qed.

Lemma evi_px_in_domain (x y z : spec_float) : in_domain F32.c1_25 (evi_px x y z).
Proof.
  unfold evi_px. apply clamp_px_in_domain; [done|].
  do 3 apply mask_px_not_nan. apply finite_px_not_nan.
Qed.

Lemma nd_px_in_domain (x y : spec_float) : in_domain F32.one (nd_px x y).
Proof.
  unfold nd_px. apply clamp_px_in_domain; [done|].
  do 2 apply mask_px_not_nan. apply finite_px_not_nan.
Qed.

Lemma ndvi_px_in_domain (x y : spec_float) : in_domain F32.one (ndvi_px x y).
Proof.
  unfold ndvi_px. apply clamp_px_in_domain; [done|].
  do 2 apply mask_px_not_nan. apply finite_px_not_nan.
Qed.

(** ** The calculators return on equally shaped inputs *)

Lemma calculateEVI_total (B08 B04 B02 : grid) :
  shape B08 = shape B04 -> shape B08 = shape B02 ->
  is_Some (calculateEVI B08 B04 B02).
Proof.
  intros E1 E2. unfold calculateEVI.
  rewrite (proj2 (same_shape_true _ _) E1), (proj2 (same_shape_true _ _) E2).
  simpl. eauto.
Qed.

Lemma calculateNDMI_total (B8A B11 : grid) :
  shape B8A = shape B11 -> is_Some (calculateNDMI B8A B11).
Proof.
  intros E. unfold calculateNDMI.
  rewrite (proj2 (same_shape_true _ _) E). eauto.
Qed.

Lemma calculateNDWI_total (B03 B08 : grid) :
  shape B03 = shape B08 -> is_Some (calculateNDWI B03 B08).
Proof.
  intros E. unfold calculateNDWI.
  rewrite (proj2 (same_shape_true _ _) E). eauto.
Qed.

Lemma calculateNDVI_total (B08 B04 : grid) :
  shape B08 = shape B04 -> is_Some (calculateNDVI B08 B04).
Proof.
  intros E. unfold calculateNDVI.
  rewrite (proj2 (same_shape_true _ _) E). eauto.
Qed.

(** ** Constant grids *)

Lemma shape_np_full (rows cols : nat) (v : spec_float) :
  shape (np_full rows cols v) = replicate rows cols.
Proof.
  unfold shape, np_full. rewrite fmap_replicate. by rewrite length_replicate.
Qed.

Lemma calculateNDVI_np_full (rows cols : nat) (x y : spec_float) :
  calculateNDVI (np_full rows cols x) (np_full rows cols y)
  = Some (np_full rows cols (ndvi_px x y)).
Proof.
  unfold calculateNDVI, same_shape.
  rewrite !shape_np_full, bool_decide_eq_true_2 by done.
  unfold set_where, np_isnan, np_isinf, arr_eq_scalar, arr_gt_scalar,
    arr_lt_scalar, arr_div, arr_sub, arr_add, arr_div_scalar, arr_map,
    arr_zip, np_full.
  repeat (rewrite !fmap_replicate || rewrite !zip_with_replicate).
  reflexivity.
Qed.

(** ** Theorems on the index calculators *)

(** C1. For each of the four index calculators and equally shaped input
    grids, the calculator returns a grid, and at every pixel where a
    contributing raw band is exactly 0 that grid holds the sentinel -9999.0. *)
Theorem zero_band_yields_sentinel
    (a b c : grid) (i j : nat) (x y z : spec_float) :
  shape a = shape b -> shape a = shape c ->
  pixel a i j = Some x -> pixel b i j = Some y -> pixel c i j = Some z ->
  (is_zero x \/ is_zero y \/ is_zero z ->
     exists out, calculateEVI a b c = Some out
                 /\ pixel out i j = Some F32.sentinel)
  /\ (is_zero x \/ is_zero y ->
        (exists out, calculateNDMI a b = Some out
                     /\ pixel out i j = Some F32.sentinel)
        /\ (exists out, calculateNDWI a b = Some out
                        /\ pixel out i j = Some F32.sentinel)
        /\ (exists out, calculateNDVI a b = Some out
                        /\ pixel out i j = Some F32.sentinel)).
Proof.
  intros Eab Eac Hx Hy Hz. split; [intros H0|intros H0; repeat split].
  - destruct (calculateEVI_total a b c Eab Eac) as [out Hout].
    exists out. split; [done|].
    rewrite (calculateEVI_pixel _ _ _ _ i j Hout), Hx, Hy, Hz. simpl.
    by rewrite evi_px_zero.
  - destruct (calculateNDMI_total a b Eab) as [out Hout].
    exists out. split; [done|].
    rewrite (calculateNDMI_pixel _ _ _ i j Hout), Hx, Hy. simpl.
    by rewrite nd_px_zero.
  - destruct (calculateNDWI_total a b Eab) as [out Hout].
    exists out. split; [done|].
    rewrite (calculateNDWI_pixel _ _ _ i j Hout), Hx, Hy. simpl.
    by rewrite nd_px_zero.
  - destruct (calculateNDVI_total a b Eab) as [out Hout].
    exists out. split; [done|].
    rewrite (calculateNDVI_pixel _ _ _ i j Hout), Hx, Hy. simpl.
    by rewrite ndvi_px_zero.
Qed.

(** The scenario GREEN = 0, NIR = 5000 (and a third band 3000 for EVI). *)
Lemma zero_band_yields_sentinel_witness :
  (exists out, calculateEVI [[F32.zero]] [[F32.of_Z 5000]] [[F32.of_Z 3000]] = Some out
               /\ pixel out 0 0 = Some F32.sentinel)
  /\ (exists out, calculateNDWI [[F32.zero]] [[F32.of_Z 5000]] = Some out
                  /\ pixel out 0 0 = Some F32.sentinel).
Proof.
  destruct (zero_band_yields_sentinel
              [[F32.zero]] [[F32.of_Z 5000]] [[F32.of_Z 3000]] 0 0
              F32.zero (F32.of_Z 5000) (F32.of_Z 3000)
              eq_refl eq_refl eq_refl eq_refl eq_refl) as [HE HN].
  split.
  - apply HE. left. reflexivity.
  - apply HN. left. reflexivity.
Defined.

(** C2. Every pixel of a calculator's output is the sentinel or lies in the
    index's valid domain, [[-1, 1.25]] for EVI and [[-1, 1]] for NDMI, NDWI
    and NDVI; it is never NaN and never infinite. *)
Theorem outputs_in_domain (a b c out : grid) (i j : nat) (v : spec_float) :
  pixel out i j = Some v ->
  (calculateEVI a b c = Some out ->
     in_domain F32.c1_25 v /\ F32.is_nan v = false /\ F32.is_inf v = false)
  /\ (calculateNDMI a b = Some out \/ calculateNDWI a b = Some out
      \/ calculateNDVI a b = Some out ->
        in_domain F32.one v /\ F32.is_nan v = false /\ F32.is_inf v = false).
Proof.
  intros Hv. split.
  - intros Hout. rewrite (calculateEVI_pixel _ _ _ _ i j Hout) in Hv.
    destruct (pixel a i j) as [x|], (pixel b i j) as [y|],
      (pixel c i j) as [z|]; simplify_eq/=.
    split; [apply evi_px_in_domain|].
    apply in_domain_c1_25_finite, evi_px_in_domain.
  - intros [Hout|[Hout|Hout]].
    + rewrite (calculateNDMI_pixel _ _ _ i j Hout) in Hv.
      destruct (pixel a i j) as [x|], (pixel b i j) as [y|]; simplify_eq/=.
      split; [apply nd_px_in_domain|].
      apply in_domain_one_finite, nd_px_in_domain.
    + rewrite (calculateNDWI_pixel _ _ _ i j Hout) in Hv.
      destruct (pixel a i j) as [x|], (pixel b i j) as [y|]; simplify_eq/=.
      split; [apply nd_px_in_domain|].
      apply in_domain_one_finite, nd_px_in_domain.
    + rewrite (calculateNDVI_pixel _ _ _ i j Hout) in Hv.
      destruct (pixel a i j) as [x|], (pixel b i j) as [y|]; simplify_eq/=.
      split; [apply ndvi_px_in_domain|].
      apply in_domain_one_finite, ndvi_px_in_domain.
Qed.

(** At NIR = 8000, RED = 2000, BLUE = 1000 the EVI pixel and the NDVI pixel
    are both inside their domains. *)
Lemma outputs_in_domain_witness :
  (in_domain F32.c1_25 (evi_px (F32.of_Z 8000) (F32.of_Z 2000) (F32.of_Z 1000))
   /\ F32.is_nan (evi_px (F32.of_Z 8000) (F32.of_Z 2000) (F32.of_Z 1000)) = false
   /\ F32.is_inf (evi_px (F32.of_Z 8000) (F32.of_Z 2000) (F32.of_Z 1000)) = false)
  /\ (in_domain F32.one F32.c0_6 /\ F32.is_nan F32.c0_6 = false
      /\ F32.is_inf F32.c0_6 = false).
Proof.
  split.
  - refine (proj1 (outputs_in_domain
                     [[F32.of_Z 8000]] [[F32.of_Z 2000]] [[F32.of_Z 1000]]
                     [[evi_px (F32.of_Z 8000) (F32.of_Z 2000) (F32.of_Z 1000)]]
                     0 0 _ eq_refl) _).
    vm_compute. reflexivity.
  - refine (proj2 (outputs_in_domain
                     [[F32.of_Z 8000]] [[F32.of_Z 2000]] []
                     [[F32.c0_6]] 0 0 F32.c0_6 eq_refl) _).
    right. right. vm_compute. reflexivity.
Defined.

(** C9. On constant grids NIR = 8000 and RED = 2000 [calculateNDVI] returns
    0.6 at every pixel: the scaled inputs are the float32 values of 0.8 and
    0.2, the quotient (0.8 - 0.2) / (0.8 + 0.2) is the float32 value of 0.6
    (6/10 correctly rounded, 10066330 * 2^-24) before any masking, no mask
    applies, and 0.6 lies in [[-1, 1]]. *)
Theorem ndvi_8000_2000 (rows cols : nat) :
  calculateNDVI (np_full rows cols (F32.of_Z 8000))
                (np_full rows cols (F32.of_Z 2000))
  = Some (np_full rows cols F32.c0_6)
  /\ scaled (F32.of_Z 8000) = F32.div (F32.of_Z 8) (F32.of_Z 10)
  /\ scaled (F32.of_Z 2000) = F32.div (F32.of_Z 2) (F32.of_Z 10)
  /\ nd_raw_px (F32.of_Z 8000) (F32.of_Z 2000) = F32.c0_6
  /\ F32.c0_6 = F32.div (F32.of_Z 6) (F32.of_Z 10)
  /\ F32.c0_6 = S754_finite false 10066330 (-24)
  /\ F32.c0_6 <> F32.sentinel
  /\ F32.leb F32.minus_one F32.c0_6 = true
  /\ F32.leb F32.c0_6 F32.one = true.
Proof.
  split; [|by vm_compute].
  rewrite calculateNDVI_np_full. do 2 f_equal.
Qed.

(* ===================================================================== *)
(** ** Reasoning about statements                                         *)
(* ===================================================================== *)

Lemma bind_unfold {A B} (m : M A) (f : A -> M B) (s : State) :
  (m ≫= f) s
  = match m s with
    | (Normal a, s') => f a s'
    | (Continue, s') => (Continue, s')
    | (Raised e, s') => (Raised e, s')
    end.
Proof. reflexivity. Qed.

Lemma for_each_cons {X} (x : X) (xs : list X) (body : X -> M unit) (s : State) :
  for_each (x :: xs) body s
  = match body x s with
    | (Raised e, s') => (Raised e, s')
    | (_, s') => for_each xs body s'
    end.
Proof. reflexivity. Qed.

(** *** Footprints *)

Section Respects.
Context (R : relation State) `{!PreOrder R}.

Lemma respects_ret {A} (a : A) : respects R (ret a).
Proof. intros s. simpl. reflexivity. Qed.

Lemma respects_mret {A} (a : A) : respects R (mret a : M A).
Proof. apply respects_ret. Qed.

Lemma respects_raise {A} (e : Exn) : respects R (raise e : M A).
Proof. intros s. simpl. reflexivity. Qed.

Lemma respects_continue {A} : respects R (continue_ : M A).
Proof. intros s. simpl. reflexivity. Qed.

Lemma respects_get : respects R get.
Proof. intros s. simpl. reflexivity. Qed.

Lemma respects_modify (f : State -> State) :
  (forall s, R s (f s)) -> respects R (modify f).
Proof. intros H s. apply H. Qed.

Lemma respects_bind {A B} (m : M A) (f : A -> M B) :
  respects R m -> (forall a, respects R (f a)) -> respects R (m ≫= f).
Proof.
  intros Hm Hf s. rewrite bind_unfold.
  specialize (Hm s). destruct (m s) as [[a| |e] s1]; simpl in *; [|done..].
  etrans; [done|]. apply Hf.
Qed.

Lemma respects_try {A} (body : M A) (h : Exn -> M A) :
  respects R body -> (forall e, respects R (h e)) ->
  respects R (try_except body h).
Proof.
  intros Hm Hh s. unfold try_except.
  specialize (Hm s). destruct (body s) as [[a| |e] s1]; simpl in *; [done..|].
  etrans; [done|]. apply Hh.
Qed.

Lemma respects_for_each {X} (xs : list X) (body : X -> M unit) :
  (forall x, respects R (body x)) -> respects R (for_each xs body).
Proof.
  intros Hb. induction xs as [|x xs IH]; intros s.
  - simpl. reflexivity.
  - rewrite for_each_cons. specialize (Hb x s).
    destruct (body x s) as [[a| |e] s1]; simpl in *; [| |done];
      (etrans; [done|]; apply IH).
Qed.

Lemma respects_read_local {A} (var : string) (v : option A) :
  respects R (read_local var v).
Proof. destruct v; [apply respects_ret|apply respects_raise]. Qed.

Lemma respects_lookup_key {V} (d : gmap string V) (k : string) :
  respects R (lookup_key d k).
Proof.
  unfold lookup_key. destruct (d !! k); [apply respects_ret|apply respects_raise].
Qed.

Lemma respects_list_index {A} (l : list A) (n : nat) :
  respects R (list_index l n).
Proof.
  unfold list_index. destruct (l !! n); [apply respects_ret|apply respects_raise].
Qed.

Lemma respects_listdir (w : World) (p : string) : respects R (listdir w p).
Proof.
  unfold listdir. destruct (os_listdir w p); [apply respects_ret|apply respects_raise].
Qed.

Lemma respects_py_join (w : World) (a b : pyval) : respects R (py_join w a b).
Proof. destruct a, b; simpl; first [apply respects_ret|apply respects_raise]. Qed.
End Respects.

(** One step of a footprint proof: peel the outermost statement. *)
Ltac respects_step :=
  lazymatch goal with
  | |- respects _ (mbind _ _) => apply respects_bind; [exact _| |intros ?]
  | |- respects _ (try_except _ _) => apply respects_try; [exact _| |intros ?]
  | |- respects _ (for_each _ _) => apply respects_for_each; [exact _|intros ?]
  | |- respects _ (ret _) => apply respects_ret; exact _
  | |- respects _ (mret _) => apply respects_mret; exact _
  | |- respects _ (raise _) => apply respects_raise; exact _
  | |- respects _ continue_ => apply respects_continue; exact _
  | |- respects _ get => apply respects_get; exact _
  | |- respects _ (read_local _ _) => apply respects_read_local; exact _
  | |- respects _ (lookup_key _ _) => apply respects_lookup_key; exact _
  | |- respects _ (list_index _ _) => apply respects_list_index; exact _
  | |- respects _ (listdir _ _) => apply respects_listdir; exact _
  | |- respects _ (py_join _ _ _) => apply respects_py_join; exact _
  | |- respects _ (logging_info _) => apply respects_modify
  | |- respects _ (logging_error _) => apply respects_modify
  | |- respects _ (modify _) => apply respects_modify
  | |- respects _ (match ?x with _ => _ end) => destruct x
  | |- respects _ (let '(_, _) := ?x in _) => destruct x
  end.

Ltac respects_prim :=
  intros;
  first [ reflexivity
        | solve [auto]
        | match goal with
          | H : forall c s, _ -> _ s (add_call c s) |- _ => apply H; exact I
          end ].

Ltac respects_go :=
  repeat first
    [ respects_step
    | lazymatch goal with
      | |- respects _ (if ?b then _ else _) => destruct b
      end ];
  try respects_prim.

(** *** Footprints of the program's functions *)

Section Footprints.
Context (w : World) (R : relation State) `{!PreOrder R}.

Hypothesis R_log : forall r s, R s (add_log r s).

Lemma match_rawBands_respects product imageryDate outFolder ii code pathToRaw
    rawBands entry :
  respects R (match_rawBands w product imageryDate outFolder ii code pathToRaw
                rawBands entry).
Proof.
  revert entry. induction rawBands as [|rawBand rest IH]; intros entry;
    cbn [match_rawBands].
  - respects_go.
  - respects_step; [respects_go|].
    destruct (String.eqb _ code); [|apply IH].
    respects_step; [respects_go|]. respects_step; [respects_go|]. apply IH.
Qed.

Lemma resolve_bands_respects product imageryDate outFolder ii pathToRaw
    rawBands requiredBands entry :
  respects R (resolve_bands w product imageryDate outFolder ii pathToRaw
                rawBands requiredBands entry).
Proof.
  revert entry.
  induction requiredBands as [|[band code] rest IH]; intros entry;
    cbn [resolve_bands].
  - respects_go.
  - respects_step; [apply match_rawBands_respects|apply IH].
Qed.

Lemma resolve_granules_respects product imageryDate requiredBands
    rawBandFolder outFolder resolution safeFolders ii processingPaths :
  respects R (resolve_granules w product imageryDate requiredBands
                rawBandFolder outFolder resolution safeFolders ii
                processingPaths).
Proof.
  revert ii processingPaths.
  induction safeFolders as [|safeFolder rest IH]; intros ii acc;
    cbn [resolve_granules].
  - respects_go.
  - destruct (os_listdir w _ ≫= head) as [fFolder|].
    + respects_step; [respects_go|].
      respects_step; [apply resolve_bands_respects|apply IH].
    + respects_go.
Qed.

Lemma getRequiredBandsPaths_respects product imageryDate requiredBands
    rawInput_ outFolder resolution_ :
  respects R (getRequiredBandsPaths w product imageryDate requiredBands
                rawInput_ outFolder resolution_).
Proof.
  unfold getRequiredBandsPaths.
  respects_step; [respects_go|apply resolve_granules_respects].
Qed.

Hypothesis R_paths : forall v s, R s (set_paths v s).

Lemma fetch_paths_respects params imageryDate args :
  respects R (fetch_paths w params imageryDate args).
Proof.
  unfold fetch_paths. respects_step; [respects_go|].
  respects_step; [|respects_go].
  respects_step; [apply getRequiredBandsPaths_respects|respects_go].
Qed.
End Footprints.

Section FootprintsTiles.
Context (w : World) (R : relation State) `{!PreOrder R}.

Hypothesis R_log : forall r s, R s (add_log r s).
Hypothesis R_band_call : forall c s, band_call c -> R s (add_call c s).
Hypothesis R_resultRaster : forall r s, R s (set_resultRaster r s).

Lemma openRasterOneBand_respects (v : pyval) :
  respects R (openRasterOneBand w v).
Proof. unfold openRasterOneBand. respects_go. Qed.

Lemma open_failed_respects entry k e : respects R (open_failed entry k e).
Proof. unfold open_failed. respects_go. Qed.

Lemma open_then_log_respects entry k : respects R (open_then_log w entry k).
Proof.
  unfold open_then_log. respects_step; [|apply open_failed_respects].
  respects_step; [respects_go|].
  respects_step; [apply openRasterOneBand_respects|respects_go].
Qed.

Lemma log_then_open_respects entry k : respects R (log_then_open w entry k).
Proof.
  unfold log_then_open. respects_step; [|apply open_failed_respects].
  respects_step; [respects_go|]. respects_step; [respects_go|].
  respects_step; [respects_go|apply openRasterOneBand_respects].
Qed.

Lemma call_index_respects index result : respects R (call_index index result).
Proof. unfold call_index. respects_go. Qed.

Lemma save_to_memory_respects product result B :
  respects R (save_to_memory w product result B).
Proof. unfold save_to_memory, createMemoryRaster. respects_go. Qed.

Lemma compute_index_respects product entry :
  respects R (compute_index w product entry).
Proof.
  unfold compute_index, branch_EVI, branch_NDMI, branch_NDWI, branch_NDVI.
  repeat first
    [ apply open_then_log_respects
    | apply log_then_open_respects
    | apply call_index_respects
    | apply save_to_memory_respects
    | respects_step
    | lazymatch goal with
      | |- respects _ (if ?b then _ else _) => destruct b
      end ];
    respects_prim.
Qed.

(** The rest of the tile loop also warps, writes the tile file and updates
    [outName] and [tiles]. *)
Hypothesis R_warp_call : forall dst ok s, R s (add_call (CallWarp dst ok) s).
Hypothesis R_file : forall p s, R s (add_file p s).
Hypothesis R_outName : forall v s, R s (set_outName v s).
Hypothesis R_tiles : forall v s, R s (set_tiles v s).

Lemma clip_and_reproject_respects product outFolder outName_ :
  respects R (clip_and_reproject w product outFolder outName_).
Proof. unfold clip_and_reproject, gdal_Warp. respects_go. Qed.

Lemma tile_body_respects product entry : respects R (tile_body w product entry).
Proof.
  unfold tile_body.
  repeat first
    [ apply compute_index_respects
    | apply clip_and_reproject_respects
    | respects_step
    | lazymatch goal with
      | |- respects _ (if ?b then _ else _) => destruct b
      end ];
    respects_prim.
Qed.

Lemma calculate_tiles_respects args : respects R (calculate_tiles w args).
Proof.
  unfold calculate_tiles.
  repeat first [ apply tile_body_respects | respects_step ]; respects_prim.
Qed.

(** The folder loop calls [os.makedirs] and records the new directory. *)
Hypothesis R_makedirs_call : forall p s, R s (add_call (CallMakedirs p) s).
Hypothesis R_dir : forall p s, R s (add_dir p s).

Lemma createOutFolder_respects (v : pyval) : respects R (createOutFolder w v).
Proof. unfold createOutFolder, makedirs. respects_go. Qed.

Lemma create_folders_respects : respects R (create_folders w).
Proof.
  unfold create_folders, folder_body.
  repeat first [ apply createOutFolder_respects | respects_step ]; respects_prim.
Qed.
End FootprintsTiles.

(** *** Two preorders on states *)

#[global] Instance same_disk_and_locals_preorder : PreOrder same_disk_and_locals.
Proof.
  split.
  - intros s. by repeat split.
  - intros s1 s2 s3 (?&?&?&?&?&?) (?&?&?&?&?&?). repeat split; congruence.
Qed.

#[global] Instance calls_extend_preorder (P : Call -> Prop) : PreOrder (calls_extend P).
Proof.
  split.
  - intros s. exists []. by rewrite app_nil_r.
  - intros s1 s2 s3 (n1 & E1 & F1) (n2 & E2 & F2). exists (n1 ++ n2).
    split; [by rewrite E2, E1, app_assoc|by apply Forall_app].
Qed.

Lemma calls_extend_add_call (P : Call -> Prop) (c : Call) (s : State) :
  P c -> calls_extend P s (add_call c s).
Proof. intros H. exists [c]. split; [done|by constructor]. Qed.

Lemma calls_extend_same_calls (P : Call -> Prop) (s s' : State) :
  calls s' = calls s -> calls_extend P s s'.
Proof. intros H. exists []. by rewrite app_nil_r. Qed.

(** The band-to-raster part of the pipeline touches neither the disk nor the
    tile list. *)
Lemma compute_index_same (w : World) (product : string)
    (entry : gmap string pyval) (s : State) :
  same_disk_and_locals s (compute_index w product entry s).2.
Proof. by apply compute_index_respects; [exact _|..]; intros; repeat split. Qed.

(** *** The warp step *)

Lemma clip_and_reproject_spec (w : World) (product f n : string)
    (st st' : State) (out : Outcome unit) :
  clip_and_reproject w product (VStr f) (VStr n) st = (out, st') ->
  dirs st' = dirs st /\ tiles st' = tiles st /\ newProducts st' = newProducts st
  /\ outName st' = outName st
  /\ ((out = Normal tt
       /\ calls st' = calls st ++ [CallWarp (os_path_join w f n) true]
       /\ exists src, resultRaster st = Some src
            /\ gdal_Warp_raises w (os_path_join w f n) src = false
            /\ files st'
               = if gdal_Warp_writes w (os_path_join w f n) src
                 then {[os_path_join w f n]} ∪ files st else files st)
      \/ (out = Continue
          /\ files st' = files st
          /\ (calls st' = calls st
              \/ calls st' = calls st ++ [CallWarp (os_path_join w f n) false]))).
Proof.
  unfold clip_and_reproject, gdal_Warp, read_local.
  cbv [mbind M_bind bind try_except logging_info logging_error modify py_join
       ret get raise continue_].
  cbn [add_log resultRaster].
  destruct (resultRaster st) as [src|]; cbn.
  - destruct (gdal_Warp_raises w _ src) eqn:Hr; cbn;
      [intros [= <- <-]; cbn; naive_solver|].
    destruct (gdal_Warp_writes w _ src) eqn:Hw; cbn; intros [= <- <-]; cbn;
      do 4 (split; [done|]); left; (split; [done|]); (split; [done|]);
      exists src; by rewrite Hr, Hw.
  - intros [= <- <-]; cbn; naive_solver.
Qed.

(** *** One tile *)

Lemma tile_body_unfold (w : World) (product : string)
    (entry : gmap string pyval) (f n : string) (st : State) :
  entry !! "outFolder" = Some (VStr f) ->
  entry !! "outName" = Some (VStr n) ->
  tile_body w product entry st
  = let s1 := set_outName (VStr n) st in
    let dst := os_path_join w f n in
    if path_exists s1 dst then (Normal tt, set_tiles (tiles s1 ++ [dst]) s1)
    else
      match compute_index w product entry s1 with
      | (Normal _, s2) =>
          match clip_and_reproject w product (VStr f) (VStr n) s2 with
          | (Normal _, s3) => (Normal tt, set_tiles (tiles s3 ++ [dst]) s3)
          | (Continue, s3) => (Continue, s3)
          | (Raised e, s3) => (Raised e, s3)
          end
      | (Continue, s2) => (Continue, s2)
      | (Raised e, s2) => (Raised e, s2)
      end.
Proof.
  intros Hf Hn. unfold tile_body, lookup_key. rewrite Hf, Hn.
  cbv [mbind M_bind bind modify py_join ret get].
  cbv zeta.
  destruct (path_exists (set_outName (VStr n) st) (os_path_join w f n)); cbn [negb].
  - reflexivity.
  - destruct (compute_index w product entry _) as [[[]| |e] s2]; [|done..].
    by destruct (clip_and_reproject w product _ _ s2) as [[[]| |e] s3].
Qed.

Lemma path_exists_set_outName (v : pyval) (s : State) (p : string) :
  path_exists (set_outName v s) p = path_exists s p.
Proof. reflexivity. Qed.

(** What one iteration of the tile loop does to the tile list and the disk:
    either it completes and the tile's path is appended (the tile was on
    disk already, or [gdal.Warp] has returned, with or without writing it),
    or the iteration is abandoned and neither the list nor the disk changes.
    No file is ever removed. *)
Lemma tile_body_spec (w : World) (product : string)
    (entry : gmap string pyval) (p : string) (st st' : State)
    (out : Outcome unit) :
  entry_path w entry p ->
  tile_body w product entry st = (out, st') ->
  dirs st' = dirs st /\ newProducts st' = newProducts st
  /\ ((out = Normal tt /\ tiles st' = tiles st ++ [p]
       /\ (files st' = files st \/ files st' = {[p]} ∪ files st))
      \/ (out <> Normal tt /\ tiles st' = tiles st /\ files st' = files st
          /\ path_exists st p = false)).
Proof.
  intros (f & n & Hf & Hn & ->) H.
  rewrite (tile_body_unfold _ _ _ f n) in H by done. cbv zeta in H.
  rewrite path_exists_set_outName in H.
  destruct (path_exists st (os_path_join w f n)) eqn:Hex.
  - simplify_eq. cbn. split; [done|]. split; [done|]. left.
    repeat split; auto.
  - pose proof (compute_index_same w product entry (set_outName (VStr n) st))
      as (Cf & Cd & Ct & Cn & _ & _).
    destruct (compute_index w product entry _) as [[[]| |e] s2]; cbn in *.
    + destruct (clip_and_reproject w product _ _ s2) as [o3 s3] eqn:Hclip.
      apply clip_and_reproject_spec in Hclip
        as (Wd & Wt & Wn & _ & [(-> & _ & src & _ & _ & Wf)|(-> & Wf & _)]).
      * simplify_eq. cbn. split; [congruence|]. split; [congruence|]. left.
        split; [done|]. split; [congruence|].
        destruct (gdal_Warp_writes w _ src); [right|left]; congruence.
      * simplify_eq. split; [congruence|]. split; [congruence|]. right.
        repeat split; [done|congruence..].
    + simplify_eq. do 2 (split; [done|]). right. by repeat split.
    + simplify_eq. do 2 (split; [done|]). right. by repeat split.
Qed.

(** C3. When the destination tile file already exists the per-tile pipeline
    is skipped: the iteration makes no call at all (no band is opened, no
    index computed, no in-memory raster created, no warp), writes nothing to
    the log or the disk, and still appends the tile path to the tile list.
    Consequently a second run for the same tile leaves the existing tile
    file untouched: no run of the iteration removes a file, and whenever the
    tile is on disk after a first run, whatever that run did, the second one
    is such a skip. *)
Theorem cache_hit_skips_tile_pipeline (w : World) (product : string)
    (entry : gmap string pyval) (f n : string) (st : State) :
  entry !! "outFolder" = Some (VStr f) ->
  entry !! "outName" = Some (VStr n) ->
  (path_exists st (os_path_join w f n) = true ->
     exists st', tile_body w product entry st = (Normal tt, st')
       /\ calls st' = calls st /\ log st' = log st
       /\ files st' = files st /\ dirs st' = dirs st
       /\ resultRaster st' = resultRaster st
       /\ tiles st' = tiles st ++ [os_path_join w f n])
  /\ (forall out st1, tile_body w product entry st = (out, st1) ->
        (forall q, q ∈ files st -> q ∈ files st1)
        /\ (path_exists st1 (os_path_join w f n) = true ->
            exists st2, tile_body w product entry st1 = (Normal tt, st2)
              /\ calls st2 = calls st1 /\ log st2 = log st1
              /\ files st2 = files st1 /\ dirs st2 = dirs st1
              /\ resultRaster st2 = resultRaster st1
              /\ tiles st2 = tiles st1 ++ [os_path_join w f n])).
Proof.
  intros Hf Hn.
  assert (Hit : forall s, path_exists s (os_path_join w f n) = true ->
            tile_body w product entry s
            = (Normal tt, set_tiles (tiles s ++ [os_path_join w f n])
                            (set_outName (VStr n) s))).
  { intros s Hex. rewrite (tile_body_unfold _ _ _ f n) by done. cbv zeta.
    by rewrite path_exists_set_outName, Hex. }
  split.
  - intros Hex. eexists. split; [by apply Hit|]. by repeat split.
  - intros out st1 Hrun. split.
    + eapply tile_body_spec in Hrun
        as (_ & _ & [(_ & _ & [Hfs|Hfs])|(_ & _ & Hfs & _)]);
        [| | |by exists f, n]; rewrite Hfs; set_solver.
    + intros Hex1. eexists. split; [by apply Hit|]. by repeat split.
Qed.

(** The tile of the demo granule is already on disk. *)
Lemma cache_hit_skips_tile_pipeline_witness :
  exists st', tile_body demo_world "NDVI" demo_ndvi_entry
                (initial_state {[demo_ndvi_tile]} ∅)
              = (Normal tt, st')
    /\ calls st' = [] /\ log st' = [] /\ tiles st' = [demo_ndvi_tile].
Proof.
  assert (Hf : demo_ndvi_entry !! "outFolder" = Some (VStr "out/20200105/NDVI"))
    by (vm_compute; reflexivity).
  assert (Hn : demo_ndvi_entry !! "outName"
               = Some (VStr "T33_20200105T100_NDVI_0.tif"))
    by (vm_compute; reflexivity).
  destruct (cache_hit_skips_tile_pipeline demo_world "NDVI" demo_ndvi_entry
              "out/20200105/NDVI" "T33_20200105T100_NDVI_0.tif"
              (initial_state {[demo_ndvi_tile]} ∅) Hf Hn)
    as [Hhit _].
  assert (Hex : path_exists (initial_state {[demo_ndvi_tile]} ∅)
                  (os_path_join demo_world "out/20200105/NDVI"
                     "T33_20200105T100_NDVI_0.tif") = true)
    by (vm_compute; reflexivity).
  destruct (Hhit Hex) as (st' & Hrun & Hc & Hl & _ & _ & _ & Ht).
  exists st'. split; [exact Hrun|]. split; [exact Hc|]. split; [exact Hl|exact Ht].
Defined.

(** *** The mosaic step *)

Lemma build_mosaic_spec (w : World) (params : Params)
    (imageryDate prodId : string) (args : ProductArgs) (st st' : State)
    (out : Outcome unit) :
  build_mosaic w params imageryDate prodId args st = (out, st') ->
  exists mk, Forall makedirs_call mk /\ tiles st' = tiles st
    /\ ((exists mp e, out = Normal tt
           /\ calls st' = calls st ++ mk ++ [CallBuildVRT mp (tiles st) true]
           /\ dict_get prodId (newProducts st) = Some e
           /\ newProducts st'
              = dict_set prodId (<["newDate" := imageryDate]> e) (newProducts st)
           /\ (files st' = files st \/ files st' = {[mp]} ∪ files st))
        \/ (exists mp, out = Raised (KeyError prodId)
              /\ dict_get prodId (newProducts st) = None
              /\ calls st' = calls st ++ mk ++ [CallBuildVRT mp (tiles st) true]
              /\ newProducts st' = newProducts st
              /\ (files st' = files st \/ files st' = {[mp]} ∪ files st))
        \/ (out <> Normal tt
            /\ newProducts st' = newProducts st /\ files st' = files st
            /\ (calls st' = calls st ++ mk
                \/ exists mp, calls st' = calls st ++ mk
                                ++ [CallBuildVRT mp (tiles st) false]))).
Proof.
  unfold build_mosaic, createOutFolder, makedirs, gdal_BuildVRT, read_local,
    list_index.
  cbv [mbind M_bind bind try_except logging_info logging_error modify ret get
       raise continue_].
  cbn [add_log outName].
  destruct (outName st) as [[|n]|]; cbn;
    try (intros [= <- <-]; exists []; split; [constructor|]; split; [done|];
         right; right; rewrite app_nil_r; cbn; by eauto 10).
  destruct (split_on "_" n !! 1%nat) as [t1|]; cbn;
    try (intros [= <- <-]; exists []; split; [constructor|]; split; [done|];
         right; right; rewrite app_nil_r; cbn; by eauto 10).
  destruct (split_on "_" n !! 2%nat) as [t2|]; cbn;
    try (intros [= <- <-]; exists []; split; [constructor|]; split; [done|];
         right; right; rewrite app_nil_r; cbn; by eauto 10).
  set (mf := os_path_join w (os_path_join w (productOutput params) imageryDate)
               (name args)).
  set (mp := os_path_join w mf _).
  destruct (path_isdir _ mf); cbn.
  - destruct (gdal_BuildVRT_raises w mp (tiles st)); cbn.
    + intros [= <- <-]. exists []. split; [constructor|]. split; [done|].
      right; right. cbn. repeat split; eauto.
    + destruct (gdal_BuildVRT_writes w mp (tiles st)); cbn;
        (destruct (dict_get prodId (newProducts st)) as [e|] eqn:He; cbn;
         intros [= <- <-]; exists []; (split; [constructor|]); (split; [done|]);
         [left; exists mp, e|right; left; exists mp]; cbn; rewrite ?app_nil_r;
         repeat split; auto).
  - destruct (os_makedirs_raises w mf); cbn.
    + intros [= <- <-]. exists [CallMakedirs mf].
      split; [by repeat constructor|]. split; [done|].
      right; right. cbn. repeat split; eauto.
    + destruct (gdal_BuildVRT_raises w mp (tiles st)); cbn.
      * intros [= <- <-]. exists [CallMakedirs mf].
        split; [by repeat constructor|]. split; [done|].
        right; right. cbn. rewrite <- ?app_assoc. repeat split; eauto.
      * destruct (gdal_BuildVRT_writes w mp (tiles st)); cbn;
          (destruct (dict_get prodId (newProducts st)) as [e|] eqn:He; cbn;
           intros [= <- <-]; exists [CallMakedirs mf];
           (split; [by repeat constructor|]); (split; [done|]);
           [left; exists mp, e|right; left; exists mp]; cbn;
           rewrite <- ?app_assoc; repeat split; auto).
Qed.

(** *** A warp that fails without raising *)

Lemma path_exists_false (s : State) (p : string) :
  path_exists s p = false <-> (p ∉ files s) /\ (p ∉ dirs s).
Proof.
  unfold path_exists. rewrite orb_false_iff, !bool_decide_eq_false. done.
Qed.

(** With an output name left by the tile loop and a mosaic folder that
    exists or can be created, the mosaic step calls [gdal.BuildVRT] with the
    tile list as it stands, after at most a [makedirs] call. *)
Lemma build_mosaic_calls_BuildVRT (w : World) (params : Params)
    (imageryDate prodId : string) (args : ProductArgs) (n t1 t2 : string)
    (st : State) :
  outName st = Some (VStr n) ->
  split_on "_" n !! 1%nat = Some t1 ->
  split_on "_" n !! 2%nat = Some t2 ->
  path_isdir st (mosaic_folder w params imageryDate args) = true
  \/ os_makedirs_raises w (mosaic_folder w params imageryDate args) = false ->
  exists mk,
    Forall makedirs_call mk
    /\ calls (build_mosaic w params imageryDate prodId args st).2
       = calls st ++ mk
         ++ [CallBuildVRT (mosaic_path w params imageryDate args t1 t2) (tiles st)
               (negb (gdal_BuildVRT_raises w
                        (mosaic_path w params imageryDate args t1 t2) (tiles st)))].
Proof.
  intros Hn H1 H2 Hdir.
  unfold mosaic_path, mosaic_folder in *.
  unfold build_mosaic, createOutFolder, makedirs, gdal_BuildVRT, read_local,
    list_index.
  cbv [mbind M_bind bind try_except logging_info logging_error modify ret get
       raise continue_].
  cbn [add_log outName]. rewrite Hn. cbn. rewrite H1. cbn. rewrite H2. cbn.
  set (mf := os_path_join w (os_path_join w (productOutput params) imageryDate)
               (name args)) in *.
  set (mp := os_path_join w mf _).
  destruct (path_isdir _ mf) eqn:Hisdir; cbn;
    [exists []|destruct Hdir as [Hdir|Hmk]; [done|]; rewrite Hmk; cbn;
               exists [CallMakedirs mf]];
    (split; [by repeat constructor|]);
    (destruct (gdal_BuildVRT_raises w mp (tiles st)); cbn;
     [|destruct (gdal_BuildVRT_writes w mp (tiles st)); cbn;
       destruct (dict_get prodId (newProducts st)); cbn]);
    by rewrite <- ?app_assoc.
Qed.

(** C8 (the code departs from it). The handler around [gdal.Warp] is there
    to abandon a tile whose warp fails, but GDAL's exceptions are never
    enabled: a failed warp returns [None] without raising. The iteration
    then logs "Done.", no error, and appends the tile's path to the tile
    list although no tile file was produced; the mosaic step passes the list
    with that path to [gdal.BuildVRT]. *)
Theorem silently_failed_warp_is_listed (w : World) (params : Params)
    (imageryDate prodId : string) (args : ProductArgs)
    (entry : gmap string pyval) (f n t1 t2 : string) (r : MemRaster)
    (st s2 : State) :
  entry !! "outFolder" = Some (VStr f) ->
  entry !! "outName" = Some (VStr n) ->
  path_exists st (os_path_join w f n) = false ->
  compute_index w (name args) entry (set_outName (VStr n) st) = (Normal tt, s2) ->
  resultRaster s2 = Some r ->
  gdal_Warp_raises w (os_path_join w f n) r = false ->
  gdal_Warp_writes w (os_path_join w f n) r = false ->
  split_on "_" n !! 1%nat = Some t1 ->
  split_on "_" n !! 2%nat = Some t2 ->
  path_isdir st (mosaic_folder w params imageryDate args) = true
  \/ os_makedirs_raises w (mosaic_folder w params imageryDate args) = false ->
  exists st1,
    tile_body w (name args) entry st = (Normal tt, st1)
    /\ tiles st1 = tiles st ++ [os_path_join w f n]
    /\ path_exists st1 (os_path_join w f n) = false
    /\ calls st1 = calls s2 ++ [CallWarp (os_path_join w f n) true]
    /\ log st1
       = log s2 ++ [(INFO, "Clipping and reporjecting output dataset.");
                    (INFO, "Done.")]
    /\ exists mk,
         Forall makedirs_call mk
         /\ calls (build_mosaic w params imageryDate prodId args st1).2
            = calls st1 ++ mk
              ++ [CallBuildVRT (mosaic_path w params imageryDate args t1 t2)
                    (tiles st ++ [os_path_join w f n])
                    (negb (gdal_BuildVRT_raises w
                             (mosaic_path w params imageryDate args t1 t2)
                             (tiles st ++ [os_path_join w f n])))].
Proof.
  intros Hf Hn Hex Hci Hr Hraise Hwrite H1 H2 Hdir.
  pose proof (compute_index_same w (name args) entry (set_outName (VStr n) st))
    as (Cf & Cd & Ct & _ & _ & Co).
  rewrite Hci in Cf, Cd, Ct, Co. cbn in Cf, Cd, Ct, Co.
  rewrite (tile_body_unfold _ _ _ f n) by done. cbv zeta.
  rewrite path_exists_set_outName, Hex, Hci.
  unfold clip_and_reproject, gdal_Warp, read_local.
  cbv [mbind M_bind bind try_except logging_info logging_error modify py_join
       ret get raise continue_].
  cbn [add_log resultRaster]. rewrite Hr, Hraise. cbn. rewrite Hwrite. cbn.
  eexists. split; [reflexivity|]. cbn.
  split; [by rewrite Ct|].
  split.
  { apply path_exists_false. apply path_exists_false in Hex as [? ?].
    cbn. by rewrite Cf, Cd. }
  split; [done|]. split; [by rewrite <- app_assoc|].
  match goal with
  | |- context [build_mosaic _ _ _ _ _ ?s] =>
      destruct (build_mosaic_calls_BuildVRT w params imageryDate prodId args n
                  t1 t2 s) as (mk & Hmk & Hc)
  end; [by cbn; rewrite Co|done|done| |].
  { destruct Hdir as [Hd|Hd]; [left|by right].
    revert Hd. unfold path_isdir. cbn. by rewrite Cd. }
  exists mk. split; [done|]. rewrite Hc. cbn. by rewrite Ct.
Qed.

(** The complete NDVI granule of the demo world, with a warp that fails
    without raising. *)
Lemma silently_failed_warp_is_listed_witness :
  exists st1,
    tile_body world_warp_fails_silently "NDVI" demo_ndvi_entry (initial_state ∅ ∅)
    = (Normal tt, st1)
    /\ tiles st1 = tiles (initial_state ∅ ∅) ++ [demo_ndvi_tile]
    /\ path_exists st1 demo_ndvi_tile = false
    /\ calls st1 = calls demo_warp_state ++ [CallWarp demo_ndvi_tile true]
    /\ log st1
       = log demo_warp_state
         ++ [(INFO, "Clipping and reporjecting output dataset.");
             (INFO, "Done.")]
    /\ exists mk,
         Forall makedirs_call mk
         /\ calls (build_mosaic world_warp_fails_silently
                     (demo_params "NDVI" ndvi_bands) "20200105" "1"
                     demo_ndvi_args st1).2
            = calls st1 ++ mk
              ++ [CallBuildVRT
                    (mosaic_path world_warp_fails_silently
                       (demo_params "NDVI" ndvi_bands) "20200105" demo_ndvi_args
                       "20200105T100" "NDVI")
                    (tiles (initial_state ∅ ∅) ++ [demo_ndvi_tile])
                    (negb (gdal_BuildVRT_raises world_warp_fails_silently
                             (mosaic_path world_warp_fails_silently
                                (demo_params "NDVI" ndvi_bands) "20200105"
                                demo_ndvi_args "20200105T100" "NDVI")
                             (tiles (initial_state ∅ ∅) ++ [demo_ndvi_tile])))].
Proof.
  apply (silently_failed_warp_is_listed world_warp_fails_silently
           (demo_params "NDVI" ndvi_bands) "20200105" "1" demo_ndvi_args
           demo_ndvi_entry "out/20200105/NDVI" "T33_20200105T100_NDVI_0.tif"
           "20200105T100" "NDVI" demo_ndvi_raster (initial_state ∅ ∅)
           demo_warp_state).
  - vm_compute; reflexivity.
  - vm_compute; reflexivity.
  - vm_compute; reflexivity.
  - vm_compute; reflexivity.
  - vm_compute; reflexivity.
  - reflexivity.
  - reflexivity.
  - vm_compute; reflexivity.
  - vm_compute; reflexivity.
  - right. reflexivity.
Defined.

(** The whole run on that world: the only tile is not produced, nothing is
    logged as an error, and the mosaic is built over the missing tile and
    reported with its date. *)
Lemma run_with_silently_failed_warp :
  run_warp_fails_silently.1
  = Normal [("1", <["newDate" := "20200105"]> {["name" := "NDVI"]})]
  /\ tiles run_warp_fails_silently.2 = [demo_ndvi_tile]
  /\ path_exists run_warp_fails_silently.2 demo_ndvi_tile = false
  /\ calls run_warp_fails_silently.2
     = [CallMakedirs "out/20200105/NDVI";
        CallOpen (VStr (img_dir "A.SAFE" +:+ "/T33_20200105T100_B04_10m.jp2"));
        CallOpen (VStr (img_dir "A.SAFE" +:+ "/T33_20200105T100_B08_10m.jp2"));
        CallIndex "NDVI"; CallCreate "MEM";
        CallWarp demo_ndvi_tile true;
        CallBuildVRT "out/20200105/NDVI/20200105_NDVI.vrt" [demo_ndvi_tile] true]
  /\ List.filter is_error (log run_warp_fails_silently.2) = [].
Proof. repeat split; vm_compute; reflexivity. Qed.
(** *** Insertion-ordered dictionaries *)

Lemma dict_get_set_eq {V} (k : string) (v : V) (d : list (string * V)) :
  dict_get k (dict_set k v d) = Some v.
Proof.
  induction d as [|[k' v'] d IH]; cbn.
  - by rewrite String.eqb_refl.
  - destruct (String.eqb k' k) eqn:E; cbn; by rewrite E.
Qed.


Lemma dict_set_set {V} (k : string) (v1 v2 : V) (d : list (string * V)) :
  dict_set k v2 (dict_set k v1 d) = dict_set k v2 d.
Proof.
  induction d as [|[k' v'] d IH]; cbn.
  - by rewrite String.eqb_refl.
  - destruct (String.eqb k' k) eqn:E; cbn; rewrite E; [done|by rewrite IH].
Qed.



(** *** One product *)

#[global] Instance tile_stage_preorder : PreOrder tile_stage.
Proof.
  split.
  - intros s. split; [done|reflexivity].
  - intros s1 s2 s3 [E1 C1] [E2 C2]. split; [congruence|by etrans].
Qed.

Lemma tile_stage_same (s s' : State) :
  newProducts s' = newProducts s -> calls s' = calls s -> tile_stage s s'.
Proof. intros ? ?. split; [done|by apply calls_extend_same_calls]. Qed.

Lemma tile_stage_add_call (c : Call) (s : State) :
  tile_stage_call c -> tile_stage s (add_call c s).
Proof. intros H. split; [done|by apply calls_extend_add_call]. Qed.

(** Path resolution, folder creation and the tile loop never call BuildVRT
    and never touch [newProducts]. *)
Lemma before_mosaic_tile_stage (w : World) (params : Params)
    (imageryDate : string) (args : ProductArgs) (s : State) :
  tile_stage s (before_mosaic w params imageryDate args s).2.
Proof.
  revert s. change (respects tile_stage (before_mosaic w params imageryDate args)).
  unfold before_mosaic.
  apply respects_bind; [exact _| |intros _; apply respects_bind; [exact _| |intros _]].
  - apply fetch_paths_respects; [exact _|..]; intros; by apply tile_stage_same.
  - apply create_folders_respects; [exact _|..]; intros;
      first [by apply tile_stage_same|by apply tile_stage_add_call].
  - apply calculate_tiles_respects; [exact _|..]; intros;
      first [by apply tile_stage_same
            |apply tile_stage_add_call; by destruct c
            |by apply tile_stage_add_call].
Qed.

Lemma product_body_unfold (w : World) (params : Params) (imageryDate prodId : string)
    (args : ProductArgs) (sa : State) :
  product_body w params imageryDate (prodId, args) sa
  = let s1 := set_newProducts
                (dict_set prodId {["name" := name args]} (newProducts sa))
                (add_log (INFO, "Start calculating " +:+ name args +:+ ".") sa) in
    match before_mosaic w params imageryDate args s1 with
    | (Normal _, s2) => build_mosaic w params imageryDate prodId args s2
    | (Continue, s2) => (Continue, s2)
    | (Raised e, s2) => (Raised e, s2)
    end.
Proof.
  unfold product_body, before_mosaic.
  cbv [mbind M_bind bind logging_info modify get]. cbn.
  set (s1 := set_newProducts _ _).
  destruct (fetch_paths w params imageryDate args s1) as [[[]| |e] s2]; [|done..].
  destruct (create_folders w s2) as [[[]| |e] s3]; [|done..].
  by destruct (calculate_tiles w args s3) as [[[]| |e] s4].
Qed.

(** One iteration of the product loop: the product's entry is (re)set to its
    name alone, and ["newDate"] is added exactly when the iteration runs to
    its end, which is exactly when its BuildVRT call has returned. *)
Lemma product_body_spec (w : World) (params : Params) (imageryDate prodId : string)
    (args : ProductArgs) (sa sb : State) (out : Outcome unit) :
  product_body w params imageryDate (prodId, args) sa = (out, sb) ->
  exists new, calls sb = calls sa ++ new
    /\ ((out = Normal tt
         /\ newProducts sb
            = dict_set prodId (<["newDate" := imageryDate]> {["name" := name args]})
                (newProducts sa)
         /\ exists mp srcs, CallBuildVRT mp srcs true ∈ new)
        \/ (out <> Normal tt
            /\ newProducts sb
               = dict_set prodId {["name" := name args]} (newProducts sa)
            /\ forall mp srcs, CallBuildVRT mp srcs true ∉ new)).
Proof.
  rewrite product_body_unfold. cbv zeta.
  set (s1 := set_newProducts _ _).
  pose proof (before_mosaic_tile_stage w params imageryDate args s1)
    as [Hn (new1 & Hc & Hnew1)].
  assert (Hno : forall mp srcs ok, CallBuildVRT mp srcs ok ∉ new1).
  { intros mp srcs ok Hin. rewrite Forall_forall in Hnew1.
    by apply Hnew1 in Hin. }
  destruct (before_mosaic w params imageryDate args s1) as [[[]| |e] s2];
    cbn in Hn, Hc.
  - intros Hm. apply build_mosaic_spec in Hm as (mk & Hmk & _ & Hcase).
    assert (Hmk' : forall mp srcs ok, CallBuildVRT mp srcs ok ∉ mk).
    { intros mp srcs ok Hin. rewrite Forall_forall in Hmk. by apply Hmk in Hin. }
    rewrite Hn in Hcase. cbn in Hcase. rewrite dict_get_set_eq in Hcase.
    destruct Hcase as [(mp & e & -> & Hcs & [= <-] & Hnp & _)
                      |[(mp & _ & [=] & _)|(Hne & Hnp & _ & Hcs)]].
    + exists (new1 ++ mk ++ [CallBuildVRT mp (tiles s2) true]).
      split; [by rewrite Hcs, Hc, <- app_assoc|]. left.
      split; [done|]. split; [by rewrite Hnp, dict_set_set|].
      exists mp, (tiles s2). set_solver.
    + destruct Hcs as [Hcs|(mp & Hcs)].
      * exists (new1 ++ mk). split; [by rewrite Hcs, Hc, <- app_assoc|]. right.
        split; [done|]. split; [by rewrite Hnp|].
        intros mp srcs [Hin|Hin]%elem_of_app; [by eapply Hno|by eapply Hmk'].
      * exists (new1 ++ mk ++ [CallBuildVRT mp (tiles s2) false]).
        split; [by rewrite Hcs, Hc, <- app_assoc|]. right.
        split; [done|]. split; [by rewrite Hnp|].
        intros mp' srcs [Hin|[Hin|Hin]%elem_of_app]%elem_of_app;
          [by eapply Hno|by eapply Hmk'|].
        by apply list_elem_of_singleton in Hin.
  - intros [= <- <-]. exists new1. split; [done|]. right.
    split; [done|]. split; [by rewrite Hn|]. intros mp srcs. apply Hno.
  - intros [= <- <-]. exists new1. split; [done|]. right.
    split; [done|]. split; [by rewrite Hn|]. intros mp srcs. apply Hno.
Qed.

(** *** The product loop and the driver *)




Lemma calculateProducts_unfold (w : World) (params : Params)
    (imageryDate : string) (st : State) :
  calculateProducts w params imageryDate st
  = match for_each (products params) (product_body w params imageryDate)
            (add_log (INFO, "Start processing products.")
               (add_log (INFO, "Parameters fetched.")
                  (add_log (INFO, "Fetching arguments.") (fresh_frame st)))) with
    | (Normal _, s') =>
        (Normal (newProducts s'), add_log (INFO, "Done.") s')
    | (Continue, s') => (Continue, s')
    | (Raised e, s') => (Raised e, s')
    end.
Proof.
  unfold calculateProducts.
  cbv [mbind M_bind bind logging_info modify get ret]. cbn.
  by destruct (for_each (products params) _ _) as [[[]| |e] s'].
Qed.





(** ** Failures of path resolution *)

Lemma getRequiredBandsPaths_same (w : World) (product imageryDate : string)
    (requiredBands : list (string * string))
    (rawInput_ outFolder resolution_ : string) (s : State) :
  same_disk_and_locals s
    (getRequiredBandsPaths w product imageryDate requiredBands rawInput_
       outFolder resolution_ s).2.
Proof.
  by apply getRequiredBandsPaths_respects; [exact _|]; intros; repeat split.
Qed.

Lemma try_except_raises_always {A} (body : M A) (h : Exn -> M A) (s : State) :
  raises_always body ->
  exists e, try_except body h s = h e (body s).2.
Proof.
  intros Hr. destruct (Hr s) as [e He]. exists e. unfold try_except.
  destruct (body s) as [o s1]. cbn in He. by subst o.
Qed.

(** C4 (the code departs from it). Whenever [getRequiredBandsPaths] raises
    for the first configured product, the handler of the path resolution
    logs the error and falls through; the folder loop then reads
    [requiredInputOutputPaths], which was never bound, and the resulting
    [UnboundLocalError] leaves [calculateProducts]: the run is aborted
    instead of moving on to the next product. *)
Theorem path_failure_aborts_run (w : World) (params : Params)
    (imageryDate prodId : string) (args : ProductArgs)
    (rest : list (string * ProductArgs)) (st : State) :
  products params = (prodId, args) :: rest ->
  raises_always (getRequiredBandsPaths w (name args) imageryDate (bands args)
                   (rawInput params) (productOutput params) (resolution args)) ->
  exists st',
    calculateProducts w params imageryDate st
    = (Raised (UnboundLocalError "requiredInputOutputPaths"), st')
    /\ (ERROR, "Error while fetching and calculationg paths for " +:+ name args)
       ∈ log st'
    /\ newProducts st' = [(prodId, {["name" := name args]})].
Proof.
  intros Hps Hraise.
  rewrite calculateProducts_unfold, Hps, for_each_cons, product_body_unfold.
  cbv zeta. set (s1 := set_newProducts _ _).
  unfold before_mosaic, fetch_paths. rewrite !bind_unfold.
  cbn [logging_info modify].
  set (s2 := add_log _ s1).
  set (body := getRequiredBandsPaths _ _ _ _ _ _ _ ≫= _).
  assert (Hbody : raises_always body).
  { intros s. destruct (Hraise s) as [e He]. exists e. unfold body.
    rewrite bind_unfold.
    destruct (getRequiredBandsPaths _ _ _ _ _ _ _ s) as [o s']. cbn in He.
    by subst o. }
  destruct (try_except_raises_always body
              (fun e => logging_error
                          ("Error while fetching and calculationg paths for "
                           +:+ name args);; logging_error (exn_str e))
              s2 Hbody) as [e ->].
  assert (Hframe : requiredInputOutputPaths (body s2).2 = None
                   /\ newProducts (body s2).2 = newProducts s1).
  { unfold body.
    pose proof (getRequiredBandsPaths_same w (name args) imageryDate (bands args)
                  (rawInput params) (productOutput params) (resolution args) s2)
      as (_ & _ & _ & Hn & Hp & _).
    destruct (Hraise s2) as [e' He']. rewrite bind_unfold.
    destruct (getRequiredBandsPaths _ _ _ _ _ _ _ s2) as [o s'] eqn:Hg.
    cbn in He'. subst o. cbn in *. by rewrite Hn, Hp. }
  destruct Hframe as [Hnone Hnp].
  unfold create_folders.
  cbv [mbind M_bind bind logging_info logging_error modify get ret raise
       read_local]. cbn. rewrite Hnone.
  eexists. split; [reflexivity|]. cbn. split.
  - rewrite !elem_of_app, !list_elem_of_singleton. naive_solver.
  - rewrite Hnp. reflexivity.
Qed.

(** The granule has no folder for the configured resolution. *)
Lemma path_failure_aborts_run_witness :
  exists st',
    calculateProducts world_resolution_missing (demo_params "NDVI" ndvi_bands)
      "20200105" (initial_state ∅ ∅)
    = (Raised (UnboundLocalError "requiredInputOutputPaths"), st')
    /\ (ERROR, "Error while fetching and calculationg paths for NDVI") ∈ log st'
    /\ newProducts st' = [("1", {["name" := "NDVI"]})].
Proof.
  apply (path_failure_aborts_run world_resolution_missing
           (demo_params "NDVI" ndvi_bands) "20200105" "1" demo_ndvi_args []
           (initial_state ∅ ∅) eq_refl).
  intros s. eexists. vm_compute. reflexivity.
Defined.

(** *** The band loops, one step at a time *)

Lemma match_rawBands_cons (w : World) (product imageryDate outFolder : string)
    (ii : nat) (code pathToRaw rawBand : string) (rest : list string)
    (entry : gmap string pyval) (s : State) :
  match_rawBands w product imageryDate outFolder ii code pathToRaw
    (rawBand :: rest) entry s
  = match split_on "_" rawBand !! 2%nat with
    | None => (Raised IndexError, s)
    | Some tok =>
        if String.eqb tok code then
          match take 2 (split_on "_" rawBand) !! 0%nat,
                take 2 (split_on "_" rawBand) !! 1%nat with
          | Some o0, Some o1 =>
              match_rawBands w product imageryDate outFolder ii code pathToRaw
                rest
                (<["outName" := VStr (tile_name o0 o1 product ii)]>
                   (<["outFolder" := VStr (os_path_join w
                                             (os_path_join w outFolder imageryDate)
                                             product)]>
                      (<[code := VStr (os_path_join w pathToRaw rawBand)]> entry)))
                s
          | _, _ => (Raised IndexError, s)
          end
        else
          match_rawBands w product imageryDate outFolder ii code pathToRaw rest
            entry s
    end.
Proof.
  cbn [match_rawBands]. unfold list_index. rewrite bind_unfold.
  destruct (split_on "_" rawBand !! 2%nat) as [tok|]; cbn; [|done].
  destruct (String.eqb tok code); [|done].
  rewrite bind_unfold.
  destruct (take 2 (split_on "_" rawBand) !! 0%nat) as [o0|]; cbn; [|done].
  rewrite bind_unfold.
  by destruct (take 2 (split_on "_" rawBand) !! 1%nat) as [o1|].
Qed.

(** The band loops read and build; they leave the state alone. *)
Lemma match_rawBands_state (w : World) (product imageryDate outFolder : string)
    (ii : nat) (code pathToRaw : string) (rawBands : list string)
    (entry : gmap string pyval) (s : State) :
  (match_rawBands w product imageryDate outFolder ii code pathToRaw rawBands
     entry s).2 = s.
Proof.
  revert entry. induction rawBands as [|rb rest IH]; intros entry; [done|].
  rewrite match_rawBands_cons.
  destruct (split_on "_" rb !! 2%nat) as [tok|]; [|done].
  destruct (String.eqb tok code); [|apply IH].
  destruct (take 2 (split_on "_" rb) !! 0%nat),
    (take 2 (split_on "_" rb) !! 1%nat); first [done|apply IH].
Qed.

Lemma resolve_bands_cons (w : World) (product imageryDate outFolder : string)
    (ii : nat) (pathToRaw : string) (rawBands : list string)
    (band code : string) (rest : list (string * string))
    (entry : gmap string pyval) (s : State) :
  resolve_bands w product imageryDate outFolder ii pathToRaw rawBands
    ((band, code) :: rest) entry s
  = match match_rawBands w product imageryDate outFolder ii code pathToRaw
            rawBands (<[code := VEmptyDict]> entry) s with
    | (Normal entry', _) =>
        resolve_bands w product imageryDate outFolder ii pathToRaw rawBands rest
          entry' s
    | (Continue, _) => (Continue, s)
    | (Raised e, _) => (Raised e, s)
    end.
Proof.
  cbn [resolve_bands]. rewrite bind_unfold.
  pose proof (match_rawBands_state w product imageryDate outFolder ii code
                pathToRaw rawBands (<[code := VEmptyDict]> entry) s) as Hs.
  destruct (match_rawBands _ _ _ _ _ _ _ _ _ s) as [[e'| |e] s']; cbn in Hs;
    by subst s'.
Qed.

Lemma resolve_bands_state (w : World) (product imageryDate outFolder : string)
    (ii : nat) (pathToRaw : string) (rawBands : list string)
    (requiredBands : list (string * string))
    (entry : gmap string pyval) (s : State) :
  (resolve_bands w product imageryDate outFolder ii pathToRaw rawBands
     requiredBands entry s).2 = s.
Proof.
  revert entry. induction requiredBands as [|[band code] rest IH]; intros entry;
    [done|].
  rewrite resolve_bands_cons.
  destruct (match_rawBands _ _ _ _ _ _ _ _ _ s) as [[e'| |e] s']; [|done..].
  apply IH.
Qed.

Lemma take_2_lookup {A} (l : list A) (x : A) :
  l !! 2%nat = Some x ->
  exists a b, l !! 0%nat = Some a /\ l !! 1%nat = Some b
              /\ take 2 l !! 0%nat = Some a /\ take 2 l !! 1%nat = Some b.
Proof. destruct l as [|a [|b [|c l]]]; intros H; simplify_eq/=. eauto 10. Qed.

(** *** The granule loop, one step at a time *)

Lemma resolve_granules_cons (w : World) (product imageryDate : string)
    (requiredBands : list (string * string))
    (rawBandFolder outFolder resolution_ safeFolder : string)
    (rest : list string) (ii : nat) (acc : list (gmap string pyval)) (s : State) :
  resolve_granules w product imageryDate requiredBands rawBandFolder outFolder
    resolution_ (safeFolder :: rest) ii acc s
  = match os_listdir w (granule_folder w rawBandFolder safeFolder) ≫= head with
    | None => (Normal acc, log_break (granule_folder w rawBandFolder safeFolder) s)
    | Some fFolder =>
        let pathToRaw :=
          raw_band_folder w rawBandFolder safeFolder fFolder resolution_ in
        match os_listdir w pathToRaw with
        | None => (Raised (OSError pathToRaw), s)
        | Some rawBands =>
            match resolve_bands w product imageryDate outFolder ii pathToRaw
                    rawBands requiredBands ∅ s with
            | (Normal entry, _) =>
                resolve_granules w product imageryDate requiredBands
                  rawBandFolder outFolder resolution_ rest (S ii)
                  (acc ++ [entry]) s
            | (Continue, _) => (Continue, s)
            | (Raised e, _) => (Raised e, s)
            end
        end
    end.
Proof.
  cbn [resolve_granules]. unfold granule_folder, raw_band_folder, granule_folder.
  destruct (os_listdir w _ ≫= head) as [fFolder|]; [|done].
  cbv zeta. unfold listdir. rewrite bind_unfold.
  destruct (os_listdir w _) as [rawBands|]; [|done].
  cbn [ret]. rewrite bind_unfold.
  pose proof (resolve_bands_state w product imageryDate outFolder ii
                (os_path_join w
                   (os_path_join w
                      (os_path_join w
                         (os_path_join w (os_path_join w rawBandFolder safeFolder)
                            "GRANULE") fFolder) "IMG_DATA") resolution_)
                rawBands requiredBands ∅ s) as Hs.
  destruct (resolve_bands _ _ _ _ _ _ _ _ _ s) as [[e1| |e] s1]; cbn in Hs;
    by subst s1.
Qed.

Lemma getRequiredBandsPaths_unfold (w : World) (product imageryDate : string)
    (requiredBands : list (string * string))
    (rawInput_ outFolder resolution_ : string) (s : State) :
  getRequiredBandsPaths w product imageryDate requiredBands rawInput_ outFolder
    resolution_ s
  = match os_listdir w (os_path_join w rawInput_ imageryDate) with
    | None => (Raised (OSError (os_path_join w rawInput_ imageryDate)), s)
    | Some safeFolders =>
        resolve_granules w product imageryDate requiredBands
          (os_path_join w rawInput_ imageryDate) outFolder resolution_
          safeFolders 0 [] s
    end.
Proof.
  unfold getRequiredBandsPaths, listdir. rewrite bind_unfold.
  by destruct (os_listdir w _).
Qed.

Lemma match_rawBands_returns (w : World) (product imageryDate outFolder : string)
    (ii : nat) (code pathToRaw : string) (rawBands : list string)
    (entry : gmap string pyval) (s : State) :
  Forall (fun rawBand => is_Some (split_on "_" rawBand !! 2%nat)) rawBands ->
  exists entry',
    match_rawBands w product imageryDate outFolder ii code pathToRaw rawBands
      entry s = (Normal entry', s).
Proof.
  intros H. revert entry.
  induction H as [|rb rest [tok Htok] _ IH]; intros entry; [by eexists|].
  rewrite match_rawBands_cons, Htok.
  destruct (take_2_lookup _ _ Htok) as (a & b & _ & _ & -> & ->).
  destruct (String.eqb tok code); apply IH.
Qed.

Lemma resolve_bands_returns (w : World) (product imageryDate outFolder : string)
    (ii : nat) (pathToRaw : string) (rawBands : list string)
    (requiredBands : list (string * string))
    (entry : gmap string pyval) (s : State) :
  Forall (fun rawBand => is_Some (split_on "_" rawBand !! 2%nat)) rawBands ->
  exists entry',
    resolve_bands w product imageryDate outFolder ii pathToRaw rawBands
      requiredBands entry s = (Normal entry', s).
Proof.
  intros H. revert entry.
  induction requiredBands as [|[band code] rest IH]; intros entry; [by eexists|].
  rewrite resolve_bands_cons.
  destruct (match_rawBands_returns w product imageryDate outFolder ii code
              pathToRaw rawBands (<[code := VEmptyDict]> entry) s H)
    as [e1 ->].
  apply IH.
Qed.

(** The granule loop over resolvable granules returns one entry for each;
    at a granule whose GRANULE folder cannot be listed or is empty, it
    stops with what it has and does not look at the granules after it. *)
Lemma resolve_granules_break (w : World) (product imageryDate : string)
    (requiredBands : list (string * string))
    (rawBandFolder outFolder resolution_ : string)
    (pre : list string) (bad : string) (post : list string) (ii : nat)
    (acc : list (gmap string pyval)) (s : State) :
  Forall (granule_resolvable w rawBandFolder resolution_) pre ->
  ~ granule_listable w rawBandFolder bad ->
  exists r,
    resolve_granules w product imageryDate requiredBands rawBandFolder outFolder
      resolution_ pre ii acc s = (Normal r, s)
    /\ resolve_granules w product imageryDate requiredBands rawBandFolder
         outFolder resolution_ (pre ++ bad :: post) ii acc s
       = (Normal r,
          add_log (ERROR, "e")
            (add_log (ERROR, granule_folder w rawBandFolder bad +:+ " is empty.")
               s))
    /\ length r = (length acc + length pre)%nat.
Proof.
  intros Hpre Hbad. revert ii acc.
  induction Hpre as [|g pre (fFolder & rawBands & Hg & Hl & Hnames) _ IH];
    intros ii acc.
  - exists acc. split; [done|]. cbn [app]. rewrite resolve_granules_cons.
    unfold granule_listable in Hbad.
    destruct (os_listdir w _ ≫= head) as [x|] eqn:Hx; [by destruct Hbad; eauto|].
    split; [done|cbn; lia].
  - cbn [app]. rewrite !resolve_granules_cons, Hg. cbv zeta.
    unfold raw_band_folder. rewrite Hl.
    destruct (resolve_bands_returns w product imageryDate outFolder ii
                (os_path_join w
                   (os_path_join w
                      (os_path_join w (granule_folder w rawBandFolder g) fFolder)
                      "IMG_DATA") resolution_)
                rawBands requiredBands ∅ s Hnames) as [entry ->].
    destruct (IH (S ii) (acc ++ [entry])) as (r & H1 & H2 & Hlen).
    exists r. split; [done|]. split; [done|].
    rewrite Hlen, length_app. cbn. lia.
Qed.

(** C5, as the code has it. If the GRANULE folder of some granule cannot be
    listed (missing or empty) while every granule before it resolves (the
    first element of its GRANULE folder can be obtained, the folder of its
    raw bands can be listed and every name in it has a third token),
    [getRequiredBandsPaths] stops there, writes the two error records, and
    returns normally the entries built for the earlier granules: one entry
    per earlier granule, the very list the loop builds over those granules
    alone, whatever the later granules are. Nothing else changes. *)
Theorem granule_listing_failure_keeps_earlier_entries (w : World)
    (product imageryDate : string) (requiredBands : list (string * string))
    (rawInput_ outFolder resolution_ : string)
    (pre : list string) (bad : string) (post : list string) (s : State) :
  os_listdir w (os_path_join w rawInput_ imageryDate) = Some (pre ++ bad :: post) ->
  Forall (granule_resolvable w (os_path_join w rawInput_ imageryDate) resolution_)
    pre ->
  ~ granule_listable w (os_path_join w rawInput_ imageryDate) bad ->
  exists r,
    getRequiredBandsPaths w product imageryDate requiredBands rawInput_ outFolder
      resolution_ s
    = (Normal r,
       add_log (ERROR, "e")
         (add_log (ERROR, granule_folder w (os_path_join w rawInput_ imageryDate)
                            bad +:+ " is empty.") s))
    /\ length r = length pre
    /\ resolve_granules w product imageryDate requiredBands
         (os_path_join w rawInput_ imageryDate) outFolder resolution_ pre 0 [] s
       = (Normal r, s).
Proof.
  intros Hls Hpre Hbad.
  rewrite getRequiredBandsPaths_unfold, Hls.
  destruct (resolve_granules_break w product imageryDate requiredBands _ outFolder
              resolution_ pre bad post 0 [] s Hpre Hbad) as (r & H1 & H2 & Hlen).
  exists r. split; [done|]. split; [exact Hlen|done].
Qed.

(** Two granules, the second without a GRANULE folder. *)
Lemma granule_listing_failure_keeps_earlier_entries_witness :
  exists r,
    getRequiredBandsPaths world_second_granule_missing "NDVI" "20200105"
      ndvi_bands "raw" "out" "R10m" (initial_state ∅ ∅)
    = (Normal r,
       add_log (ERROR, "e")
         (add_log (ERROR, granule_folder world_second_granule_missing
                            (os_path_join world_second_granule_missing
                               "raw" "20200105") "B.SAFE" +:+ " is empty.")
            (initial_state ∅ ∅)))
    /\ length r = length ["A.SAFE"]
    /\ resolve_granules world_second_granule_missing "NDVI" "20200105" ndvi_bands
         (os_path_join world_second_granule_missing "raw" "20200105") "out"
         "R10m" ["A.SAFE"] 0 [] (initial_state ∅ ∅)
       = (Normal r, initial_state ∅ ∅).
Proof.
  apply (granule_listing_failure_keeps_earlier_entries
           world_second_granule_missing "NDVI" "20200105" ndvi_bands
           "raw" "out" "R10m" ["A.SAFE"] "B.SAFE" []).
  - vm_compute. reflexivity.
  - constructor; [|constructor]. eexists _, _.
    split; [vm_compute; reflexivity|]. split; [vm_compute; reflexivity|].
    repeat constructor; eexists; vm_compute; reflexivity.
  - intros [x Hx]. vm_compute in Hx. discriminate.
Defined.

(** C5 as stated fails: with the second granule's GRANULE folder missing,
    the entry of the first granule is returned all the same. *)
Lemma partial_results_are_returned :
  os_listdir world_second_granule_missing "raw/20200105/B.SAFE/GRANULE" = None
  /\ run_second_granule_missing.1 = Normal [demo_ndvi_entry]
  /\ demo_ndvi_entry !! "B04"
     = Some (VStr (img_dir "A.SAFE" +:+ "/T33_20200105T100_B04_10m.jp2")).
Proof. repeat split; vm_compute; reflexivity. Qed.

(** ** The mosaic of a product without tiles *)

(** C7, as the code has it. With an empty tile list, an output name left by
    the tile loop and a mosaic folder that exists or can be created, the
    mosaic is not skipped: BuildVRT is called with the empty list. If that
    call raises, "Failed to create mosaic." is logged as an error, the
    product gets no ["newDate"] and the iteration ends with [continue];
    otherwise the product gets its ["newDate"]. In neither case does an
    exception leave the iteration. *)
Theorem empty_tile_list_mosaic_attempted (w : World) (params : Params)
    (imageryDate prodId : string) (args : ProductArgs) (st : State)
    (n t1 t2 : string) (e : gmap string string) :
  tiles st = [] ->
  outName st = Some (VStr n) ->
  split_on "_" n !! 1%nat = Some t1 ->
  split_on "_" n !! 2%nat = Some t2 ->
  dict_get prodId (newProducts st) = Some e ->
  path_isdir st (mosaic_folder w params imageryDate args) = true
  \/ os_makedirs_raises w (mosaic_folder w params imageryDate args) = false ->
  exists st',
    last (calls st')
    = Some (CallBuildVRT (mosaic_path w params imageryDate args t1 t2) []
              (negb (gdal_BuildVRT_raises w
                       (mosaic_path w params imageryDate args t1 t2) [])))
    /\ if gdal_BuildVRT_raises w (mosaic_path w params imageryDate args t1 t2) []
       then build_mosaic w params imageryDate prodId args st = (Continue, st')
            /\ last (log st') = Some (ERROR, "BuildVRT")
            /\ (ERROR, "Failed to create mosaic.") ∈ log st'
            /\ newProducts st' = newProducts st
       else build_mosaic w params imageryDate prodId args st = (Normal tt, st')
            /\ newProducts st'
               = dict_set prodId (<["newDate" := imageryDate]> e) (newProducts st).
Proof.
  intros Ht Hn H1 H2 He Hdir.
  unfold mosaic_path, mosaic_folder in *.
  unfold build_mosaic, createOutFolder, makedirs, gdal_BuildVRT, read_local,
    list_index.
  cbv [mbind M_bind bind try_except logging_info logging_error modify ret get
       raise continue_].
  cbn [add_log outName]. rewrite Hn. cbn. rewrite H1. cbn. rewrite H2. cbn.
  set (mf := os_path_join w (os_path_join w (productOutput params) imageryDate)
               (name args)) in *.
  set (mp := os_path_join w mf _).
  destruct (path_isdir _ mf) eqn:Hisdir; cbn;
    [|destruct Hdir as [Hdir|Hmk]; [done|]; rewrite Hmk; cbn];
    rewrite Ht;
    (destruct (gdal_BuildVRT_raises w mp []); cbn;
     [|destruct (gdal_BuildVRT_writes w mp []); cbn; rewrite He; cbn]);
    eexists; (split; [|split; [reflexivity|]]); cbn; rewrite ?last_snoc;
    try done;
    (split; [done|]); (split; [|done]);
    rewrite !elem_of_app, !list_elem_of_singleton; naive_solver.
Qed.

(** The mosaic step after the only tile has failed. *)
Lemma empty_tile_list_mosaic_attempted_witness :
  exists st',
    last (calls st')
    = Some (CallBuildVRT
              (mosaic_path demo_world (demo_params "NDVI" ndvi_bands) "20200105"
                 demo_ndvi_args "20200105T100" "NDVI") []
              (negb (gdal_BuildVRT_raises demo_world
                       (mosaic_path demo_world (demo_params "NDVI" ndvi_bands)
                          "20200105" demo_ndvi_args "20200105T100" "NDVI") [])))
    /\ if gdal_BuildVRT_raises demo_world
            (mosaic_path demo_world (demo_params "NDVI" ndvi_bands) "20200105"
               demo_ndvi_args "20200105T100" "NDVI") []
       then build_mosaic demo_world (demo_params "NDVI" ndvi_bands) "20200105" "1"
              demo_ndvi_args demo_mosaic_state = (Continue, st')
            /\ last (log st') = Some (ERROR, "BuildVRT")
            /\ (ERROR, "Failed to create mosaic.") ∈ log st'
            /\ newProducts st' = newProducts demo_mosaic_state
       else build_mosaic demo_world (demo_params "NDVI" ndvi_bands) "20200105" "1"
              demo_ndvi_args demo_mosaic_state = (Normal tt, st')
            /\ newProducts st'
               = dict_set "1" (<["newDate" := "20200105"]> {["name" := "NDVI"]})
                   (newProducts demo_mosaic_state).
Proof.
  apply (empty_tile_list_mosaic_attempted demo_world
           (demo_params "NDVI" ndvi_bands) "20200105" "1" demo_ndvi_args
           demo_mosaic_state "T33_20200105T100_NDVI_0.tif" "20200105T100" "NDVI"
           {["name" := "NDVI"]}).
  - reflexivity.
  - reflexivity.
  - vm_compute. reflexivity.
  - vm_compute. reflexivity.
  - vm_compute. reflexivity.
  - right. reflexivity.
Defined.

(** C7 as stated fails: the only tile of the product fails at its first
    band, the tile list stays empty, and yet BuildVRT is called, with the
    empty list; nothing about the mosaic is logged as an error and the
    product is reported with its ["newDate"]. *)
Lemma empty_tile_list_still_calls_BuildVRT :
  run_unreadable.1
  = Normal [("1", <["newDate" := "20200105"]> {["name" := "NDVI"]})]
  /\ tiles run_unreadable.2 = []
  /\ calls run_unreadable.2
     = [CallMakedirs "out/20200105/NDVI";
        CallOpen (VStr (img_dir "A.SAFE" +:+ "/T33_20200105T100_B04_10m.jp2"));
        CallBuildVRT "out/20200105/NDVI/20200105_NDVI.vrt" [] true]
  /\ List.filter is_error (log run_unreadable.2)
     = [(ERROR, "Error while opening " +:+ img_dir "A.SAFE"
                +:+ "/T33_20200105T100_B04_10m.jp2.");
        (ERROR, "gdal.Open")].
Proof. repeat split; vm_compute; reflexivity. Qed.

(** ** Entries with an unresolved band *)

(** Run a branch up to the band whose opening fails; [j] is the position
    of that band among the bands the branch reads. *)
Ltac stops_at j :=
  unfold compute_index, branch_EVI, branch_NDMI, branch_NDWI, branch_NDVI,
    open_then_log, log_then_open, open_failed, lookup_key, openRasterOneBand;
  cbv [mbind M_bind bind try_except logging_info logging_error modify ret raise
       continue_];
  cbn;
  repeat (match goal with
          | H : _ !! _ = _ |- _ => rewrite H
          | H : gdal_Open _ _ = _ |- _ => rewrite H
          end; cbn);
  eexists; exists j; (split; [reflexivity|]); cbn;
  repeat (match goal with
          | H : _ !! _ = _ |- _ => rewrite H
          end; cbn);
  rewrite <- ?app_assoc;
  (split; [lia|]); (split; [done|]);
  (split;
   [intros [|[|i]] k p Hi Hb He; simplify_eq/=; first [lia|eauto]|]);
  (split; [first [by left|right; eauto 10]|]);
  (split;
   [eexists; (split; [reflexivity|]); cbn;
    repeat (match goal with
            | H : _ !! _ = _ |- _ => rewrite H
            end; cbn);
    rewrite ?elem_of_app, ?elem_of_cons; naive_solver|]);
  done.

Ltac resolved_band H p Hp :=
  apply Forall_cons in H as [[p Hp] H].

(** C6, as the code has it. An entry in which a band read by the product's
    branch is unresolved, the bands read before it being resolved, is still
    handed to the tile pipeline when its tile is not on disk. [gdal.Open] is
    called for the branch's bands in their order, up to and including the
    first band whose opening fails: the unresolved one, unless a band before
    it cannot be read. That failure is logged as an error and the iteration
    is abandoned with [continue]: no other call is made (no index
    calculation, no in-memory raster, no warp), no file is written and
    nothing is added to the tile list. *)
Theorem unresolved_band_stops_before_calculation (w : World)
    (product code : string) (before after : list string)
    (entry : gmap string pyval) (f n : string) (st : State) :
  entry !! "outFolder" = Some (VStr f) ->
  entry !! "outName" = Some (VStr n) ->
  path_exists st (os_path_join w f n) = false ->
  bands_read product = before ++ code :: after ->
  Forall (fun k => exists p, entry !! k = Some (VStr p)) before ->
  entry !! code = Some VEmptyDict ->
  exists st' j,
    tile_body w product entry st = (Continue, st')
    /\ (j <= length before)%nat
    /\ calls st'
       = calls st
         ++ ((fun k => CallOpen (default VEmptyDict (entry !! k)))
               <$> take (S j) (bands_read product))
    /\ (forall i k p,
          (i < j)%nat -> before !! i = Some k -> entry !! k = Some (VStr p) ->
          is_Some (gdal_Open w p))
    /\ (j = length before
        \/ exists k p, before !! j = Some k /\ entry !! k = Some (VStr p)
                       /\ gdal_Open w p = None)
    /\ (exists k, bands_read product !! j = Some k
          /\ (ERROR, "Error while opening "
                     +:+ pyval_str (default VEmptyDict (entry !! k)) +:+ ".")
             ∈ log st')
    /\ tiles st' = tiles st /\ files st' = files st /\ dirs st' = dirs st
    /\ resultRaster st' = resultRaster st.
Proof.
  intros Hf Hn Hex Hb Hpre Hk.
  rewrite (tile_body_unfold _ _ _ f n) by done. cbv zeta.
  rewrite path_exists_set_outName, Hex.
  unfold bands_read in *.
  destruct (String.eqb product "EVI") eqn:E1.
  { apply String.eqb_eq in E1. subst product.
    destruct before as [|b1 [|b2 [|b3 before]]]; simplify_eq/=.
    - stops_at 0%nat.
    - resolved_band Hpre p1 Hp1.
      destruct (gdal_Open w p1) eqn:Ho1; [stops_at 1%nat|stops_at 0%nat].
    - resolved_band Hpre p1 Hp1. resolved_band Hpre p2 Hp2.
      destruct (gdal_Open w p1) eqn:Ho1; [|stops_at 0%nat].
      destruct (gdal_Open w p2) eqn:Ho2; [stops_at 2%nat|stops_at 1%nat].
    - by destruct before. }
  destruct (String.eqb product "NDMI") eqn:E2.
  { apply String.eqb_eq in E2. subst product.
    destruct before as [|b1 [|b2 before]]; simplify_eq/=.
    - stops_at 0%nat.
    - resolved_band Hpre p1 Hp1.
      destruct (gdal_Open w p1) eqn:Ho1; [stops_at 1%nat|stops_at 0%nat].
    - by destruct before. }
  destruct (String.eqb product "NDWI") eqn:E3.
  { apply String.eqb_eq in E3. subst product.
    destruct before as [|b1 [|b2 before]]; simplify_eq/=.
    - stops_at 0%nat.
    - resolved_band Hpre p1 Hp1.
      destruct (gdal_Open w p1) eqn:Ho1; [stops_at 1%nat|stops_at 0%nat].
    - by destruct before. }
  destruct (String.eqb product "NDVI") eqn:E4; [|by destruct before].
  apply String.eqb_eq in E4. subst product.
  destruct before as [|b1 [|b2 before]]; simplify_eq/=.
  - stops_at 0%nat.
  - resolved_band Hpre p1 Hp1.
    destruct (gdal_Open w p1) eqn:Ho1; [stops_at 1%nat|stops_at 0%nat].
  - by destruct before.
Qed.

(** The EVI entry whose red band is unresolved, tile not on disk. *)
Lemma unresolved_band_stops_before_calculation_witness :
  exists st' j,
    tile_body world_red_band_absent "EVI" demo_evi_entry (initial_state ∅ ∅)
    = (Continue, st')
    /\ (j <= length ["B08"])%nat
    /\ calls st'
       = calls (initial_state ∅ ∅)
         ++ ((fun k => CallOpen (default VEmptyDict (demo_evi_entry !! k)))
               <$> take (S j) (bands_read "EVI"))
    /\ (forall i k p,
          (i < j)%nat -> ["B08"] !! i = Some k ->
          demo_evi_entry !! k = Some (VStr p) ->
          is_Some (gdal_Open world_red_band_absent p))
    /\ (j = length ["B08"]
        \/ exists k p, ["B08"] !! j = Some k
                       /\ demo_evi_entry !! k = Some (VStr p)
                       /\ gdal_Open world_red_band_absent p = None)
    /\ (exists k, bands_read "EVI" !! j = Some k
          /\ (ERROR, "Error while opening "
                     +:+ pyval_str (default VEmptyDict (demo_evi_entry !! k))
                     +:+ ".")
             ∈ log st')
    /\ tiles st' = tiles (initial_state ∅ ∅)
    /\ files st' = files (initial_state ∅ ∅)
    /\ dirs st' = dirs (initial_state ∅ ∅)
    /\ resultRaster st' = resultRaster (initial_state ∅ ∅).
Proof.
  apply (unresolved_band_stops_before_calculation world_red_band_absent
           "EVI" "B04" ["B08"] ["B02"] demo_evi_entry "out/20200105/EVI"
           "T33_20200105T100_EVI_0.tif" (initial_state ∅ ∅)).
  - vm_compute. reflexivity.
  - vm_compute. reflexivity.
  - vm_compute. reflexivity.
  - reflexivity.
  - constructor; [|constructor]. eexists. vm_compute. reflexivity.
  - vm_compute. reflexivity.
Defined.

(** C6 as stated fails: the red band of the granule is absent, so the EVI
    entry returned by path resolution has its role B04 unresolved; the tile
    pipeline is entered all the same and the near-infrared band is opened
    before the opening of the unresolved band fails. *)
Lemma unresolved_entry_reaches_band_opening :
  run_red_band_absent.1
  = Normal [("1", <["newDate" := "20200105"]> {["name" := "EVI"]})]
  /\ requiredInputOutputPaths run_red_band_absent.2 = Some [demo_evi_entry]
  /\ demo_evi_entry !! "B04" = Some VEmptyDict
  /\ calls run_red_band_absent.2
     = [CallMakedirs "out/20200105/EVI";
        CallOpen (VStr (img_dir "A.SAFE" +:+ "/T33_20200105T100_B08_10m.jp2"));
        CallOpen VEmptyDict;
        CallBuildVRT "out/20200105/EVI/20200105_EVI.vrt" [] true].
Proof. repeat split; vm_compute; reflexivity. Qed.

(* ===================================================================== *)
(** * Part III: further properties of the program                         *)
(* ===================================================================== *)

(** ** The index calculators *)

Lemma shape_arr_map {A B} (f : A -> B) (g : list (list A)) :
  shape (arr_map f g) = shape g.
Proof.
  unfold shape, arr_map. rewrite <- list_fmap_compose.
  apply list_fmap_ext. intros _ row _. simpl. apply length_fmap.
Qed.

Lemma shape_arr_zip {A B C} (f : A -> B -> C) (a : list (list A))
    (b : list (list B)) :
  shape a = shape b -> shape (arr_zip f a b) = shape a.
Proof.
  unfold shape, arr_zip. revert b.
  induction a as [|ra a IH]; intros [|rb b] E; simplify_eq/=; [done|].
  f_equal; [|by apply IH].
  rewrite length_zip_with. lia.
Qed.

Lemma shape_set_where (g : grid) (m : mask) (v : spec_float) :
  shape g = shape m -> shape (set_where g m v) = shape g.
Proof. apply shape_arr_zip. Qed.

(** Peel the outermost array operation of a shape goal. *)
Ltac shape_step :=
  first
    [ progress rewrite ?shape_arr_map
    | rewrite shape_arr_zip
    | done
    | congruence ].

Ltac shape_simpl :=
  unfold set_where, np_isnan, np_isinf, arr_eq_scalar, arr_gt_scalar,
    arr_lt_scalar, arr_div, arr_sub, arr_add, arr_add_scalar, arr_scalar_mul,
    arr_div_scalar;
  repeat shape_step.

Lemma calculateEVI_shape (B08 B04 B02 out : grid) :
  calculateEVI B08 B04 B02 = Some out ->
  shape out = shape B08 /\ shape B04 = shape B08 /\ shape B02 = shape B08.
Proof.
  unfold calculateEVI.
  destruct (same_shape B08 B04) eqn:E1; [|done].
  destruct (same_shape B08 B02) eqn:E2; [|done].
  apply same_shape_true in E1. apply same_shape_true in E2.
  cbn. intros [= <-]. split; [|by split]. shape_simpl.
Qed.

Lemma calculateNDMI_shape (B8A B11 out : grid) :
  calculateNDMI B8A B11 = Some out ->
  shape out = shape B8A /\ shape B11 = shape B8A.
Proof.
  unfold calculateNDMI. destruct (same_shape B8A B11) eqn:E; [|done].
  apply same_shape_true in E. intros [= <-]. split; [|done]. shape_simpl.
Qed.

Lemma calculateNDWI_shape (B03 B08 out : grid) :
  calculateNDWI B03 B08 = Some out ->
  shape out = shape B03 /\ shape B08 = shape B03.
Proof.
  unfold calculateNDWI. destruct (same_shape B03 B08) eqn:E; [|done].
  apply same_shape_true in E. intros [= <-]. split; [|done]. shape_simpl.
Qed.

Lemma calculateNDVI_shape (B08 B04 out : grid) :
  calculateNDVI B08 B04 = Some out ->
  shape out = shape B08 /\ shape B04 = shape B08.
Proof.
  unfold calculateNDVI. destruct (same_shape B08 B04) eqn:E; [|done].
  apply same_shape_true in E. intros [= <-]. split; [|done]. shape_simpl.
Qed.

(** X1. A grid returned by a calculator has exactly the shape of each of its
    inputs: rows and row lengths are those of the bands, whatever the masks
    did. *)
Theorem calculators_keep_shape (a b c out : grid) :
  calculateEVI a b c = Some out \/ calculateNDMI a b = Some out
  \/ calculateNDWI a b = Some out \/ calculateNDVI a b = Some out ->
  shape out = shape a /\ shape out = shape b
  /\ (calculateEVI a b c = Some out -> shape out = shape c).
Proof.
  intros H. assert (Hab : shape out = shape a /\ shape b = shape a).
  { destruct H as [H|[H|[H|H]]].
    - apply calculateEVI_shape in H. tauto.
    - by apply calculateNDMI_shape in H.
    - by apply calculateNDWI_shape in H.
    - by apply calculateNDVI_shape in H. }
  destruct Hab as [Ha Hb]. split; [done|]. split; [congruence|].
  intros HE. apply calculateEVI_shape in HE. destruct HE as (_ & _ & ->). done.
Qed.

Lemma calculators_keep_shape_witness :
  shape (np_full 2 3 F32.c0_6) = shape (np_full 2 3 (F32.of_Z 8000))
  /\ shape (np_full 2 3 F32.c0_6) = shape (np_full 2 3 (F32.of_Z 2000)).
Proof.
  destruct (calculators_keep_shape (np_full 2 3 (F32.of_Z 8000))
              (np_full 2 3 (F32.of_Z 2000)) [] (np_full 2 3 F32.c0_6))
    as (Ha & Hb & _).
  - right. right. right. vm_compute. reflexivity.
  - split; [exact Ha|exact Hb].
Defined.

(** *** What a pixel of the output is *)

Lemma clamp_px_kept (hi v : spec_float) :
  F32.ltb hi v = false -> F32.ltb v F32.minus_one = false -> clamp_px hi v = v.
Proof. intros H1 H2. unfold clamp_px, mask_px. by rewrite H1, H2. Qed.

Lemma finite_px_cases (v : spec_float) :
  finite_px v = if F32.is_nan v || F32.is_inf v then F32.sentinel else v.
Proof. by destruct v. Qed.

(** The post-processing of a pixel, in one case distinction. *)
Lemma post_px_cases (hi v : spec_float) (z1 z2 z3 : bool) :
  clamp_px hi (mask_px (mask_px (mask_px (finite_px v) z1) z2) z3)
  = if kept_px hi v (z1 || z2 || z3) then v else F32.sentinel.
Proof.
  unfold kept_px. rewrite finite_px_cases.
  destruct (F32.is_nan v) eqn:Hn; cbn.
  { destruct z1, z2, z3; cbn; apply clamp_px_sentinel. }
  destruct (F32.is_inf v) eqn:Hi; cbn.
  { destruct z1, z2, z3; cbn; apply clamp_px_sentinel. }
  destruct z1; cbn; [destruct z2, z3; cbn; apply clamp_px_sentinel|].
  destruct z2; cbn; [destruct z3; cbn; apply clamp_px_sentinel|].
  destruct z3; cbn; [apply clamp_px_sentinel|].
  unfold clamp_px, mask_px.
  destruct (F32.ltb hi v) eqn:H1; cbn; [done|].
  by destruct (F32.ltb v F32.minus_one).
Qed.

(** X2. A pixel of a calculator's output is the float32 value of the index
    formula at that pixel when that value is a finite number within the
    index's domain and no contributing band is zero there; in every other
    case it is the sentinel. The masks never alter a valid value. *)
Theorem output_is_formula_or_sentinel (a b c out : grid) (i j : nat)
    (x y z : spec_float) :
  pixel a i j = Some x -> pixel b i j = Some y ->
  (calculateEVI a b c = Some out -> pixel c i j = Some z ->
   pixel out i j
   = Some (if kept_px F32.c1_25 (evi_raw_px x y z)
                (F32.eqb x F32.zero || F32.eqb y F32.zero || F32.eqb z F32.zero)
           then evi_raw_px x y z else F32.sentinel))
  /\ (calculateNDMI a b = Some out \/ calculateNDWI a b = Some out
      \/ calculateNDVI a b = Some out ->
      pixel out i j
      = Some (if kept_px F32.one (nd_raw_px x y)
                   (F32.eqb x F32.zero || F32.eqb y F32.zero)
              then nd_raw_px x y else F32.sentinel)).
Proof.
  intros Hx Hy. split.
  - intros Hout Hz.
    rewrite (calculateEVI_pixel _ _ _ _ i j Hout), Hx, Hy, Hz. cbn. f_equal.
    unfold evi_px. apply post_px_cases.
  - intros [Hout|[Hout|Hout]].
    + rewrite (calculateNDMI_pixel _ _ _ i j Hout), Hx, Hy. cbn. f_equal.
      pose proof (post_px_cases F32.one (nd_raw_px x y) (F32.eqb x F32.zero)
                    (F32.eqb y F32.zero) false) as H.
      rewrite orb_false_r in H. exact H.
    + rewrite (calculateNDWI_pixel _ _ _ i j Hout), Hx, Hy. cbn. f_equal.
      pose proof (post_px_cases F32.one (nd_raw_px x y) (F32.eqb x F32.zero)
                    (F32.eqb y F32.zero) false) as H.
      rewrite orb_false_r in H. exact H.
    + rewrite (calculateNDVI_pixel _ _ _ i j Hout), Hx, Hy. cbn. f_equal.
      pose proof (post_px_cases F32.one (nd_raw_px x y) (F32.eqb y F32.zero)
                    (F32.eqb x F32.zero) false) as H.
      rewrite orb_false_r, (orb_comm (F32.eqb y F32.zero)) in H. exact H.
Qed.

(** NIR = 8000, RED = 500, BLUE = 1000: the EVI formula gives about 1.39,
    above the ceiling, and the pixel is the sentinel. *)
Lemma output_is_formula_or_sentinel_witness :
  pixel [[F32.sentinel]] 0 0
  = Some (if kept_px F32.c1_25
               (evi_raw_px (F32.of_Z 8000) (F32.of_Z 500) (F32.of_Z 1000))
               (F32.eqb (F32.of_Z 8000) F32.zero || F32.eqb (F32.of_Z 500) F32.zero
                || F32.eqb (F32.of_Z 1000) F32.zero)
          then evi_raw_px (F32.of_Z 8000) (F32.of_Z 500) (F32.of_Z 1000)
          else F32.sentinel).
Proof.
  refine (proj1 (output_is_formula_or_sentinel
                   [[F32.of_Z 8000]] [[F32.of_Z 500]] [[F32.of_Z 1000]]
                   [[F32.sentinel]] 0 0 (F32.of_Z 8000) (F32.of_Z 500)
                   (F32.of_Z 1000) eq_refl eq_refl) _ eq_refl).
  vm_compute. reflexivity.
Defined.

(** *** The three normalised differences are one function *)

Lemma zip_mask_comm (row : list spec_float) (m1 m2 : list bool) (v : spec_float) :
  zip_with (fun x (b : bool) => if b then v else x)
    (zip_with (fun x (b : bool) => if b then v else x) row m1) m2
  = zip_with (fun x (b : bool) => if b then v else x)
      (zip_with (fun x (b : bool) => if b then v else x) row m2) m1.
Proof.
  revert m1 m2. induction row as [|x row IH]; intros [|b1 m1] [|b2 m2]; cbn;
    try done.
  rewrite IH. by destruct b1, b2.
Qed.

Lemma set_where_comm (g : grid) (m1 m2 : mask) (v : spec_float) :
  set_where (set_where g m1 v) m2 v = set_where (set_where g m2 v) m1 v.
Proof.
  unfold set_where, arr_zip. revert m1 m2.
  induction g as [|row g IH]; intros [|r1 m1] [|r2 m2]; cbn; try done.
  by rewrite IH, zip_mask_comm.
Qed.

(** X3. The three normalised-difference calculators compute the same
    function of their arguments taken in order: [calculateNDMI] and
    [calculateNDWI] are the same code, and [calculateNDVI] differs only in
    the order of its two zero masks, which does not matter. So NDVI is
    NDMI of (NIR, RED) and NDWI of (GREEN, NIR) is NDVI of the same pair. *)
Theorem normalised_differences_coincide (a b : grid) :
  calculateNDVI a b = calculateNDMI a b
  /\ calculateNDMI a b = calculateNDWI a b.
Proof.
  split; [|reflexivity].
  unfold calculateNDVI, calculateNDMI. destruct (same_shape a b); [|done].
  cbv zeta.
  by rewrite (set_where_comm _ (arr_eq_scalar b F32.zero)
                (arr_eq_scalar a F32.zero)).
Qed.

(** ** Path resolution *)

(** *** Splitting at a separator *)

Lemma split_on_not_nil (sep : ascii) (s : string) : split_on sep s <> [].
Proof.
  destruct s as [|c s]; cbn [split_on]; [done|].
  destruct (Ascii.eqb c sep); [done|]. by destruct (split_on sep s).
Qed.

(** No token contains the separator. *)
Lemma split_on_tokens (sep : ascii) (s t : string) :
  t ∈ split_on sep s -> has_char sep t = false.
Proof.
  revert t. induction s as [|c s IH]; intros t; cbn [split_on].
  - intros ->%list_elem_of_singleton. done.
  - destruct (Ascii.eqb c sep) eqn:E.
    + intros [->|Hin]%elem_of_cons; [done|by apply IH].
    + destruct (split_on sep s) as [|t0 ts] eqn:Hs.
      * intros ->%list_elem_of_singleton. cbn [has_char]. by rewrite E.
      * intros [->|Hin]%elem_of_cons.
        -- cbn [has_char]. rewrite E. cbn [orb]. apply IH. apply list_elem_of_here.
        -- apply IH. by apply list_elem_of_further.
Qed.

(** A token followed by the separator is split off whole. *)
Lemma split_on_app_sep (sep : ascii) (t r : string) :
  has_char sep t = false ->
  split_on sep (t +:+ String sep r) = t :: split_on sep r.
Proof.
  induction t as [|c t IH].
  - intros _.
    change (split_on sep (String sep r) = EmptyString :: split_on sep r).
    cbn [split_on]. by rewrite Ascii.eqb_refl.
  - change (has_char sep (String c t)) with (Ascii.eqb c sep || has_char sep t).
    change (String c t +:+ String sep r) with (String c (t +:+ String sep r)).
    cbn [split_on].
    intros [Hc Ht]%orb_false_iff. rewrite Hc, (IH Ht). done.
Qed.

(** One completed step of the raw-file loop: the file matches the band code
    and the three keys are written, or it does not and the entry is kept. *)
Lemma match_rawBands_cons_Normal (w : World)
    (product imageryDate outFolder : string) (ii : nat)
    (code pathToRaw rawBand : string) (rest : list string)
    (entry entry' : gmap string pyval) (s s' : State) :
  match_rawBands w product imageryDate outFolder ii code pathToRaw
    (rawBand :: rest) entry s = (Normal entry', s') ->
  (band_matches code rawBand
   /\ exists t0 t1, split_on "_" rawBand !! 0%nat = Some t0
        /\ split_on "_" rawBand !! 1%nat = Some t1
        /\ match_rawBands w product imageryDate outFolder ii code pathToRaw rest
             (<["outName" := VStr (tile_name t0 t1 product ii)]>
                (<["outFolder" := VStr (os_path_join w
                                          (os_path_join w outFolder imageryDate)
                                          product)]>
                   (<[code := VStr (os_path_join w pathToRaw rawBand)]> entry)))
             s = (Normal entry', s'))
  \/ (~ band_matches code rawBand
      /\ match_rawBands w product imageryDate outFolder ii code pathToRaw rest
           entry s = (Normal entry', s')).
Proof.
  rewrite match_rawBands_cons. unfold band_matches.
  destruct (split_on "_" rawBand !! 2%nat) as [tok|] eqn:Htok; [|done].
  destruct (take_2_lookup _ _ Htok) as (a & b & Ha & Hb & -> & ->).
  destruct (String.eqb_spec tok code) as [->|Hne].
  - intros H. left. split; [done|]. by exists a, b.
  - intros H. right. split; [congruence|done].
Qed.

Lemma filter_band_matches_cons (code rawBand : string) (rest : list string) :
  filter (band_matches code) (rawBand :: rest)
  = if decide (band_matches code rawBand)
    then rawBand :: filter (band_matches code) rest
    else filter (band_matches code) rest.
Proof. by rewrite filter_cons. Qed.

Lemma last_cons_default {A} (x : A) (l : list A) :
  last (x :: l) = Some (default x (last l)).
Proof.
  revert x. induction l as [|y l IH]; intros x; [done|].
  change (last (x :: y :: l)) with (last (y :: l)). rewrite IH. cbn.
  by destruct (last l).
Qed.

(** The raw-file loop never removes a key. *)
Lemma match_rawBands_keeps_keys (w : World)
    (product imageryDate outFolder : string) (ii : nat)
    (code pathToRaw : string) (rawBands : list string)
    (entry entry' : gmap string pyval) (s s' : State) (k : string) :
  match_rawBands w product imageryDate outFolder ii code pathToRaw rawBands
    entry s = (Normal entry', s') ->
  is_Some (entry !! k) -> is_Some (entry' !! k).
Proof.
  revert entry. induction rawBands as [|rb rest IH]; intros entry H Hk.
  - cbn in H. unfold ret in H. by simplify_eq.
  - apply match_rawBands_cons_Normal in H
      as [(_ & t0 & t1 & _ & _ & H)|(_ & H)]; [|by eapply IH].
    eapply IH; [exact H|].
    rewrite !lookup_insert_is_Some'. auto.
Qed.

(** Keys other than the band code and the two output keys are not touched. *)
Lemma match_rawBands_other_key (w : World)
    (product imageryDate outFolder : string) (ii : nat)
    (code pathToRaw : string) (rawBands : list string)
    (entry entry' : gmap string pyval) (s s' : State) (k : string) :
  match_rawBands w product imageryDate outFolder ii code pathToRaw rawBands
    entry s = (Normal entry', s') ->
  k <> code -> k <> "outFolder" -> k <> "outName" ->
  entry' !! k = entry !! k.
Proof.
  intros H Hc Hf Hn. revert entry H.
  induction rawBands as [|rb rest IH]; intros entry H.
  - cbn in H. unfold ret in H. by simplify_eq.
  - apply match_rawBands_cons_Normal in H
      as [(_ & t0 & t1 & _ & _ & H)|(_ & H)]; [|by eapply IH].
    rewrite (IH _ H). by do 3 (rewrite lookup_insert_ne by congruence).
Qed.

(** The band code ends up at the path of the last matching raw file. *)
Lemma match_rawBands_code (w : World)
    (product imageryDate outFolder : string) (ii : nat)
    (code pathToRaw : string) (rawBands : list string)
    (entry entry' : gmap string pyval) (s s' : State) :
  match_rawBands w product imageryDate outFolder ii code pathToRaw rawBands
    entry s = (Normal entry', s') ->
  code <> "outFolder" -> code <> "outName" ->
  entry' !! code
  = match last (filter (band_matches code) rawBands) with
    | Some rawBand => Some (VStr (os_path_join w pathToRaw rawBand))
    | None => entry !! code
    end.
Proof.
  intros H Hf Hn. revert entry H.
  induction rawBands as [|rb rest IH]; intros entry H.
  - cbn in H. unfold ret in H. by simplify_eq.
  - rewrite filter_band_matches_cons.
    apply match_rawBands_cons_Normal in H
      as [(Hm & t0 & t1 & _ & _ & H)|(Hm & H)].
    + rewrite decide_True by done. rewrite last_cons_default, (IH _ H).
      destruct (last (filter (band_matches code) rest)); cbn; [done|].
      do 2 (rewrite lookup_insert_ne by congruence). by rewrite lookup_insert_eq.
    + rewrite decide_False by done. by apply IH.
Qed.

(** After a match, the two output keys hold the folder of the product and
    the tile name built from the last matching raw file. *)
Lemma match_rawBands_output_keys (w : World)
    (product imageryDate outFolder : string) (ii : nat)
    (code pathToRaw : string) (rawBands : list string)
    (entry entry' : gmap string pyval) (s s' : State) (rawBand : string) :
  match_rawBands w product imageryDate outFolder ii code pathToRaw rawBands
    entry s = (Normal entry', s') ->
  last (filter (band_matches code) rawBands) = Some rawBand ->
  exists t0 t1, split_on "_" rawBand !! 0%nat = Some t0
    /\ split_on "_" rawBand !! 1%nat = Some t1
    /\ entry' !! "outName" = Some (VStr (tile_name t0 t1 product ii))
    /\ entry' !! "outFolder"
       = Some (VStr (os_path_join w (os_path_join w outFolder imageryDate)
                       product)).
Proof.
  revert entry. induction rawBands as [|rb rest IH]; intros entry H Hlast.
  - done.
  - rewrite filter_band_matches_cons in Hlast.
    apply match_rawBands_cons_Normal in H
      as [(Hm & t0 & t1 & H0 & H1 & H)|(Hm & H)].
    + rewrite decide_True in Hlast by done. rewrite last_cons_default in Hlast.
      destruct (last (filter (band_matches code) rest)) as [rb'|] eqn:Hl;
        cbn in Hlast; simplify_eq.
      * by eapply IH.
      * exists t0, t1. split; [done|]. split; [done|].
        assert (Hnone : forall k, k = "outName" \/ k = "outFolder" ->
                  entry' !! k
                  = (<["outName" := VStr (tile_name t0 t1 product ii)]>
                       (<["outFolder" := VStr (os_path_join w
                                                 (os_path_join w outFolder
                                                    imageryDate) product)]>
                          (<[code := VStr (os_path_join w pathToRaw rawBand)]>
                             entry))) !! k).
        { clear IH H0 H1 Hm. revert H Hl. generalize (<["outName":=VStr (tile_name t0 t1 product ii)]>
                       (<["outFolder" := VStr (os_path_join w
                                                 (os_path_join w outFolder
                                                    imageryDate) product)]>
                          (<[code := VStr (os_path_join w pathToRaw rawBand)]>
                             entry))).
          induction rest as [|r rest IH]; intros e0 H Hl k Hk.
          - cbn in H. unfold ret in H. by simplify_eq.
          - rewrite filter_band_matches_cons in Hl.
            apply match_rawBands_cons_Normal in H
              as [(Hm & ? & ? & _ & _ & H)|(Hm & H)].
            + rewrite decide_True in Hl by done.
              by rewrite last_cons_default in Hl.
            + rewrite decide_False in Hl by done. by eapply IH. }
        rewrite !Hnone by auto.
        split; [by rewrite lookup_insert_eq|].
        by rewrite lookup_insert_ne, lookup_insert_eq.
    + rewrite decide_False in Hlast by done. by eapply IH.
Qed.

Lemma match_rawBands_no_match (w : World)
    (product imageryDate outFolder : string) (ii : nat)
    (code pathToRaw : string) (rawBands : list string)
    (entry entry' : gmap string pyval) (s s' : State) :
  match_rawBands w product imageryDate outFolder ii code pathToRaw rawBands
    entry s = (Normal entry', s') ->
  last (filter (band_matches code) rawBands) = None ->
  entry' = entry.
Proof.
  revert entry. induction rawBands as [|rb rest IH]; intros entry H Hl.
  - cbn in H. unfold ret in H. by simplify_eq.
  - rewrite filter_band_matches_cons in Hl.
    apply match_rawBands_cons_Normal in H
      as [(Hm & ? & ? & _ & _ & H)|(Hm & H)].
    + rewrite decide_True in Hl by done. by rewrite last_cons_default in Hl.
    + rewrite decide_False in Hl by done. by eapply IH.
Qed.

Lemma last_filter_elem_of (code rawBand : string) (rawBands : list string) :
  last (filter (band_matches code) rawBands) = Some rawBand ->
  rawBand ∈ rawBands /\ band_matches code rawBand.
Proof.
  intros H. apply last_Some_elem_of in H. by apply list_elem_of_filter in H as [? ?].
Qed.

(** A raw file name with fewer than three tokens stops the loop with an
    [IndexError], wherever it stands in the listing. *)
Lemma match_rawBands_short_name (w : World)
    (product imageryDate outFolder : string) (ii : nat)
    (code pathToRaw bad : string) (rawBands : list string)
    (entry : gmap string pyval) (s : State) :
  bad ∈ rawBands ->
  split_on "_" bad !! 2%nat = None ->
  match_rawBands w product imageryDate outFolder ii code pathToRaw rawBands
    entry s = (Raised IndexError, s).
Proof.
  intros Hin Hbad. revert entry.
  induction rawBands as [|rb rest IH]; intros entry;
    [by apply elem_of_nil in Hin|].
  rewrite match_rawBands_cons.
  destruct (split_on "_" rb !! 2%nat) as [tok|] eqn:Htok; [|done].
  apply elem_of_cons in Hin as [->|Hin]; [congruence|].
  destruct (String.eqb tok code); [|by apply IH].
  destruct (take 2 (split_on "_" rb) !! 0%nat),
    (take 2 (split_on "_" rb) !! 1%nat); try done. by apply IH.
Qed.

Lemma resolve_bands_cons_Normal (w : World)
    (product imageryDate outFolder : string) (ii : nat) (pathToRaw : string)
    (rawBands : list string) (band code : string)
    (rest : list (string * string)) (entry entry' : gmap string pyval)
    (s s' : State) :
  resolve_bands w product imageryDate outFolder ii pathToRaw rawBands
    ((band, code) :: rest) entry s = (Normal entry', s') ->
  exists e1,
    match_rawBands w product imageryDate outFolder ii code pathToRaw rawBands
      (<[code := VEmptyDict]> entry) s = (Normal e1, s)
    /\ resolve_bands w product imageryDate outFolder ii pathToRaw rawBands rest
         e1 s = (Normal entry', s').
Proof.
  rewrite resolve_bands_cons.
  pose proof (match_rawBands_state w product imageryDate outFolder ii code
                pathToRaw rawBands (<[code := VEmptyDict]> entry) s) as Hs.
  destruct (match_rawBands _ _ _ _ _ _ _ _ _ s) as [[e1| |e] s1]; [|done..].
  cbn in Hs. subst s1. eauto.
Qed.

(** The band loop never removes a key, and leaves every configured band
    code as a key. *)
Lemma resolve_bands_keys (w : World)
    (product imageryDate outFolder : string) (ii : nat) (pathToRaw : string)
    (rawBands : list string) (requiredBands : list (string * string))
    (entry entry' : gmap string pyval) (s s' : State) :
  resolve_bands w product imageryDate outFolder ii pathToRaw rawBands
    requiredBands entry s = (Normal entry', s') ->
  (forall k, is_Some (entry !! k) -> is_Some (entry' !! k))
  /\ (forall band code, (band, code) ∈ requiredBands -> is_Some (entry' !! code)).
Proof.
  revert entry. induction requiredBands as [|[band code] rest IH]; intros entry H.
  - cbn in H. unfold ret in H. simplify_eq. split; [done|].
    intros ? ? Hin. by apply elem_of_nil in Hin.
  - apply resolve_bands_cons_Normal in H as (e1 & Hm & H).
    destruct (IH _ H) as [Hkeep Hcodes].
    assert (Hkeep1 : forall k, is_Some ((<[code := VEmptyDict]> entry) !! k) ->
              is_Some (e1 !! k))
      by (intros k; by eapply match_rawBands_keeps_keys).
    split.
    + intros k Hk. apply Hkeep, Hkeep1. rewrite lookup_insert_is_Some'. auto.
    + intros b c [[= -> ->]|Hin]%elem_of_cons; [|by eapply Hcodes].
      apply Hkeep, Hkeep1. rewrite lookup_insert_is_Some'. auto.
Qed.

Lemma resolve_bands_other_key (w : World)
    (product imageryDate outFolder : string) (ii : nat) (pathToRaw : string)
    (rawBands : list string) (requiredBands : list (string * string))
    (entry entry' : gmap string pyval) (s s' : State) (k : string) :
  resolve_bands w product imageryDate outFolder ii pathToRaw rawBands
    requiredBands entry s = (Normal entry', s') ->
  k ∉ requiredBands.*2 -> k <> "outFolder" -> k <> "outName" ->
  entry' !! k = entry !! k.
Proof.
  intros H Hk Hf Hn. revert entry H.
  induction requiredBands as [|[band code] rest IH]; intros entry H.
  - cbn in H. unfold ret in H. by simplify_eq.
  - cbn in Hk. apply not_elem_of_cons in Hk as [Hne Hk].
    apply resolve_bands_cons_Normal in H as (e1 & Hm & H).
    rewrite (IH Hk _ H).
    rewrite (match_rawBands_other_key _ _ _ _ _ _ _ _ _ _ _ _ k Hm) by done.
    by rewrite lookup_insert_ne.
Qed.

(** X4. Every entry returned by [getRequiredBandsPaths] has every configured
    band code as a key, resolved or not: reading a configured band of an
    entry never raises a [KeyError]. *)
Theorem configured_bands_are_keys (w : World) (product imageryDate : string)
    (requiredBands : list (string * string))
    (rawInput_ outFolder resolution_ : string) (s s' : State)
    (processingPaths : list (gmap string pyval)) :
  getRequiredBandsPaths w product imageryDate requiredBands rawInput_ outFolder
    resolution_ s = (Normal processingPaths, s') ->
  forall entry band code,
    entry ∈ processingPaths -> (band, code) ∈ requiredBands ->
    is_Some (entry !! code)
    /\ exists v, lookup_key entry code s' = (Normal v, s').
Proof.
  rewrite getRequiredBandsPaths_unfold.
  destruct (os_listdir w _) as [safeFolders|]; [|done].
  assert (Hgen : forall safeFolders ii acc,
            (forall entry band code, entry ∈ acc -> (band, code) ∈ requiredBands ->
               is_Some (entry !! code)) ->
            resolve_granules w product imageryDate requiredBands
              (os_path_join w rawInput_ imageryDate) outFolder resolution_
              safeFolders ii acc s = (Normal processingPaths, s') ->
            forall entry band code,
              entry ∈ processingPaths -> (band, code) ∈ requiredBands ->
              is_Some (entry !! code)).
  { clear safeFolders. intros safeFolders.
    induction safeFolders as [|g rest IH]; intros ii acc Hacc H.
    - cbn in H. unfold ret in H. by simplify_eq.
    - rewrite resolve_granules_cons in H.
      destruct (os_listdir w _ ≫= head) as [fFolder|]; [|by simplify_eq].
      cbv zeta in H. destruct (os_listdir w _) as [rawBands|]; [|done].
      destruct (resolve_bands _ _ _ _ _ _ _ _ _ s) as [[e1| |e] s1] eqn:Hb;
        [|done..].
      eapply IH; [|exact H].
      intros entry band code [Hin|Hin]%elem_of_app Hc; [by eapply Hacc|].
      apply list_elem_of_singleton in Hin as ->.
      apply resolve_bands_keys in Hb as [_ Hcodes]. by eapply Hcodes. }
  intros H entry band code Hin Hc.
  assert (Hk : is_Some (entry !! code)).
  { eapply (Hgen safeFolders 0%nat []); [|exact H|exact Hin|exact Hc].
    intros ? ? ? Hnil. by apply elem_of_nil in Hnil. }
  split; [done|]. destruct Hk as [v Hv]. exists v. unfold lookup_key.
  by rewrite Hv.
Qed.

Lemma configured_bands_are_keys_witness :
  is_Some (demo_ndvi_entry !! "B08")
  /\ exists v, lookup_key demo_ndvi_entry "B08" run_second_granule_missing.2
               = (Normal v, run_second_granule_missing.2).
Proof.
  apply (configured_bands_are_keys world_second_granule_missing "NDVI" "20200105"
           ndvi_bands "raw" "out" "R10m" (initial_state ∅ ∅)
           run_second_granule_missing.2 [demo_ndvi_entry]
           ltac:(vm_compute; reflexivity) demo_ndvi_entry "nir" "B08").
  - apply list_elem_of_here.
  - apply list_elem_of_further, list_elem_of_here.
Defined.

Lemma resolve_bands_short_name (w : World)
    (product imageryDate outFolder : string) (ii : nat) (pathToRaw bad : string)
    (rawBands : list string) (requiredBands : list (string * string))
    (entry : gmap string pyval) (s : State) :
  bad ∈ rawBands ->
  split_on "_" bad !! 2%nat = None ->
  requiredBands <> [] ->
  resolve_bands w product imageryDate outFolder ii pathToRaw rawBands
    requiredBands entry s = (Raised IndexError, s).
Proof.
  intros Hin Hbad Hne. destruct requiredBands as [|[band code] rest]; [done|].
  rewrite resolve_bands_cons.
  by rewrite (match_rawBands_short_name _ _ _ _ _ _ _ bad).
Qed.

(** X5. One file in a granule's band folder whose name has fewer than three
    [_]-separated tokens makes path resolution raise an [IndexError],
    whatever else the folder holds and at whichever granule the loop stands;
    nothing is returned for the granules already resolved and nothing is
    logged. *)
Theorem stray_file_name_raises_IndexError (w : World)
    (product imageryDate : string) (requiredBands : list (string * string))
    (rawBandFolder outFolder resolution_ safeFolder fFolder bad : string)
    (others rest rawBands : list string) (ii : nat)
    (acc : list (gmap string pyval)) (s : State) :
  requiredBands <> [] ->
  os_listdir w (granule_folder w rawBandFolder safeFolder)
    = Some (fFolder :: others) ->
  os_listdir w (raw_band_folder w rawBandFolder safeFolder fFolder resolution_)
    = Some rawBands ->
  bad ∈ rawBands ->
  (length (split_on "_" bad) < 3)%nat ->
  resolve_granules w product imageryDate requiredBands rawBandFolder outFolder
    resolution_ (safeFolder :: rest) ii acc s
  = (Raised IndexError, s).
Proof.
  intros Hne Hg Hraw Hin Hlen. rewrite resolve_granules_cons, Hg. cbn.
  rewrite Hraw.
  rewrite (resolve_bands_short_name _ _ _ _ _ _ bad); [done..| |done].
  by apply lookup_ge_None_2; lia.
Qed.

Lemma stray_file_name_raises_IndexError_witness :
  resolve_granules world_stray_file "NDVI" "20200105" ndvi_bands "raw/20200105"
    "out" "R10m" ["A.SAFE"] 0 [] (initial_state ∅ ∅)
  = (Raised IndexError, initial_state ∅ ∅).
Proof.
  apply (stray_file_name_raises_IndexError world_stray_file "NDVI" "20200105"
           ndvi_bands "raw/20200105" "out" "R10m" "A.SAFE" "L2A_T33" "Thumbs.db"
           [] []
           ["T33_20200105T100_B04_10m.jp2"; "Thumbs.db";
            "T33_20200105T100_B08_10m.jp2"]).
  - done.
  - vm_compute; reflexivity.
  - vm_compute; reflexivity.
  - apply list_elem_of_further, list_elem_of_here.
  - vm_compute; lia.
Defined.

Lemma resolve_bands_code (w : World)
    (product imageryDate outFolder : string) (ii : nat) (pathToRaw : string)
    (rawBands : list string) (requiredBands : list (string * string))
    (entry entry' : gmap string pyval) (s s' : State) (code : string) :
  resolve_bands w product imageryDate outFolder ii pathToRaw rawBands
    requiredBands entry s = (Normal entry', s') ->
  (forall c, c ∈ requiredBands.*2 -> c <> "outFolder" /\ c <> "outName") ->
  code ∈ requiredBands.*2 ->
  entry' !! code = Some (resolved_band w pathToRaw rawBands code).
Proof.
  revert entry. induction requiredBands as [|[band c] rest IH];
    intros entry H Hres Hin; [by apply elem_of_nil in Hin|].
  apply resolve_bands_cons_Normal in H as (e1 & Hm & H).
  destruct (decide (code ∈ rest.*2)) as [Hr|Hr].
  - eapply IH; [exact H| |exact Hr].
    intros c' Hc'. apply Hres. cbn. by apply list_elem_of_further.
  - cbn in Hin. apply elem_of_cons in Hin as [->|Hin]; [|done].
    destruct (Hres c) as [Hf Hn]; [cbn; apply list_elem_of_here|].
    rewrite (resolve_bands_other_key _ _ _ _ _ _ _ _ _ _ _ _ _ H Hr Hf Hn).
    rewrite (match_rawBands_code _ _ _ _ _ _ _ _ _ _ _ _ Hm Hf Hn).
    unfold resolved_band. destruct (last _); [done|].
    by rewrite lookup_insert_eq.
Qed.

(** X6. For every configured band code the entry of a granule holds the path
    of the LAST file of the band folder whose third token is that code, and
    the unresolved placeholder exactly when no file has it: when a band is
    present twice the later file silently wins, in listing order. *)
Theorem last_matching_file_wins (w : World)
    (product imageryDate outFolder : string) (ii : nat) (pathToRaw : string)
    (rawBands : list string) (requiredBands : list (string * string))
    (entry entry' : gmap string pyval) (s s' : State) (band code : string) :
  resolve_bands w product imageryDate outFolder ii pathToRaw rawBands
    requiredBands entry s = (Normal entry', s') ->
  (forall c, c ∈ requiredBands.*2 -> c <> "outFolder" /\ c <> "outName") ->
  (band, code) ∈ requiredBands ->
  entry' !! code = Some (resolved_band w pathToRaw rawBands code)
  /\ (entry' !! code = Some VEmptyDict
      <-> forall rawBand, rawBand ∈ rawBands -> ~ band_matches code rawBand).
Proof.
  intros H Hres Hin.
  assert (Hc : code ∈ requiredBands.*2).
  { apply list_elem_of_fmap. by exists (band, code). }
  rewrite (resolve_bands_code _ _ _ _ _ _ _ _ _ _ _ _ _ H Hres Hc).
  split; [done|]. unfold resolved_band.
  destruct (last (filter (band_matches code) rawBands)) as [rb|] eqn:Hl.
  - split; [done|]. intros Hno.
    apply last_filter_elem_of in Hl as [Hrb Hm]. by destruct (Hno rb Hrb).
  - split; [|done]. intros _ rb Hrb Hm.
    apply last_None in Hl.
    assert (Hf : rb ∈ filter (band_matches code) rawBands)
      by by apply list_elem_of_filter.
    rewrite Hl in Hf. by apply elem_of_nil in Hf.
Qed.

Lemma last_matching_file_wins_witness :
  demo_entry_twice !! "B04"
    = Some (resolved_band demo_world (img_dir "A.SAFE") demo_rawBands_twice "B04")
  /\ (demo_entry_twice !! "B04" = Some VEmptyDict
      <-> forall rawBand, rawBand ∈ demo_rawBands_twice
                          -> ~ band_matches "B04" rawBand).
Proof.
  apply (last_matching_file_wins demo_world "NDVI" "20200105" "out" 0
           (img_dir "A.SAFE") demo_rawBands_twice ndvi_bands ∅ demo_entry_twice
           (initial_state ∅ ∅) (initial_state ∅ ∅) "red" "B04").
  - vm_compute; reflexivity.
  - intros c Hc. cbn in Hc.
    apply elem_of_cons in Hc as [->|Hc]; [done|].
    apply elem_of_cons in Hc as [->|Hc]; [done|].
    by apply elem_of_nil in Hc.
  - apply list_elem_of_here.
Defined.

(** *** The output name and what the mosaic step reads back from it *)

Lemma tile_name_tokens (t0 t1 product : string) (ii : nat) :
  has_char "_" t0 = false -> has_char "_" t1 = false ->
  split_on "_" (tile_name t0 t1 product ii)
  = t0 :: t1 :: split_on "_" (product +:+ "_" +:+ pretty ii +:+ ".tif").
Proof.
  intros H0 H1. unfold tile_name.
  change (t0 +:+ "_" +:+ t1 +:+ "_" +:+ product +:+ "_" +:+ pretty ii +:+ ".tif")
    with (t0 +:+ String "_" (t1 +:+ String "_"
            (product +:+ "_" +:+ pretty ii +:+ ".tif"))).
  by rewrite !split_on_app_sep.
Qed.

Lemma tile_name_read_back (t0 t1 product : string) (ii : nat) :
  has_char "_" t0 = false -> has_char "_" t1 = false ->
  split_on "_" (tile_name t0 t1 product ii) !! 1%nat = Some t1
  /\ (has_char "_" product = false ->
      split_on "_" (tile_name t0 t1 product ii) !! 2%nat = Some product).
Proof.
  intros H0 H1. rewrite (tile_name_tokens _ _ _ _ H0 H1). split; [done|].
  intros Hp.
  change (product +:+ "_" +:+ pretty ii +:+ ".tif")
    with (product +:+ String "_" (pretty ii +:+ ".tif")).
  by rewrite split_on_app_sep.
Qed.

Lemma match_rawBands_outName (w : World)
    (product imageryDate outFolder : string) (ii : nat)
    (code pathToRaw : string) (rawBands : list string)
    (entry entry' : gmap string pyval) (s s' : State) :
  match_rawBands w product imageryDate outFolder ii code pathToRaw rawBands
    entry s = (Normal entry', s') ->
  entry' = entry
  \/ exists rawBand t0 t1, rawBand ∈ rawBands
       /\ split_on "_" rawBand !! 0%nat = Some t0
       /\ split_on "_" rawBand !! 1%nat = Some t1
       /\ entry' !! "outName" = Some (VStr (tile_name t0 t1 product ii))
       /\ entry' !! "outFolder"
          = Some (VStr (os_path_join w (os_path_join w outFolder imageryDate)
                          product)).
Proof.
  intros H.
  destruct (last (filter (band_matches code) rawBands)) as [rb|] eqn:Hl.
  - right.
    destruct (match_rawBands_output_keys _ _ _ _ _ _ _ _ _ _ _ _ _ H Hl)
      as (t0 & t1 & ? & ? & ? & ?).
    exists rb, t0, t1. by apply last_filter_elem_of in Hl as [? _].
  - left. by eapply match_rawBands_no_match.
Qed.

Lemma resolve_bands_outName (w : World)
    (product imageryDate outFolder : string) (ii : nat) (pathToRaw : string)
    (rawBands : list string) (requiredBands : list (string * string))
    (entry entry' : gmap string pyval) (s s' : State) :
  resolve_bands w product imageryDate outFolder ii pathToRaw rawBands
    requiredBands entry s = (Normal entry', s') ->
  (forall c, c ∈ requiredBands.*2 -> c <> "outFolder" /\ c <> "outName") ->
  (entry' !! "outName" = entry !! "outName"
   /\ entry' !! "outFolder" = entry !! "outFolder")
  \/ exists rawBand t0 t1, rawBand ∈ rawBands
       /\ split_on "_" rawBand !! 0%nat = Some t0
       /\ split_on "_" rawBand !! 1%nat = Some t1
       /\ entry' !! "outName" = Some (VStr (tile_name t0 t1 product ii))
       /\ entry' !! "outFolder"
          = Some (VStr (os_path_join w (os_path_join w outFolder imageryDate)
                          product)).
Proof.
  revert entry. induction requiredBands as [|[band c] rest IH]; intros entry H Hres.
  - cbn in H. unfold ret in H. simplify_eq. by left.
  - apply resolve_bands_cons_Normal in H as (e1 & Hm & H).
    destruct (Hres c) as [Hf Hn]; [cbn; apply list_elem_of_here|].
    assert (Hrest : forall c', c' ∈ rest.*2 -> c' <> "outFolder" /\ c' <> "outName").
    { intros c' Hc'. apply Hres. cbn. by apply list_elem_of_further. }
    destruct (IH _ H Hrest) as [[Hn' Hf']|Hex]; [|by right].
    rewrite Hn', Hf'.
    destruct (match_rawBands_outName _ _ _ _ _ _ _ _ _ _ _ _ Hm) as [->|Hex];
      [|by right].
    left. by rewrite !lookup_insert_ne by done.
Qed.

(** X7. The two output keys of an entry are written together, and the output
    name is [t0_t1_product_ii.tif] for the first two tokens [t0], [t1] of one
    of the granule's raw files; the mosaic step, which splits that name at
    [_], reads back [t1] as its second token and, when the product name has
    no underscore, the product name as its third. *)
Theorem output_name_round_trip (w : World)
    (product imageryDate outFolder : string) (ii : nat) (pathToRaw : string)
    (rawBands : list string) (requiredBands : list (string * string))
    (entry' : gmap string pyval) (s s' : State) :
  resolve_bands w product imageryDate outFolder ii pathToRaw rawBands
    requiredBands ∅ s = (Normal entry', s') ->
  (forall c, c ∈ requiredBands.*2 -> c <> "outFolder" /\ c <> "outName") ->
  (entry' !! "outName" = None /\ entry' !! "outFolder" = None)
  \/ exists rawBand t0 t1, rawBand ∈ rawBands
       /\ split_on "_" rawBand !! 0%nat = Some t0
       /\ split_on "_" rawBand !! 1%nat = Some t1
       /\ entry' !! "outName" = Some (VStr (tile_name t0 t1 product ii))
       /\ entry' !! "outFolder"
          = Some (VStr (os_path_join w (os_path_join w outFolder imageryDate)
                          product))
       /\ split_on "_" (tile_name t0 t1 product ii) !! 1%nat = Some t1
       /\ (has_char "_" product = false ->
           split_on "_" (tile_name t0 t1 product ii) !! 2%nat = Some product).
Proof.
  intros H Hres.
  destruct (resolve_bands_outName _ _ _ _ _ _ _ _ _ _ _ _ H Hres)
    as [[Hn Hf]|(rb & t0 & t1 & Hin & H0 & H1 & Hn & Hf)].
  - left. by rewrite Hn, Hf.
  - right. exists rb, t0, t1. do 4 (split; [done|]). split; [done|].
    apply tile_name_read_back.
    + eapply split_on_tokens, list_elem_of_lookup_2, H0.
    + eapply split_on_tokens, list_elem_of_lookup_2, H1.
Qed.

Lemma output_name_round_trip_witness :
  (demo_entry_twice !! "outName" = None /\ demo_entry_twice !! "outFolder" = None)
  \/ exists rawBand t0 t1, rawBand ∈ demo_rawBands_twice
       /\ split_on "_" rawBand !! 0%nat = Some t0
       /\ split_on "_" rawBand !! 1%nat = Some t1
       /\ demo_entry_twice !! "outName" = Some (VStr (tile_name t0 t1 "NDVI" 0))
       /\ demo_entry_twice !! "outFolder"
          = Some (VStr (os_path_join demo_world
                          (os_path_join demo_world "out" "20200105") "NDVI"))
       /\ split_on "_" (tile_name t0 t1 "NDVI" 0) !! 1%nat = Some t1
       /\ (has_char "_" "NDVI" = false ->
           split_on "_" (tile_name t0 t1 "NDVI" 0) !! 2%nat = Some "NDVI").
Proof.
  apply (output_name_round_trip demo_world "NDVI" "20200105" "out" 0
           (img_dir "A.SAFE") demo_rawBands_twice ndvi_bands demo_entry_twice
           (initial_state ∅ ∅) (initial_state ∅ ∅)).
  - vm_compute; reflexivity.
  - intros c Hc. cbn in Hc.
    apply elem_of_cons in Hc as [->|Hc]; [done|].
    apply elem_of_cons in Hc as [->|Hc]; [done|].
    by apply elem_of_nil in Hc.
Defined.

(** *** What path resolution leaves behind *)

Lemma resolve_granules_effect (w : World) (product imageryDate : string)
    (requiredBands : list (string * string))
    (rawBandFolder outFolder resolution_ : string)
    (safeFolders : list string) (ii : nat) (acc : list (gmap string pyval))
    (s s' : State) (o : Outcome (list (gmap string pyval))) :
  resolve_granules w product imageryDate requiredBands rawBandFolder outFolder
    resolution_ safeFolders ii acc s = (o, s') ->
  match o with
  | Normal paths =>
      (s' = s /\ length paths = (length acc + length safeFolders)%nat)
      \/ exists n safeFolder,
           safeFolders !! n = Some safeFolder
           /\ length paths = (length acc + n)%nat
           /\ s' = log_break (granule_folder w rawBandFolder safeFolder) s
  | _ => s' = s
  end.
Proof.
  revert ii acc. induction safeFolders as [|g rest IH]; intros ii acc H.
  - cbn in H. unfold ret in H. simplify_eq. left. cbn. split; [done|lia].
  - rewrite resolve_granules_cons in H.
    destruct (os_listdir w _ ≫= head) as [fFolder|].
    + cbv zeta in H. destruct (os_listdir w _) as [rawBands|]; [|by simplify_eq].
      destruct (resolve_bands _ _ _ _ _ _ _ _ _ s) as [[e1| |e] s1];
        [|by simplify_eq..].
      apply IH in H. destruct o as [paths| |e]; [|done..].
      rewrite length_app in H. cbn in H.
      destruct H as [[-> Hl]|(n & g' & Hn & Hl & ->)].
      * left. split; [done|]. cbn. lia.
      * right. exists (S n), g'. split; [done|]. split; [lia|done].
    + simplify_eq. right. exists 0%nat, g. split; [done|]. split; [lia|done].
Qed.

(** X8. Path resolution changes nothing but the log, and the log only when it
    breaks off: when it raises, the state is untouched; when it returns one
    entry per granule folder of the date, the state is untouched as well;
    otherwise it returns exactly as many entries as there are granules before
    the one whose [GRANULE] folder could not be listed, and the two error
    records of that granule are all it has added. *)
Theorem path_resolution_effect (w : World) (product imageryDate : string)
    (requiredBands : list (string * string))
    (rawInput_ outFolder resolution_ : string) (safeFolders : list string)
    (s s' : State) (o : Outcome (list (gmap string pyval))) :
  os_listdir w (os_path_join w rawInput_ imageryDate) = Some safeFolders ->
  getRequiredBandsPaths w product imageryDate requiredBands rawInput_ outFolder
    resolution_ s = (o, s') ->
  match o with
  | Normal paths =>
      (s' = s /\ length paths = length safeFolders)
      \/ exists safeFolder,
           safeFolders !! length paths = Some safeFolder
           /\ s' = log_break
                     (granule_folder w (os_path_join w rawInput_ imageryDate)
                        safeFolder) s
  | _ => s' = s
  end.
Proof.
  intros Hl H. rewrite getRequiredBandsPaths_unfold, Hl in H.
  apply resolve_granules_effect in H. destruct o as [paths| |e]; [|done..].
  cbn in H. destruct H as [?|(n & g & Hn & Hlen & ->)]; [by left|].
  right. exists g. by rewrite Hlen.
Qed.

Lemma path_resolution_effect_witness :
  (run_second_granule_missing.2 = initial_state ∅ ∅
   /\ length [demo_ndvi_entry] = length ["A.SAFE"; "B.SAFE"])
  \/ exists safeFolder,
       ["A.SAFE"; "B.SAFE"] !! length [demo_ndvi_entry] = Some safeFolder
       /\ run_second_granule_missing.2
          = log_break
              (granule_folder world_second_granule_missing
                 (os_path_join world_second_granule_missing "raw" "20200105")
                 safeFolder) (initial_state ∅ ∅).
Proof.
  apply (path_resolution_effect world_second_granule_missing "NDVI" "20200105"
           ndvi_bands "raw" "out" "R10m" ["A.SAFE"; "B.SAFE"]
           (initial_state ∅ ∅) run_second_granule_missing.2
           (Normal [demo_ndvi_entry])).
  - vm_compute; reflexivity.
  - vm_compute; reflexivity.
Defined.

(** *** Path resolution reads the world only *)

Lemma match_rawBands_indep (w : World) (product imageryDate outFolder : string)
    (ii : nat) (code pathToRaw : string) (rawBands : list string)
    (entry : gmap string pyval) (s s0 : State) :
  (match_rawBands w product imageryDate outFolder ii code pathToRaw rawBands
     entry s).1
  = (match_rawBands w product imageryDate outFolder ii code pathToRaw rawBands
       entry s0).1.
Proof.
  revert entry. induction rawBands as [|rb rest IH]; intros entry; [done|].
  rewrite !match_rawBands_cons.
  destruct (split_on "_" rb !! 2%nat) as [tok|]; [|done].
  destruct (String.eqb tok code); [|apply IH].
  destruct (take 2 (split_on "_" rb) !! 0%nat),
    (take 2 (split_on "_" rb) !! 1%nat); first [done|apply IH].
Qed.

Lemma resolve_bands_indep (w : World) (product imageryDate outFolder : string)
    (ii : nat) (pathToRaw : string) (rawBands : list string)
    (requiredBands : list (string * string))
    (entry : gmap string pyval) (s s0 : State) :
  (resolve_bands w product imageryDate outFolder ii pathToRaw rawBands
     requiredBands entry s).1
  = (resolve_bands w product imageryDate outFolder ii pathToRaw rawBands
       requiredBands entry s0).1.
Proof.
  revert entry. induction requiredBands as [|[band code] rest IH]; intros entry;
    [done|].
  rewrite !resolve_bands_cons.
  pose proof (match_rawBands_indep w product imageryDate outFolder ii code
                pathToRaw rawBands (<[code := VEmptyDict]> entry) s s0) as Hm.
  destruct (match_rawBands _ _ _ _ _ _ _ _ _ s) as [[e1| |e] s1],
    (match_rawBands _ _ _ _ _ _ _ _ _ s0) as [[e2| |e'] s2];
    cbn in Hm; simplify_eq; [apply IH|done..].
Qed.

Lemma resolve_granules_indep (w : World) (product imageryDate : string)
    (requiredBands : list (string * string))
    (rawBandFolder outFolder resolution_ : string)
    (safeFolders : list string) (ii : nat) (acc : list (gmap string pyval))
    (s s0 : State) :
  (resolve_granules w product imageryDate requiredBands rawBandFolder outFolder
     resolution_ safeFolders ii acc s).1
  = (resolve_granules w product imageryDate requiredBands rawBandFolder
       outFolder resolution_ safeFolders ii acc s0).1.
Proof.
  revert ii acc. induction safeFolders as [|g rest IH]; intros ii acc; [done|].
  rewrite !resolve_granules_cons.
  destruct (os_listdir w _ ≫= head) as [fFolder|]; [|done].
  cbv zeta. destruct (os_listdir w _) as [rawBands|]; [|done].
  pose proof (resolve_bands_indep w product imageryDate outFolder ii
                (raw_band_folder w rawBandFolder g fFolder resolution_)
                rawBands requiredBands ∅ s s0) as Hb.
  destruct (resolve_bands _ _ _ _ _ _ _ _ _ s) as [[e1| |e] s1],
    (resolve_bands _ _ _ _ _ _ _ _ _ s0) as [[e2| |e'] s2];
    cbn in Hb; simplify_eq; [apply IH|done..].
Qed.

Lemma getRequiredBandsPaths_indep (w : World) (product imageryDate : string)
    (requiredBands : list (string * string))
    (rawInput_ outFolder resolution_ : string) (s s0 : State) :
  (getRequiredBandsPaths w product imageryDate requiredBands rawInput_ outFolder
     resolution_ s).1
  = (getRequiredBandsPaths w product imageryDate requiredBands rawInput_
       outFolder resolution_ s0).1.
Proof.
  rewrite !getRequiredBandsPaths_unfold.
  destruct (os_listdir w _); [apply resolve_granules_indep|done].
Qed.

(** Path resolution has no [continue] of its own. *)
Lemma match_rawBands_no_continue (w : World)
    (product imageryDate outFolder : string) (ii : nat)
    (code pathToRaw : string) (rawBands : list string)
    (entry : gmap string pyval) (s : State) :
  (match_rawBands w product imageryDate outFolder ii code pathToRaw rawBands
     entry s).1 <> Continue.
Proof.
  revert entry. induction rawBands as [|r rest IH]; intros entry; [done|].
  rewrite match_rawBands_cons.
  destruct (split_on "_" r !! 2%nat) as [tok|]; [|done].
  destruct (String.eqb tok code); [|apply IH].
  destruct (take 2 (split_on "_" r) !! 0%nat),
    (take 2 (split_on "_" r) !! 1%nat); first [done|apply IH].
Qed.

Lemma resolve_bands_no_continue (w : World)
    (product imageryDate outFolder : string) (ii : nat) (pathToRaw : string)
    (rawBands : list string) (requiredBands : list (string * string))
    (entry : gmap string pyval) (s : State) :
  (resolve_bands w product imageryDate outFolder ii pathToRaw rawBands
     requiredBands entry s).1 <> Continue.
Proof.
  revert entry. induction requiredBands as [|[band code] rest IH]; intros entry;
    [done|].
  rewrite resolve_bands_cons.
  pose proof (match_rawBands_no_continue w product imageryDate outFolder ii code
                pathToRaw rawBands (<[code := VEmptyDict]> entry) s) as Hm.
  destruct (match_rawBands _ _ _ _ _ _ _ _ _ s) as [[e1| |e] s2];
    [apply IH|done..].
Qed.

Lemma getRequiredBandsPaths_no_continue (w : World) (product imageryDate : string)
    (requiredBands : list (string * string))
    (rawInput_ outFolder resolution_ : string) (s : State) :
  (getRequiredBandsPaths w product imageryDate requiredBands rawInput_ outFolder
     resolution_ s).1 <> Continue.
Proof.
  rewrite getRequiredBandsPaths_unfold.
  destruct (os_listdir w _) as [safeFolders|]; [|done].
  generalize 0%nat, (@nil (gmap string pyval)).
  induction safeFolders as [|g rest IH]; intros ii acc; [done|].
  rewrite resolve_granules_cons.
  destruct (os_listdir w _ ≫= head) as [fFolder|]; [|done].
  cbv zeta. destruct (os_listdir w _) as [rawBands|]; [|done].
  pose proof (resolve_bands_no_continue w product imageryDate outFolder ii
                (raw_band_folder w (os_path_join w rawInput_ imageryDate) g
                   fFolder resolution_) rawBands requiredBands ∅ s) as Hb.
  destruct (resolve_bands _ _ _ _ _ _ _ _ _ s) as [[e1| |e] s1];
    [apply IH|done..].
Qed.

(** *** The path stage of a product *)

Lemma fetch_paths_unfold (w : World) (params : Params) (imageryDate : string)
    (args : ProductArgs) (s : State) :
  fetch_paths w params imageryDate args s
  = let s1 := add_log
                (INFO, "Fetching and constructing input and output datasets paths.")
                s in
    match getRequiredBandsPaths w (name args) imageryDate (bands args)
            (rawInput params) (productOutput params) (resolution args) s1 with
    | (Normal paths, s2) =>
        (Normal tt, add_log (INFO, "Fetched.") (set_paths paths s2))
    | (Continue, s2) => (Continue, s2)
    | (Raised e, s2) =>
        (Normal tt,
         add_log (ERROR, exn_str e)
           (add_log (ERROR, "Error while fetching and calculationg paths for "
                            +:+ name args) s2))
    end.
Proof.
  unfold fetch_paths.
  cbv [mbind M_bind bind try_except logging_info logging_error modify]. cbn.
  by destruct (getRequiredBandsPaths _ _ _ _ _ _ _ _) as [[paths| |e] s2].
Qed.

Lemma getRequiredBandsPaths_calls (w : World) (product imageryDate : string)
    (requiredBands : list (string * string))
    (rawInput_ outFolder resolution_ : string) (s : State) :
  calls (getRequiredBandsPaths w product imageryDate requiredBands rawInput_
           outFolder resolution_ s).2 = calls s.
Proof.
  rewrite getRequiredBandsPaths_unfold.
  destruct (os_listdir w _) as [safeFolders|]; [|done].
  destruct (resolve_granules _ _ _ _ _ _ _ _ _ _ s) as [o s'] eqn:H.
  apply resolve_granules_effect in H.
  destruct o as [paths| |e]; cbn; [|by subst..].
  by destruct H as [[-> _]|(n & g & _ & _ & ->)].
Qed.

(** X9. The path stage of a product never raises and never skips the product.
    When path resolution succeeds its result is bound; when it raises, the
    failure is logged and [requiredInputOutputPaths] is left as it was:
    unbound for the first product and, for a later one, still the entries of
    the product before it, over which the folder and tile loops then run. No
    file, folder or call is made by this stage. *)
Theorem failed_resolution_keeps_previous_paths (w : World) (params : Params)
    (imageryDate : string) (args : ProductArgs) (s : State) :
  exists s',
    fetch_paths w params imageryDate args s = (Normal tt, s')
    /\ files s' = files s /\ dirs s' = dirs s /\ calls s' = calls s
    /\ match (getRequiredBandsPaths w (name args) imageryDate (bands args)
                (rawInput params) (productOutput params) (resolution args) s).1
       with
       | Normal paths => requiredInputOutputPaths s' = Some paths
       | _ =>
           requiredInputOutputPaths s' = requiredInputOutputPaths s
           /\ (ERROR, "Error while fetching and calculationg paths for "
                      +:+ name args) ∈ log s'
       end.
Proof.
  rewrite fetch_paths_unfold. cbv zeta.
  set (s1 := add_log _ s).
  rewrite (getRequiredBandsPaths_indep _ _ _ _ _ _ _ s s1).
  pose proof (getRequiredBandsPaths_same w (name args) imageryDate (bands args)
                (rawInput params) (productOutput params) (resolution args) s1)
    as (Hf & Hd & _ & _ & Hp & _).
  pose proof (getRequiredBandsPaths_no_continue w (name args) imageryDate
                (bands args) (rawInput params) (productOutput params)
                (resolution args) s1) as Hc.
  pose proof (getRequiredBandsPaths_calls w (name args) imageryDate
                (bands args) (rawInput params) (productOutput params)
                (resolution args) s1) as Hcalls.
  destruct (getRequiredBandsPaths _ _ _ _ _ _ _ s1) as [[paths| |e] s2];
    [|done|]; cbn in *; eexists; (split; [reflexivity|]); cbn;
    rewrite ?Hf, ?Hd, ?Hcalls, ?Hp; repeat split; try done.
  rewrite !elem_of_app, !list_elem_of_singleton. naive_solver.
Qed.

(** *** The folder loop *)

Lemma folder_body_outcome (w : World) (entry : gmap string pyval) (s : State) :
  match entry !! "outFolder" with
  | Some _ => forall e, (folder_body w entry s).1 <> Raised e
  | None => folder_body w entry s = (Raised (KeyError "outFolder"), s)
  end.
Proof.
  unfold folder_body, lookup_key. destruct (entry !! "outFolder") as [v|]; [|done].
  intros e. unfold createOutFolder, makedirs.
  cbv [mbind M_bind bind try_except logging_error modify get ret raise continue_].
  destruct v as [|p]; cbn; [done|].
  destruct (path_isdir s p); cbn; [done|].
  by destruct (os_makedirs_raises w p).
Qed.

Lemma folder_loop_outcome (w : World) (paths : list (gmap string pyval))
    (s : State) :
  (Forall (fun entry => is_Some (entry !! "outFolder")) paths ->
   exists s', for_each paths (folder_body w) s = (Normal tt, s'))
  /\ (~ Forall (fun entry => is_Some (entry !! "outFolder")) paths ->
      exists s', for_each paths (folder_body w) s
                 = (Raised (KeyError "outFolder"), s')).
Proof.
  revert s. induction paths as [|entry rest IH]; intros s.
  - split; [by eexists|]. intros H. by destruct H.
  - rewrite for_each_cons.
    pose proof (folder_body_outcome w entry s) as Hb.
    destruct (entry !! "outFolder") as [v|] eqn:Hv.
    + destruct (folder_body w entry s) as [[[]| |e] s1]; cbn in Hb;
        [| |by destruct (Hb e)].
      * split; [intros [_ Hr]%Forall_cons; by apply IH|].
        intros Hn. apply IH. intros Hr. apply Hn. by constructor.
      * split; [intros [_ Hr]%Forall_cons; by apply IH|].
        intros Hn. apply IH. intros Hr. apply Hn. by constructor.
    + rewrite Hb. split; [|by eexists].
      intros [[v Hv'] _]%Forall_cons. congruence.
Qed.

(** X10. The folder loop reads [outFolder] of every entry outside any [try]:
    it completes when every entry has that key, whatever happens to the
    folders themselves, and as soon as one entry lacks it a
    [KeyError] for [outFolder] leaves the loop, and with it
    [calculateProducts]. *)
Theorem entry_without_outFolder_aborts (w : World)
    (paths : list (gmap string pyval)) (s : State) :
  requiredInputOutputPaths s = Some paths ->
  (Forall (fun entry => is_Some (entry !! "outFolder")) paths ->
   exists s', create_folders w s = (Normal tt, s'))
  /\ (~ Forall (fun entry => is_Some (entry !! "outFolder")) paths ->
      exists s', create_folders w s = (Raised (KeyError "outFolder"), s')).
Proof.
  intros Hp. unfold create_folders, read_local.
  cbv [mbind M_bind bind logging_info modify get]. cbn. rewrite Hp. cbn.
  set (s1 := add_log _ s).
  destruct (folder_loop_outcome w paths s1) as [Hall Hnot].
  split; intros H.
  - destruct (Hall H) as [s' ->]. by eexists.
  - destruct (Hnot H) as [s' ->]. by eexists.
Qed.

Lemma entry_without_outFolder_aborts_witness :
  (Forall (fun entry : gmap string pyval => is_Some (entry !! "outFolder"))
     [demo_ndvi_entry; demo_entry_no_file] ->
   exists s', create_folders demo_world demo_folder_state = (Normal tt, s'))
  /\ (~ Forall (fun entry : gmap string pyval => is_Some (entry !! "outFolder"))
        [demo_ndvi_entry; demo_entry_no_file] ->
      exists s', create_folders demo_world demo_folder_state
                 = (Raised (KeyError "outFolder"), s')).
Proof.
  apply (entry_without_outFolder_aborts demo_world
           [demo_ndvi_entry; demo_entry_no_file] demo_folder_state).
  reflexivity.
Defined.

(** *** Which entries have their output keys *)

Lemma resolve_bands_outFolder (w : World)
    (product imageryDate outFolder : string) (ii : nat) (pathToRaw : string)
    (rawBands : list string) (requiredBands : list (string * string))
    (entry entry' : gmap string pyval) (s s' : State) :
  resolve_bands w product imageryDate outFolder ii pathToRaw rawBands
    requiredBands entry s = (Normal entry', s') ->
  (forall c, c ∈ requiredBands.*2 -> c <> "outFolder" /\ c <> "outName") ->
  is_Some (entry' !! "outFolder")
  <-> (is_Some (entry !! "outFolder")
       \/ exists band code rawBand,
            (band, code) ∈ requiredBands /\ rawBand ∈ rawBands
            /\ band_matches code rawBand).
Proof.
  revert entry. induction requiredBands as [|[band c] rest IH]; intros entry H Hres.
  - cbn in H. unfold ret in H. simplify_eq. split; [by left|].
    intros [?|(? & ? & ? & Hin & _)]; [done|]. by apply elem_of_nil in Hin.
  - apply resolve_bands_cons_Normal in H as (e1 & Hm & H).
    destruct (Hres c) as [Hf Hn]; [cbn; apply list_elem_of_here|].
    assert (Hrest : forall c', c' ∈ rest.*2 -> c' <> "outFolder" /\ c' <> "outName").
    { intros c' Hc'. apply Hres. cbn. by apply list_elem_of_further. }
    rewrite (IH _ H Hrest).
    assert (He1 : is_Some (e1 !! "outFolder")
                  <-> (is_Some (entry !! "outFolder")
                       \/ exists rawBand, rawBand ∈ rawBands
                                          /\ band_matches c rawBand)).
    { destruct (last (filter (band_matches c) rawBands)) as [rb|] eqn:Hl.
      - destruct (match_rawBands_output_keys _ _ _ _ _ _ _ _ _ _ _ _ _ Hm Hl)
          as (t0 & t1 & _ & _ & _ & Hof).
        rewrite Hof. apply last_filter_elem_of in Hl as [? ?].
        split; [|by eauto]. intros _. right. by exists rb.
      - rewrite (match_rawBands_no_match _ _ _ _ _ _ _ _ _ _ _ _ Hm Hl).
        rewrite lookup_insert_ne by done.
        split; [by left|]. intros [?|(rb & Hin & Hmt)]; [done|].
        apply last_None in Hl.
        assert (Hfl : rb ∈ filter (band_matches c) rawBands)
          by by apply list_elem_of_filter.
        rewrite Hl in Hfl. by apply elem_of_nil in Hfl. }
    rewrite He1. split.
    + intros [[?|(rb & ? & ?)]|(b' & c' & rb & Hin & ? & ?)]; [by left|right..].
      * exists band, c, rb. split; [apply list_elem_of_here|done].
      * exists b', c', rb. split; [by apply list_elem_of_further|done].
    + intros [?|(b' & c' & rb & Hin & ? & ?)]; [by left; left|].
      apply elem_of_cons in Hin as [[= -> ->]|Hin].
      * left. right. by exists rb.
      * right. by exists b', c', rb.
Qed.

(** X11. The entry of a granule has its output folder and output name exactly
    when the band folder holds a file of at least one configured band: for a
    folder with no such file (an empty one, say) the entry is returned all
    the same, with every band unresolved and neither output key. *)
Theorem output_keys_iff_some_band_found (w : World)
    (product imageryDate outFolder : string) (ii : nat) (pathToRaw : string)
    (rawBands : list string) (requiredBands : list (string * string))
    (entry' : gmap string pyval) (s s' : State) :
  resolve_bands w product imageryDate outFolder ii pathToRaw rawBands
    requiredBands ∅ s = (Normal entry', s') ->
  (forall c, c ∈ requiredBands.*2 -> c <> "outFolder" /\ c <> "outName") ->
  (is_Some (entry' !! "outFolder")
   <-> exists band code rawBand,
         (band, code) ∈ requiredBands /\ rawBand ∈ rawBands
         /\ band_matches code rawBand)
  /\ (is_Some (entry' !! "outName") <-> is_Some (entry' !! "outFolder")).
Proof.
  intros H Hres. split.
  - rewrite (resolve_bands_outFolder _ _ _ _ _ _ _ _ _ _ _ _ H Hres).
    rewrite lookup_empty. split; [|by right].
    intros [[? ?]|?]; [done|done].
  - destruct (resolve_bands_outName _ _ _ _ _ _ _ _ _ _ _ _ H Hres)
      as [[-> ->]|(rb & t0 & t1 & _ & _ & _ & -> & ->)]; [|by split; eauto].
    rewrite !lookup_empty. by split; intros [? ?].
Qed.

Lemma output_keys_iff_some_band_found_witness :
  (is_Some (demo_entry_no_file !! "outFolder")
   <-> exists band code rawBand,
         (band, code) ∈ ndvi_bands
         /\ rawBand ∈ ["T33_20200105T100_B02_10m.jp2"]
         /\ band_matches code rawBand)
  /\ (is_Some (demo_entry_no_file !! "outName")
      <-> is_Some (demo_entry_no_file !! "outFolder")).
Proof.
  apply (output_keys_iff_some_band_found demo_world "NDVI" "20200105" "out" 0
           (img_dir "A.SAFE") ["T33_20200105T100_B02_10m.jp2"] ndvi_bands
           demo_entry_no_file (initial_state ∅ ∅) (initial_state ∅ ∅)).
  - vm_compute; reflexivity.
  - intros c Hc. cbn in Hc.
    apply elem_of_cons in Hc as [->|Hc]; [done|].
    apply elem_of_cons in Hc as [->|Hc]; [done|].
    by apply elem_of_nil in Hc.
Defined.

(** *** Statements that let no exception out *)

Lemma recovers_ret {A} (a : A) : recovers (ret a).
Proof. by intros s e. Qed.

Lemma recovers_continue {A} : recovers (continue_ : M A).
Proof. by intros s e. Qed.

Lemma recovers_modify (f : State -> State) : recovers (modify f).
Proof. by intros s e. Qed.

Lemma recovers_get : recovers get.
Proof. by intros s e. Qed.

Lemma recovers_bind {A B} (m : M A) (f : A -> M B) :
  recovers m -> (forall a, recovers (f a)) -> recovers (m ≫= f).
Proof.
  intros Hm Hf s e. rewrite bind_unfold. specialize (Hm s).
  destruct (m s) as [[a| |e'] s1]; cbn in *; [apply Hf|done|by destruct (Hm e')].
Qed.

Lemma recovers_try {A} (body : M A) (h : Exn -> M A) :
  (forall e, recovers (h e)) -> recovers (try_except body h).
Proof.
  intros Hh s e. unfold try_except.
  destruct (body s) as [[a| |e'] s1]; cbn; [done..|apply Hh].
Qed.

Lemma recovers_for_each {X} (xs : list X) (body : X -> M unit) :
  Forall (fun x => recovers (body x)) xs -> recovers (for_each xs body).
Proof.
  induction 1 as [|x xs Hx _ IH]; intros s e; [done|].
  rewrite for_each_cons. specialize (Hx s).
  destruct (body x s) as [[[]| |e'] s1]; cbn in *;
    [apply IH|apply IH|by destruct (Hx e')].
Qed.

Lemma recovers_lookup_key {V} (d : gmap string V) (k : string) :
  is_Some (d !! k) -> recovers (lookup_key d k).
Proof. intros [v Hv]. unfold lookup_key. rewrite Hv. apply recovers_ret. Qed.

(** A loop whose body lets no exception out runs to its end. *)
Lemma for_each_recovers_Normal {X} (xs : list X) (body : X -> M unit) (s : State) :
  Forall (fun x => recovers (body x)) xs ->
  exists s', for_each xs body s = (Normal tt, s').
Proof.
  intros H. revert s. induction H as [|x xs Hx _ IH]; intros s; [by eexists|].
  rewrite for_each_cons. specialize (Hx s).
  destruct (body x s) as [[[]| |e'] s1]; cbn in *;
    [apply IH|apply IH|by destruct (Hx e')].
Qed.

Ltac recovers_step :=
  lazymatch goal with
  | |- recovers (mbind _ _) => apply recovers_bind; [|intros ?]
  | |- recovers (try_except _ _) => apply recovers_try; intros ?
  | |- recovers (ret _) => apply recovers_ret
  | |- recovers (mret _) => apply recovers_ret
  | |- recovers continue_ => apply recovers_continue
  | |- recovers (modify _) => apply recovers_modify
  | |- recovers (logging_info _) => apply recovers_modify
  | |- recovers (logging_error _) => apply recovers_modify
  | |- recovers get => apply recovers_get
  | |- recovers (lookup_key _ _) => apply recovers_lookup_key; assumption
  end.

Lemma open_failed_recovers (entry : gmap string pyval) (k : string) (e : Exn) :
  is_Some (entry !! k) -> recovers (open_failed entry k e).
Proof. intros Hk. unfold open_failed. repeat recovers_step. Qed.

Lemma open_then_log_recovers (w : World) (entry : gmap string pyval) (k : string) :
  is_Some (entry !! k) -> recovers (open_then_log w entry k).
Proof.
  intros Hk. unfold open_then_log. recovers_step. by apply open_failed_recovers.
Qed.

Lemma log_then_open_recovers (w : World) (entry : gmap string pyval) (k : string) :
  is_Some (entry !! k) -> recovers (log_then_open w entry k).
Proof.
  intros Hk. unfold log_then_open. recovers_step. by apply open_failed_recovers.
Qed.

Lemma save_to_memory_recovers (w : World) (product : string) (result : grid)
    (B : RasterBand) :
  recovers (save_to_memory w product result B).
Proof. unfold save_to_memory. repeat recovers_step. Qed.

Lemma clip_and_reproject_recovers (w : World) (product : string)
    (outFolder outName_ : pyval) :
  recovers (clip_and_reproject w product outFolder outName_).
Proof. unfold clip_and_reproject. repeat recovers_step. Qed.

Lemma compute_index_recovers (w : World) (product : string)
    (entry : gmap string pyval) :
  (forall k, k ∈ bands_read product -> is_Some (entry !! k)) ->
  recovers (compute_index w product entry).
Proof.
  intros Hk. unfold compute_index, bands_read in *.
  destruct (String.eqb product "EVI") eqn:E1.
  { apply String.eqb_eq in E1. subst product. cbn.
    assert (is_Some (entry !! "B08")) by (apply Hk; set_solver).
    assert (is_Some (entry !! "B04")) by (apply Hk; set_solver).
    assert (is_Some (entry !! "B02")) by (apply Hk; set_solver).
    unfold branch_EVI.
    repeat first [ recovers_step
                 | by apply open_then_log_recovers
                 | by apply log_then_open_recovers
                 | apply save_to_memory_recovers ]. }
  destruct (String.eqb product "NDMI") eqn:E2.
  { apply String.eqb_eq in E2. subst product. cbn.
    assert (is_Some (entry !! "B8A")) by (apply Hk; set_solver).
    assert (is_Some (entry !! "B11")) by (apply Hk; set_solver).
    unfold branch_NDMI.
    repeat first [ recovers_step
                 | by apply open_then_log_recovers
                 | by apply log_then_open_recovers
                 | apply save_to_memory_recovers ]. }
  destruct (String.eqb product "NDWI") eqn:E3.
  { apply String.eqb_eq in E3. subst product. cbn.
    assert (is_Some (entry !! "B03")) by (apply Hk; set_solver).
    assert (is_Some (entry !! "B08")) by (apply Hk; set_solver).
    unfold branch_NDWI.
    repeat first [ recovers_step
                 | by apply open_then_log_recovers
                 | by apply log_then_open_recovers
                 | apply save_to_memory_recovers ]. }
  destruct (String.eqb product "NDVI") eqn:E4.
  { apply String.eqb_eq in E4. subst product. cbn.
    assert (is_Some (entry !! "B04")) by (apply Hk; set_solver).
    assert (is_Some (entry !! "B08")) by (apply Hk; set_solver).
    unfold branch_NDVI.
    repeat first [ recovers_step
                 | by apply open_then_log_recovers
                 | by apply log_then_open_recovers
                 | apply save_to_memory_recovers ]. }
  repeat recovers_step.
Qed.

Lemma tile_body_recovers (w : World) (product : string)
    (entry : gmap string pyval) :
  complete_entry product entry -> recovers (tile_body w product entry).
Proof.
  intros ((f & Hf) & (n & Hn) & Hk) s e.
  rewrite (tile_body_unfold _ _ _ f n) by done. cbv zeta.
  destruct (path_exists _ _); [done|].
  pose proof (compute_index_recovers w product entry Hk
                (set_outName (VStr n) s)) as Hc.
  destruct (compute_index _ _ _ _) as [[[]| |e1] s2]; cbn in Hc;
    [|done|by destruct (Hc e1)].
  pose proof (clip_and_reproject_recovers w product (VStr f) (VStr n) s2) as Hw.
  destruct (clip_and_reproject _ _ _ _ _) as [[[]| |e1] s3]; cbn in Hw;
    [done..|by destruct (Hw e1)].
Qed.

(** X12. Every failure inside a tile is recovered: when each entry has its
    two output keys and the band keys its product's branch reads, the tile
    loop runs over all entries and completes, whatever the band openings, the
    index calculation, the in-memory raster and the warp do. *)
Theorem tile_failures_are_recovered (w : World) (args : ProductArgs)
    (paths : list (gmap string pyval)) (s : State) :
  requiredInputOutputPaths s = Some paths ->
  Forall (complete_entry (name args)) paths ->
  exists s', calculate_tiles w args s = (Normal tt, s').
Proof.
  intros Hp Hall. unfold calculate_tiles, read_local.
  cbv [mbind M_bind bind logging_info modify get]. cbn. rewrite Hp. cbn.
  apply for_each_recovers_Normal.
  eapply Forall_impl; [exact Hall|]. intros entry. apply tile_body_recovers.
Qed.

Lemma tile_failures_are_recovered_witness :
  exists s', calculate_tiles world_unreadable demo_ndvi_args demo_tile_state
             = (Normal tt, s').
Proof.
  apply (tile_failures_are_recovered world_unreadable demo_ndvi_args
           [demo_ndvi_entry] demo_tile_state eq_refl).
  constructor; [|constructor].
  split; [by eexists|]. split; [by eexists|].
  intros k Hk. cbn in Hk.
  apply elem_of_cons in Hk as [->|Hk]; [by eexists|].
  apply elem_of_cons in Hk as [->|Hk]; [by eexists|].
  by apply elem_of_nil in Hk.
Defined.

(** *** The band codes of the branches *)


Ltac band_opens Hpre b :=
  let p := fresh "p" in
  let ds := fresh "ds" in
  let Hp := fresh "Hp" in
  let Ho := fresh "Ho" in
  destruct (Hpre b) as (p & ds & Hp & Ho); [set_solver|].

Ltac run_branch :=
  unfold compute_index, branch_EVI, branch_NDMI, branch_NDWI, branch_NDVI,
    open_then_log, log_then_open, open_failed, lookup_key, openRasterOneBand;
  cbv [mbind M_bind bind try_except logging_info modify ret]; cbn;
  repeat (match goal with
          | H : _ !! _ = _ |- _ => rewrite H
          | H : gdal_Open _ _ = _ |- _ => rewrite H
          end; cbn);
  eexists; (split; [reflexivity|]); cbn;
  rewrite <- ?app_assoc, ?app_nil_r; done.

(** X13. The branches read fixed band codes, not the configured ones. If an
    entry has no key for a band code its product's branch reads (the
    configuration names other bands) while the bands the branch reads before
    it can be opened, the [KeyError] is raised a second time by the handler
    that formats the error message and leaves the tile iteration: the failure
    is not recovered, and nothing is calculated. *)
Theorem unconfigured_band_code_escapes (w : World) (product : string)
    (entry : gmap string pyval) (before : list string) (k : string)
    (after : list string) (s : State) :
  bands_read product = before ++ k :: after ->
  entry !! k = None ->
  (forall k', k' ∈ before ->
     exists p ds, entry !! k' = Some (VStr p) /\ gdal_Open w p = Some ds) ->
  exists s',
    compute_index w product entry s = (Raised (KeyError k), s')
    /\ calls s' = calls s ++ ((fun k' => CallOpen (default VEmptyDict (entry !! k')))
                                <$> before).
Proof.
  unfold bands_read. intros Hb Hk Hpre.
  destruct (String.eqb product "EVI") eqn:E1.
  { apply String.eqb_eq in E1. subst product.
    destruct before as [|b1 [|b2 [|b3 before]]]; simplify_eq/=.
    - run_branch.
    - band_opens Hpre "B08". run_branch.
    - band_opens Hpre "B08". band_opens Hpre "B04". run_branch.
    - by destruct before. }
  destruct (String.eqb product "NDMI") eqn:E2.
  { apply String.eqb_eq in E2. subst product.
    destruct before as [|b1 [|b2 before]]; simplify_eq/=.
    - run_branch.
    - band_opens Hpre "B8A". run_branch.
    - by destruct before. }
  destruct (String.eqb product "NDWI") eqn:E3.
  { apply String.eqb_eq in E3. subst product.
    destruct before as [|b1 [|b2 before]]; simplify_eq/=.
    - run_branch.
    - band_opens Hpre "B03". run_branch.
    - by destruct before. }
  destruct (String.eqb product "NDVI") eqn:E4; [|by destruct before].
  apply String.eqb_eq in E4. subst product.
  destruct before as [|b1 [|b2 before]]; simplify_eq/=.
  - run_branch.
  - band_opens Hpre "B04". run_branch.
  - by destruct before.
Qed.

Lemma unconfigured_band_code_escapes_witness :
  exists s',
    compute_index demo_world "NDVI" demo_entry_B8A (initial_state ∅ ∅)
    = (Raised (KeyError "B08"), s')
    /\ calls s'
       = calls (initial_state ∅ ∅)
         ++ ((fun k' => CallOpen (default VEmptyDict (demo_entry_B8A !! k')))
               <$> ["B04"]).
Proof.
  apply (unconfigured_band_code_escapes demo_world "NDVI" demo_entry_B8A ["B04"]
           "B08" [] (initial_state ∅ ∅)).
  - reflexivity.
  - vm_compute; reflexivity.
  - intros k' Hk'. apply list_elem_of_singleton in Hk' as ->.
    eexists _, _. split; vm_compute; reflexivity.
Defined.

Lemma compute_index_unknown (w : World) (product : string)
    (entry : gmap string pyval) (s : State) :
  bands_read product = [] ->
  compute_index w product entry s = (Normal tt, s).
Proof.
  unfold bands_read, compute_index. intros Hb.
  destruct (String.eqb product "EVI"); [done|].
  destruct (String.eqb product "NDMI"); [done|].
  destruct (String.eqb product "NDWI"); [done|].
  by destruct (String.eqb product "NDVI").
Qed.

(** X14. For a product whose name is none of EVI, NDMI, NDWI and NDVI no band
    is opened and nothing is calculated, yet the tile is warped all the same:
    from the raster an earlier product has left in [resultRaster]. When that
    call returns, the path is appended to the tile list, and when the call
    has written its destination, the stale raster is on disk under the new
    product's tile path. Only when no raster was ever computed is the
    iteration abandoned, without any call. *)
Theorem unknown_product_warps_stale_raster (w : World) (product : string)
    (entry : gmap string pyval) (f n : string) (s : State) :
  bands_read product = [] ->
  entry !! "outFolder" = Some (VStr f) ->
  entry !! "outName" = Some (VStr n) ->
  path_exists s (os_path_join w f n) = false ->
  exists o s',
    tile_body w product entry s = (o, s')
    /\ match resultRaster s with
       | None => o = Continue /\ calls s' = calls s /\ files s' = files s
       | Some r =>
           calls s'
           = calls s ++ [CallWarp (os_path_join w f n)
                           (negb (gdal_Warp_raises w (os_path_join w f n) r))]
           /\ (gdal_Warp_raises w (os_path_join w f n) r = false ->
               o = Normal tt
               /\ tiles s' = tiles s ++ [os_path_join w f n]
               /\ (gdal_Warp_writes w (os_path_join w f n) r = true ->
                   os_path_join w f n ∈ files s')
               /\ (gdal_Warp_writes w (os_path_join w f n) r = false ->
                   files s' = files s))
       end.
Proof.
  intros Hb Hf Hn Hex. rewrite (tile_body_unfold _ _ _ f n) by done. cbv zeta.
  rewrite path_exists_set_outName, Hex, (compute_index_unknown _ _ _ _ Hb).
  unfold clip_and_reproject, gdal_Warp, read_local.
  cbv [mbind M_bind bind try_except logging_info logging_error modify py_join
       ret get raise continue_].
  cbn [add_log resultRaster set_outName].
  destruct (resultRaster s) as [r|]; cbn.
  - destruct (gdal_Warp_raises w _ r); cbn;
      [do 2 eexists; (split; [reflexivity|]); cbn; by split|].
    destruct (gdal_Warp_writes w _ r); cbn; do 2 eexists;
      (split; [reflexivity|]); cbn; (split; [done|]); intros _;
      (split; [done|]); (split; [done|]); split; intros ?;
      first [done|set_solver].
  - do 2 eexists. split; [reflexivity|]. done.
Qed.

Lemma unknown_product_warps_stale_raster_witness :
  exists o s',
    tile_body demo_world "SAVI" demo_ndvi_entry demo_stale_state = (o, s')
    /\ match resultRaster demo_stale_state with
       | None => o = Continue /\ calls s' = calls demo_stale_state
                 /\ files s' = files demo_stale_state
       | Some r =>
           calls s'
           = calls demo_stale_state
             ++ [CallWarp
                   (os_path_join demo_world "out/20200105/NDVI"
                      "T33_20200105T100_NDVI_0.tif")
                   (negb (gdal_Warp_raises demo_world
                            (os_path_join demo_world "out/20200105/NDVI"
                               "T33_20200105T100_NDVI_0.tif") r))]
           /\ (gdal_Warp_raises demo_world
                 (os_path_join demo_world "out/20200105/NDVI"
                    "T33_20200105T100_NDVI_0.tif") r = false ->
               o = Normal tt
               /\ tiles s'
                  = tiles demo_stale_state
                    ++ [os_path_join demo_world "out/20200105/NDVI"
                          "T33_20200105T100_NDVI_0.tif"]
               /\ (gdal_Warp_writes demo_world
                     (os_path_join demo_world "out/20200105/NDVI"
                        "T33_20200105T100_NDVI_0.tif") r = true ->
                   os_path_join demo_world "out/20200105/NDVI"
                     "T33_20200105T100_NDVI_0.tif" ∈ files s')
               /\ (gdal_Warp_writes demo_world
                     (os_path_join demo_world "out/20200105/NDVI"
                        "T33_20200105T100_NDVI_0.tif") r = false ->
                   files s' = files demo_stale_state))
       end.
Proof.
  apply (unknown_product_warps_stale_raster demo_world "SAVI" demo_ndvi_entry
           "out/20200105/NDVI" "T33_20200105T100_NDVI_0.tif" demo_stale_state).
  - reflexivity.
  - vm_compute; reflexivity.
  - vm_compute; reflexivity.
  - vm_compute; reflexivity.
Defined.

(** *** The mosaic folder *)

(** X15. When the mosaic folder of a product is missing and cannot be
    created, the product is given up: the failure is logged, [gdal.BuildVRT]
    is not called, the product's entry is left without [newDate], and the
    loop continues with the next product. *)
Theorem mosaic_folder_failure_skips_product (w : World) (params : Params)
    (imageryDate prodId : string) (args : ProductArgs) (n t1 t2 : string)
    (s : State) :
  outName s = Some (VStr n) ->
  split_on "_" n !! 1%nat = Some t1 ->
  split_on "_" n !! 2%nat = Some t2 ->
  path_isdir s (mosaic_folder w params imageryDate args) = false ->
  os_makedirs_raises w (mosaic_folder w params imageryDate args) = true ->
  exists s',
    build_mosaic w params imageryDate prodId args s = (Continue, s')
    /\ calls s' = calls s ++ [CallMakedirs (mosaic_folder w params imageryDate args)]
    /\ newProducts s' = newProducts s
    /\ files s' = files s /\ dirs s' = dirs s
    /\ (ERROR, "Error while creating "
               +:+ mosaic_folder w params imageryDate args +:+ ".") ∈ log s'.
Proof.
  intros Hn H1 H2 Hd Hr.
  unfold build_mosaic, createOutFolder, makedirs, read_local, list_index.
  cbv [mbind M_bind bind try_except logging_info logging_error modify ret get
       raise continue_].
  cbn [add_log outName]. rewrite Hn. cbn. rewrite H1. cbn. rewrite H2. cbn.
  unfold mosaic_folder in *. unfold path_isdir in *. cbn. rewrite Hd. cbn.
  rewrite Hr. cbn. eexists. split; [reflexivity|]. cbn.
  repeat split; try done.
  rewrite !elem_of_app, !list_elem_of_singleton. naive_solver.
Qed.

Lemma mosaic_folder_failure_skips_product_witness :
  exists s',
    build_mosaic world_makedirs_raises (demo_params "NDVI" ndvi_bands)
      "20200105" "1" demo_ndvi_args demo_mosaic_state = (Continue, s')
    /\ calls s'
       = calls demo_mosaic_state
         ++ [CallMakedirs (mosaic_folder world_makedirs_raises
                             (demo_params "NDVI" ndvi_bands) "20200105"
                             demo_ndvi_args)]
    /\ newProducts s' = newProducts demo_mosaic_state
    /\ files s' = files demo_mosaic_state /\ dirs s' = dirs demo_mosaic_state
    /\ (ERROR, "Error while creating "
               +:+ mosaic_folder world_makedirs_raises
                     (demo_params "NDVI" ndvi_bands) "20200105" demo_ndvi_args
               +:+ ".") ∈ log s'.
Proof.
  apply (mosaic_folder_failure_skips_product world_makedirs_raises
           (demo_params "NDVI" ndvi_bands) "20200105" "1" demo_ndvi_args
           "T33_20200105T100_NDVI_0.tif" "20200105T100" "NDVI"
           demo_mosaic_state);
    vm_compute; reflexivity.
Defined.

(** *** A date without granules *)

(** X16. When path resolution returns no entry for the first product (the
    date folder is empty, or the first granule cannot be listed), both loops
    are skipped and the mosaic step reads [outName], which no tile iteration
    has bound: the [UnboundLocalError] leaves [calculateProducts] and the run
    is aborted, with the product registered under its name only. *)
Theorem no_granule_aborts_run (w : World) (params : Params)
    (imageryDate prodId : string) (args : ProductArgs)
    (rest : list (string * ProductArgs)) (st : State) :
  products params = (prodId, args) :: rest ->
  (getRequiredBandsPaths w (name args) imageryDate (bands args)
     (rawInput params) (productOutput params) (resolution args) st).1
  = Normal [] ->
  exists st',
    calculateProducts w params imageryDate st
    = (Raised (UnboundLocalError "outName"), st')
    /\ calls st' = calls st
    /\ newProducts st' = [(prodId, {["name" := name args]})].
Proof.
  intros Hps Hnil.
  rewrite calculateProducts_unfold, Hps, for_each_cons, product_body_unfold.
  cbv zeta. set (s1 := set_newProducts _ _).
  unfold before_mosaic. rewrite bind_unfold, fetch_paths_unfold. cbv zeta.
  set (s2 := add_log _ s1).
  rewrite (getRequiredBandsPaths_indep _ _ _ _ _ _ _ st s2) in Hnil.
  pose proof (getRequiredBandsPaths_same w (name args) imageryDate (bands args)
                (rawInput params) (productOutput params) (resolution args) s2)
    as (Hf & Hd & Ht & Hnp & Hp & Hon).
  pose proof (getRequiredBandsPaths_calls w (name args) imageryDate
                (bands args) (rawInput params) (productOutput params)
                (resolution args) s2) as Hcalls.
  destruct (getRequiredBandsPaths _ _ _ _ _ _ _ s2) as [o s3].
  cbn in Hnil. subst o. cbn in *.
  unfold create_folders, calculate_tiles, build_mosaic, read_local.
  cbv [mbind M_bind bind logging_info modify get ret raise for_each]. cbn.
  rewrite Hon. cbn.
  eexists. split; [reflexivity|]. cbn. rewrite Hcalls, Hnp. done.
Qed.

Lemma no_granule_aborts_run_witness :
  exists st',
    calculateProducts world_no_granule (demo_params "NDVI" ndvi_bands)
      "20200105" (initial_state ∅ ∅)
    = (Raised (UnboundLocalError "outName"), st')
    /\ calls st' = calls (initial_state ∅ ∅)
    /\ newProducts st' = [("1", {["name" := "NDVI"]})].
Proof.
  apply (no_granule_aborts_run world_no_granule (demo_params "NDVI" ndvi_bands)
           "20200105" "1" demo_ndvi_args [] (initial_state ∅ ∅) eq_refl).
  vm_compute; reflexivity.
Defined.

(** *** Publishing *)

Lemma publish_body_unfold (w : World) (prId : string)
    (entry : gmap string string) (s : State) :
  publish_body w (prId, entry) s
  = match entry !! "name" with
    | None => (Raised (KeyError "name"), s)
    | Some n =>
        match entry !! "newDate" with
        | None => (Raised (KeyError "newDate"), s)
        | Some d =>
            if publish_raises w n d
            then (Raised (RuntimeError "publish"), add_call (CallPublish n d) s)
            else (Normal tt, add_call (CallPublish n d) s)
        end
    end.
Proof.
  unfold publish_body, lookup_key, publishNewDataset.
  cbv [mbind M_bind bind modify ret raise].
  destruct (entry !! "name") as [n|]; [|done].
  destruct (entry !! "newDate") as [d|]; [|done]. cbn.
  by destruct (publish_raises w n d).
Qed.

Lemma publish_loop_spec (w : World) (np : list (string * gmap string string))
    (s s' : State) (o : Outcome unit) :
  for_each np (publish_body w) s = (o, s') ->
  exists k, calls s' = calls s ++ publish_calls (take k np)
    /\ length (publish_calls (take k np)) = k
    /\ (k <= length np)%nat
    /\ match o with
       | Normal _ => k = length np
       | Continue => False
       | Raised e =>
           ((0 < k)%nat /\ e = RuntimeError "publish")
           \/ (exists prId entry, np !! k = Some (prId, entry)
                /\ publication (prId, entry) = None
                /\ (e = KeyError "name" \/ e = KeyError "newDate"))
       end.
Proof.
  unfold publish_calls.
  revert s. induction np as [|[prId entry] rest IH]; intros s H.
  - unfold for_each, ret in H. simplify_eq. exists 0%nat. cbn.
    by rewrite app_nil_r.
  - rewrite for_each_cons, publish_body_unfold in H.
    destruct (entry !! "name") as [n|] eqn:Hn;
      [destruct (entry !! "newDate") as [d|] eqn:Hd|].
    + assert (Hpub : publication (prId, entry) = Some (CallPublish n d)).
      { unfold publication. cbn. by rewrite Hn, Hd. }
      destruct (publish_raises w n d) eqn:Hr.
      * simplify_eq. exists 1%nat. cbn. rewrite Hpub, take_0. cbn.
        split; [done|]. split; [done|]. split; [lia|]. left. split; [lia|done].
      * apply IH in H as (k & Hc & Hl & Hk & Ho).
        exists (S k). cbn. rewrite Hpub, Hc. cbn. rewrite <- app_assoc. cbn.
        split; [done|]. split; [cbn; by rewrite Hl|]. split; [lia|].
        destruct o as [[]| |e]; [by rewrite Ho|done|].
        destruct Ho as [[Hpos ->]|(p' & e' & Hlk & Hnone)].
        -- left. split; [lia|done].
        -- right. by exists p', e'.
    + simplify_eq. exists 0%nat. cbn. rewrite app_nil_r.
      split; [done|]. split; [done|]. split; [lia|]. right. exists prId, entry.
      split; [done|]. unfold publication. cbn. rewrite Hn, Hd. by auto.
    + simplify_eq. exists 0%nat. cbn. rewrite app_nil_r.
      split; [done|]. split; [done|]. split; [lia|]. right. exists prId, entry.
      split; [done|]. unfold publication. cbn. rewrite Hn. by auto.
Qed.

(** X17. The driver publishes the products in the order of the mapping
    [calculateProducts] returned, one request per product, and stops at the
    first product it cannot publish: the requests made are those of the
    first [k] products; all products are published when the loop completes,
    and otherwise the last request made has failed or product [k] lacks a
    key, the products after it being left unpublished. *)
Theorem publications_follow_product_order (w : World) (params : Params)
    (imageryDate : string) (np : list (string * gmap string string))
    (s s1 s' : State) (o : Outcome unit) :
  calculateProducts w params imageryDate s = (Normal np, s1) ->
  main w params imageryDate "sentinel-2" s = (o, s') ->
  exists k,
    (k <= length np)%nat
    /\ calls s' = calls s1 ++ publish_calls (take k np)
    /\ length (publish_calls (take k np)) = k
    /\ match o with
       | Normal _ => k = length np
       | Continue => False
       | Raised e =>
           ((0 < k)%nat /\ e = RuntimeError "publish")
           \/ (exists prId entry, np !! k = Some (prId, entry)
                /\ publication (prId, entry) = None
                /\ (e = KeyError "name" \/ e = KeyError "newDate"))
       end.
Proof.
  intros Hcalc Hmain. unfold main in Hmain. cbn in Hmain.
  rewrite bind_unfold, Hcalc in Hmain.
  apply publish_loop_spec in Hmain as (k & Hc & Hl & Hk & Ho).
  by exists k.
Qed.

Lemma publications_follow_product_order_witness :
  exists k,
    (k <= length demo_published)%nat
    /\ calls demo_main_run.2
       = calls demo_calc_run.2 ++ publish_calls (take k demo_published)
    /\ length (publish_calls (take k demo_published)) = k
    /\ match demo_main_run.1 with
       | Normal _ => k = length demo_published
       | Continue => False
       | Raised e =>
           ((0 < k)%nat /\ e = RuntimeError "publish")
           \/ (exists prId entry, demo_published !! k = Some (prId, entry)
                /\ publication (prId, entry) = None
                /\ (e = KeyError "name" \/ e = KeyError "newDate"))
       end.
Proof.
  apply (publications_follow_product_order demo_world
           (demo_params "NDVI" ndvi_bands) "20200105" demo_published
           (initial_state ∅ ∅) demo_calc_run.2 demo_main_run.2 demo_main_run.1).
  - vm_compute; reflexivity.
  - vm_compute; reflexivity.
Defined.

(** *** The mapping [calculateProducts] returns *)

Lemma dict_set_keys {V} (k : string) (v : V) (d : list (string * V)) :
  (dict_set k v d).*1 = if decide (k ∈ d.*1) then d.*1 else d.*1 ++ [k].
Proof.
  induction d as [|[k' v'] d IH]; cbn; [done|].
  destruct (String.eqb k' k) eqn:E.
  - apply String.eqb_eq in E. subst k'. cbn.
    rewrite decide_True; [done|apply list_elem_of_here].
  - apply String.eqb_neq in E. cbn. rewrite IH.
    destruct (decide (k ∈ d.*1)) as [Hin|Hin].
    + rewrite decide_True; [done|by apply list_elem_of_further].
    + rewrite decide_False; [done|].
      intros [?|?]%elem_of_cons; congruence.
Qed.

Lemma products_loop_keys (w : World) (params : Params) (imageryDate : string)
    (ps : list (string * ProductArgs)) (s s' : State) :
  for_each ps (product_body w params imageryDate) s = (Normal tt, s') ->
  NoDup ((newProducts s).*1 ++ ps.*1) ->
  (newProducts s').*1 = (newProducts s).*1 ++ ps.*1.
Proof.
  revert s. induction ps as [|[k a] ps IH]; intros s Hrun Hnd.
  - unfold for_each, ret in Hrun. simplify_eq. by rewrite app_nil_r.
  - rewrite for_each_cons in Hrun.
    destruct (product_body w params imageryDate (k, a) s) as [o s1] eqn:Hbody.
    apply product_body_spec in Hbody as (new & _ & Hcase).
    assert (Hrest : for_each ps (product_body w params imageryDate) s1
                    = (Normal tt, s')) by (by destruct o).
    assert (Hkeys : (newProducts s1).*1 = (newProducts s).*1 ++ [k]).
    { cbn in Hnd. apply NoDup_app in Hnd as (_ & Hdisj & _).
      assert (Hk : k ∉ (newProducts s).*1).
      { intros Hin. apply (Hdisj k Hin). apply list_elem_of_here. }
      destruct Hcase as [(_ & -> & _)|(_ & -> & _)];
        by rewrite dict_set_keys, decide_False. }
    rewrite (IH s1 Hrest); rewrite Hkeys, <- app_assoc; [done|].
    cbn in Hnd. exact Hnd.
Qed.

(** X18. The mapping [calculateProducts] returns has exactly the configured
    product identifiers as keys, in the order of the configuration, whatever
    became of each product. *)
Theorem returned_products_follow_configuration (w : World) (params : Params)
    (imageryDate : string) (st st' : State)
    (np : list (string * gmap string string)) :
  NoDup (products params).*1 ->
  calculateProducts w params imageryDate st = (Normal np, st') ->
  np.*1 = (products params).*1.
Proof.
  intros Hnd Hrun. rewrite calculateProducts_unfold in Hrun.
  destruct (for_each (products params) _ _) as [[[]| |e] s'] eqn:Hloop;
    simplify_eq.
  by apply products_loop_keys in Hloop.
Qed.

Lemma returned_products_follow_configuration_witness :
  demo_published.*1 = (products (demo_params "NDVI" ndvi_bands)).*1.
Proof.
  apply (returned_products_follow_configuration demo_world
           (demo_params "NDVI" ndvi_bands) "20200105" (initial_state ∅ ∅)
           demo_calc_run.2 demo_published).
  - cbn. apply NoDup_singleton.
  - vm_compute; reflexivity.
Defined.

(** *** Output folders *)

(** X19. [createOutFolder] is idempotent: once it has returned for a path,
    the path is a directory, and a second call for it makes no call to the
    system and changes nothing; a path that is a directory already is never
    passed to [os.makedirs]. *)
Theorem createOutFolder_idempotent (w : World) (p : string) (s s' : State) :
  createOutFolder w (VStr p) s = (Normal tt, s') ->
  path_isdir s' p = true
  /\ createOutFolder w (VStr p) s' = (Normal tt, s')
  /\ (path_isdir s p = true -> s' = s)
  /\ (path_isdir s p = false -> calls s' = calls s ++ [CallMakedirs p]).
Proof.
  unfold createOutFolder, makedirs.
  cbv [mbind M_bind bind modify get ret raise].
  destruct (path_isdir s p) eqn:Hd; cbn.
  - intros [= <-]. by rewrite Hd.
  - destruct (os_makedirs_raises w p); cbn; [done|].
    intros [= <-].
    assert (Hdir : path_isdir (add_dir p (add_call (CallMakedirs p) s)) p = true).
    { unfold path_isdir. cbn. apply bool_decide_eq_true. set_solver. }
    rewrite Hdir. done.
Qed.

Lemma createOutFolder_idempotent_witness :
  path_isdir demo_folder_made "out/20200105/NDVI" = true
  /\ createOutFolder demo_world (VStr "out/20200105/NDVI") demo_folder_made
     = (Normal tt, demo_folder_made)
  /\ (path_isdir (initial_state ∅ ∅) "out/20200105/NDVI" = true ->
      demo_folder_made = initial_state ∅ ∅)
  /\ (path_isdir (initial_state ∅ ∅) "out/20200105/NDVI" = false ->
      calls demo_folder_made
      = calls (initial_state ∅ ∅) ++ [CallMakedirs "out/20200105/NDVI"]).
Proof.
  apply (createOutFolder_idempotent demo_world "out/20200105/NDVI"
           (initial_state ∅ ∅) demo_folder_made).
  vm_compute; reflexivity.
Defined.

(** *** What a tile is made of *)

Ltac run_index :=
  unfold compute_index, branch_EVI, branch_NDMI, branch_NDWI, branch_NDVI,
    open_then_log, log_then_open, open_failed, lookup_key, openRasterOneBand,
    call_index, save_to_memory, createMemoryRaster;
  cbv [mbind M_bind bind try_except logging_info logging_error modify ret raise];
  cbn;
  repeat (match goal with
          | H : _ !! _ = _ |- _ => rewrite H
          | H : gdal_Open _ _ = _ |- _ => rewrite H
          | H : calculateEVI _ _ _ = _ |- _ => rewrite H
          | H : calculateNDMI _ _ = _ |- _ => rewrite H
          | H : calculateNDWI _ _ = _ |- _ => rewrite H
          | H : calculateNDVI _ _ = _ |- _ => rewrite H
          | H : mem_Create_raises _ _ _ _ _ = _ |- _ => rewrite H
          end; cbn).

(** X27. When the bands a product's branch reads are named by the entry and
    open, the calculator of the branch returns for their arrays and the
    in-memory raster can be created, the raster left in [resultRaster] holds
    exactly the calculator's grid for those bands, with the size,
    geotransform and projection of the first band the branch reads and the
    no-data value -9999.0, whatever no-data value the inputs declare; the
    bands are opened in the branch's order, then the calculator and the
    raster creation are called, and no file is written. *)
Theorem tile_raster_is_index_of_entry_bands (w : World) (product : string)
    (entry : gmap string pyval) (d0 : Dataset) (ds : list Dataset) (g : grid)
    (s : State) :
  Forall2 (opens_as w entry) (bands_read product) (d0 :: ds) ->
  index_of product (ds_band1 <$> d0 :: ds) = Some g ->
  mem_Create_raises w "MEM" (RasterXSize d0) (RasterYSize d0) g = false ->
  exists s',
    compute_index w product entry s = (Normal tt, s')
    /\ resultRaster s' = Some (raster_like d0 g)
    /\ calls s'
       = calls s
         ++ ((fun k => CallOpen (default VEmptyDict (entry !! k)))
               <$> bands_read product)
         ++ [CallIndex product; CallCreate "MEM"]
    /\ files s' = files s /\ tiles s' = tiles s.
Proof.
  unfold bands_read, index_of. intros Hopen Hidx Hmem.
  destruct (String.eqb product "EVI") eqn:E1.
  { apply String.eqb_eq in E1. subst product.
    apply Forall2_cons_inv_l in Hopen as (? & ? & (p1 & Hp1 & Ho1) & Hopen & [= <- <-]).
    apply Forall2_cons_inv_l in Hopen as (d1 & ? & (p2 & Hp2 & Ho2) & Hopen & ->).
    apply Forall2_cons_inv_l in Hopen as (d2 & ? & (p3 & Hp3 & Ho3) & Hopen & ->).
    apply Forall2_nil_inv_l in Hopen as ->. cbn in Hidx.
    run_index. eexists. split; [reflexivity|]. cbn.
    rewrite <- !app_assoc. done. }
  destruct (String.eqb product "NDMI") eqn:E2.
  { apply String.eqb_eq in E2. subst product.
    apply Forall2_cons_inv_l in Hopen as (? & ? & (p1 & Hp1 & Ho1) & Hopen & [= <- <-]).
    apply Forall2_cons_inv_l in Hopen as (d1 & ? & (p2 & Hp2 & Ho2) & Hopen & ->).
    apply Forall2_nil_inv_l in Hopen as ->. cbn in Hidx.
    run_index. eexists. split; [reflexivity|]. cbn.
    rewrite <- !app_assoc. done. }
  destruct (String.eqb product "NDWI") eqn:E3.
  { apply String.eqb_eq in E3. subst product.
    apply Forall2_cons_inv_l in Hopen as (? & ? & (p1 & Hp1 & Ho1) & Hopen & [= <- <-]).
    apply Forall2_cons_inv_l in Hopen as (d1 & ? & (p2 & Hp2 & Ho2) & Hopen & ->).
    apply Forall2_nil_inv_l in Hopen as ->. cbn in Hidx.
    run_index. eexists. split; [reflexivity|]. cbn.
    rewrite <- !app_assoc. done. }
  destruct (String.eqb product "NDVI") eqn:E4; [|by inversion Hopen].
  apply String.eqb_eq in E4. subst product.
  apply Forall2_cons_inv_l in Hopen as (? & ? & (p1 & Hp1 & Ho1) & Hopen & [= <- <-]).
  apply Forall2_cons_inv_l in Hopen as (d1 & ? & (p2 & Hp2 & Ho2) & Hopen & ->).
  apply Forall2_nil_inv_l in Hopen as ->. cbn in Hidx.
  run_index. eexists. split; [reflexivity|]. cbn.
  rewrite <- !app_assoc. done.
Qed.

Lemma tile_raster_is_index_of_entry_bands_witness :
  exists s',
    compute_index demo_world "NDVI" demo_ndvi_entry (initial_state ∅ ∅)
    = (Normal tt, s')
    /\ resultRaster s' = Some (raster_like (one_pixel 2000) [[F32.c0_6]])
    /\ calls s'
       = calls (initial_state ∅ ∅)
         ++ ((fun k => CallOpen (default VEmptyDict (demo_ndvi_entry !! k)))
               <$> bands_read "NDVI")
         ++ [CallIndex "NDVI"; CallCreate "MEM"]
    /\ files s' = files (initial_state ∅ ∅)
    /\ tiles s' = tiles (initial_state ∅ ∅).
Proof.
  apply (tile_raster_is_index_of_entry_bands demo_world "NDVI" demo_ndvi_entry
           (one_pixel 2000) [one_pixel 8000] [[F32.c0_6]] (initial_state ∅ ∅)).
  - constructor; [|constructor; [|constructor]];
      eexists; split; vm_compute; reflexivity.
  - vm_compute; reflexivity.
  - reflexivity.
Defined.

(** *** Cleaning the processing folder *)

Section CleanupFacts.
Context (w : World) (rmtree_raises : string -> bool)
  (inside lost : string -> string -> bool).

Lemma clear_element_spec (folder element : string) (s : State) :
  exists o s',
    clear_element w rmtree_raises inside lost folder element s = (o, s')
    /\ (forall e, o <> Raised e)
    /\ ((path_isdir s (os_path_join w folder element) = true
         /\ rmtree_raises (os_path_join w folder element) = false
         /\ files s'
            = files (remove_tree inside (os_path_join w folder element) s)
         /\ dirs s'
            = dirs (remove_tree inside (os_path_join w folder element) s))
        \/ (path_isdir s (os_path_join w folder element) = true
            /\ rmtree_raises (os_path_join w folder element) = true
            /\ files s'
               = files (remove_part inside lost (os_path_join w folder element) s)
            /\ dirs s'
               = dirs (remove_part inside lost (os_path_join w folder element) s))
        \/ (path_isdir s (os_path_join w folder element) = false
            /\ files s' = files s /\ dirs s' = dirs s)).
Proof.
  unfold clear_element, rmtree.
  cbv [mbind M_bind bind try_except logging_info logging_error modify get ret
       raise continue_].
  destruct (path_isdir s _) eqn:Hd.
  - destruct (rmtree_raises _) eqn:Hr;
      do 2 eexists; (split; [reflexivity|]); (split; [done|]); cbn; auto 10.
  - do 2 eexists. split; [reflexivity|]. split; [done|]. cbn. auto 10.
Qed.

Lemma clear_loop_spec (folder : string) (content : list string) (s : State) :
  exists s',
    for_each content (clear_element w rmtree_raises inside lost folder) s
    = (Normal tt, s')
    /\ (forall q, q ∈ files s' -> q ∈ files s)
    /\ (forall q, q ∈ dirs s' -> q ∈ dirs s)
    /\ (forall q, removed s s' q ->
          exists element,
            element ∈ content
            /\ path_isdir s (os_path_join w folder element) = true
            /\ ((q = os_path_join w folder element
                 /\ rmtree_raises (os_path_join w folder element) = false)
                \/ inside (os_path_join w folder element) q = true))
    /\ (forall element,
          element ∈ content ->
          rmtree_raises (os_path_join w folder element) = false ->
          path_isdir s' (os_path_join w folder element) = false).
Proof.
  revert s. induction content as [|element rest IH]; intros s.
  - exists s. split; [done|]. split; [done|]. split; [done|]. split.
    + intros q [[? ?]|[? ?]]; done.
    + intros ? Hin. by apply elem_of_nil in Hin.
  - rewrite for_each_cons.
    destruct (clear_element_spec folder element s) as (o & s1 & -> & Hnr & Hcase).
    destruct (IH s1) as (s' & Hrun & Hf & Hd & Hgone & Hdirs).
    exists s'. split; [destruct o as [[]| |e]; [done..|by destruct (Hnr e)]|].
    set (p := os_path_join w folder element) in *.
    assert (Hf1 : forall q, q ∈ files s1 -> q ∈ files s).
    { intros q.
      destruct Hcase as [(_ & _ & -> & _)|[(_ & _ & -> & _)|(_ & -> & _)]];
        [| |done]; cbn; rewrite elem_of_filter; tauto. }
    assert (Hd1 : forall q, q ∈ dirs s1 -> q ∈ dirs s).
    { intros q.
      destruct Hcase as [(_ & _ & _ & ->)|[(_ & _ & _ & ->)|(_ & _ & ->)]];
        [| |done]; cbn; rewrite elem_of_filter; tauto. }
    split; [by auto|]. split; [by auto|]. split.
    + intros q Hq.
      assert (Hcases : removed s1 s' q
                       \/ (q ∈ files s /\ q ∉ files s1)
                       \/ (q ∈ dirs s /\ q ∉ dirs s1)).
      { destruct Hq as [[Hin Hout]|[Hin Hout]].
        - destruct (decide (q ∈ files s1)); [left; by left|by auto].
        - destruct (decide (q ∈ dirs s1)); [left; by right|by auto]. }
      destruct Hcases as [Hrem|Hnow].
      * destruct (Hgone q Hrem) as (el & Hin & Hdir & Hwhy).
        exists el. split; [by apply list_elem_of_further|].
        split; [|done]. revert Hdir. unfold path_isdir.
        rewrite !bool_decide_eq_true. apply Hd1.
      * exists element. split; [apply list_elem_of_here|].
        destruct Hcase as [(Hdir & Hr & Hfs & Hds)|[(Hdir & Hr & Hfs & Hds)
                                                   |(_ & Hfs & Hds)]].
        -- split; [done|].
           destruct (decide (q = p)) as [->|Hne]; [by left|right].
           destruct (inside p q) eqn:Hi; [done|]. exfalso.
           destruct Hnow as [[Hin Hout]|[Hin Hout]]; apply Hout.
           ++ rewrite Hfs. cbn. by apply elem_of_filter.
           ++ rewrite Hds. cbn. by apply elem_of_filter.
        -- split; [done|]. right.
           destruct (inside p q) eqn:Hi; [done|]. exfalso.
           destruct Hnow as [[Hin Hout]|[Hin Hout]]; apply Hout.
           ++ rewrite Hfs. cbn. apply elem_of_filter. split; [|done].
              unfold spared. by rewrite Hi.
           ++ rewrite Hds. cbn. apply elem_of_filter. split; [|done].
              unfold spared. by rewrite Hi.
        -- rewrite Hfs, Hds in Hnow. by destruct Hnow as [[? ?]|[? ?]].
    + intros el [->|Hin]%elem_of_cons Hr; [|by apply Hdirs].
      apply bool_decide_eq_false. intros Hin'. apply Hd in Hin'.
      destruct Hcase as [(_ & _ & _ & Hds)|[(_ & Hr' & _)|(Hdir & _ & Hds)]].
      * rewrite Hds in Hin'. cbn in Hin'. apply elem_of_filter in Hin'.
        by destruct Hin' as [[? _] _].
      * fold p in Hr. congruence.
      * rewrite Hds in Hin'. unfold path_isdir in Hdir.
        by apply bool_decide_eq_false in Hdir.
Qed.
End CleanupFacts.

(** X28. [clearIntermediateData] on a folder that can be listed never raises.
    It creates nothing; whatever it removes is an element of the folder that
    was a directory and whose deletion succeeded, or lies inside an element
    that was a directory: a file standing directly in the folder (a log,
    say) is never passed to [rmtree]; and every listed directory whose
    deletion does not fail is gone afterwards, a failed deletion being logged
    without stopping the loop. *)
Theorem cleanup_removes_only_subfolders (w : World)
    (rmtree_raises : string -> bool) (inside lost : string -> string -> bool)
    (folder : string) (content : list string) (s : State) :
  os_listdir w folder = Some content ->
  exists s',
    clearIntermediateData w rmtree_raises inside lost folder s = (Normal tt, s')
    /\ (forall q, on_disk s' q -> on_disk s q)
    /\ (forall q, removed s s' q ->
          exists element,
            element ∈ content
            /\ path_isdir s (os_path_join w folder element) = true
            /\ ((q = os_path_join w folder element
                 /\ rmtree_raises (os_path_join w folder element) = false)
                \/ inside (os_path_join w folder element) q = true))
    /\ (forall element,
          element ∈ content ->
          rmtree_raises (os_path_join w folder element) = false ->
          path_isdir s' (os_path_join w folder element) = false).
Proof.
  intros Hl. unfold clearIntermediateData, listdir. rewrite Hl.
  cbv [mbind M_bind bind logging_info modify ret].
  set (s0 := add_log _ s).
  destruct (clear_loop_spec w rmtree_raises inside lost folder content s0)
    as (s' & -> & Hf & Hd & Hgone & Hdirs).
  exists s'. split; [done|]. split; [|split; [|done]].
  - intros q [Hq|Hq]; [left; by apply Hf|right; by apply Hd].
  - intros q Hq. by apply Hgone.
Qed.

Lemma cleanup_removes_only_subfolders_witness :
  exists s',
    clearIntermediateData demo_cleanup_world demo_rmtree_raises demo_inside
      demo_lost "tmp" demo_cleanup_state = (Normal tt, s')
    /\ (forall q, on_disk s' q -> on_disk demo_cleanup_state q)
    /\ (forall q, removed demo_cleanup_state s' q ->
          exists element,
            element ∈ ["run.log"; "20200105"; "20200110"]
            /\ path_isdir demo_cleanup_state
                 (os_path_join demo_cleanup_world "tmp" element) = true
            /\ ((q = os_path_join demo_cleanup_world "tmp" element
                 /\ demo_rmtree_raises
                      (os_path_join demo_cleanup_world "tmp" element) = false)
                \/ demo_inside (os_path_join demo_cleanup_world "tmp" element) q
                   = true))
    /\ (forall element,
          element ∈ ["run.log"; "20200105"; "20200110"] ->
          demo_rmtree_raises (os_path_join demo_cleanup_world "tmp" element)
          = false ->
          path_isdir s' (os_path_join demo_cleanup_world "tmp" element) = false).
Proof.
  apply (cleanup_removes_only_subfolders demo_cleanup_world demo_rmtree_raises
           demo_inside demo_lost "tmp" ["run.log"; "20200105"; "20200110"]
           demo_cleanup_state).
  reflexivity.
Defined.

(* ===================================================================== *)
(** ** The download stage                                                 *)
(* ===================================================================== *)

Lemma D_bind_unfold {A B} (m : Download.D A) (f : A -> Download.D B)
    (s : Download.State) :
  (m ≫= f) s
  = match m s with
    | (Normal a, s') => f a s'
    | (Continue, s') => (Continue, s')
    | (Raised e, s') => (Raised e, s')
    end.
Proof. reflexivity. Qed.

Lemma D_for_each_cons {X} (x : X) (xs : list X) (body : X -> Download.D unit)
    (s : Download.State) :
  Download.for_each (x :: xs) body s
  = match body x s with
    | (Raised e, s') => (Raised e, s')
    | (_, s') => Download.for_each xs body s'
    end.
Proof. reflexivity. Qed.

(** *** The retry loop of [getProductXML] *)

Lemma retry_unfold (w : Download.World) (fuel : nat)
    (user_ password_ extent_ platform_ daysback_ URL : string)
    (response : Download.Response) (i : nat) (s : Download.State) :
  Download.retry w (S fuel) user_ password_ extent_ platform_ daysback_ URL
    response i s
  = if Download.status_code response =? 200 then (Normal (Some response), s)
    else
      let s1 :=
        Download.add_log
          (Download.INFO, "Used arguments are: " +:+ extent_ +:+ "," +:+ platform_
                          +:+ "," +:+ daysback_ +:+ ".")
          (Download.add_log
             (Download.INFO, "Starting fetch available products xml as user "
                             +:+ user_ +:+ ".")
             (Download.add_log
                (Download.WARNING,
                 "Got invalid response status code ("
                 +:+ pretty (Download.status_code response)
                 +:+ "). Retrying. Attempt no." +:+ pretty i +:+ "/15.") s)) in
      match Download.requests_get w (length (Download.requests s)) URL user_
              password_ with
      | None => (Raised (RuntimeError "requests.get"), Download.add_request URL s1)
      | Some response' =>
          if (15 <? S i)%nat then
            (Normal (Some response'),
             Download.add_log
               (Download.ERROR, "Exceeded number of allowed attempts.")
               (Download.add_request URL s1))
          else
            Download.retry w fuel user_ password_ extent_ platform_ daysback_ URL
              response' (S i) (Download.add_request URL s1)
      end.
Proof.
  cbn [Download.retry]. destruct (Download.status_code response =? 200); [done|].
  cbn [negb].
  cbv [mbind Download.D_bind Download.bind Download.logging_warning
       Download.logging_info Download.logging_error Download.modify
       Download.requests_get_ Download.ret].
  cbn [Download.add_log Download.requests].
  destruct (Download.requests_get w _ URL user_ password_) as [r|]; [|done].
  by destruct (15 <? S i)%nat.
Qed.

(** The loop makes at most [16 - i] requests and sixteen units of fuel are
    never used up. *)
Lemma retry_spec (w : Download.World) (fuel : nat)
    (user_ password_ extent_ platform_ daysback_ URL : string)
    (response : Download.Response) (i : nat) (s s' : Download.State)
    (o : Outcome (option Download.Response)) :
  (16 <= fuel + i)%nat -> (i <= 15)%nat ->
  Download.retry w fuel user_ password_ extent_ platform_ daysback_ URL
    response i s = (o, s') ->
  exists n,
    (n + i <= 16)%nat
    /\ Download.requests s' = Download.requests s ++ replicate n URL
    /\ Download.dirs s' = Download.dirs s
    /\ Download.extracted s' = Download.extracted s
    /\ (forall k, (S k < n)%nat ->
          exists r, Download.answer w s URL user_ password_ k = Some r
                    /\ Download.status_code r <> 200)
    /\ match n with
       | O => o = Normal (Some response) /\ Download.status_code response = 200
       | S m =>
           Download.status_code response <> 200
           /\ match Download.answer w s URL user_ password_ m with
              | None => o = Raised (RuntimeError "requests.get")
              | Some r =>
                  o = Normal (Some r)
                  /\ (Download.status_code r = 200 \/ (n + i = 16)%nat)
              end
       end.
Proof.
  revert response i s. induction fuel as [|fuel IH]; intros response i s Hf Hi H;
    [lia|].
  rewrite retry_unfold in H.
  destruct (Download.status_code response =? 200) eqn:E.
  { simplify_eq. exists 0%nat. cbn. rewrite app_nil_r.
    apply Z.eqb_eq in E. split; [lia|]. do 3 (split; [done|]).
    split; [intros; lia|done]. }
  apply Z.eqb_neq in E. cbv zeta in H.
  destruct (Download.requests_get w _ URL user_ password_) as [r|] eqn:Hr.
  - destruct (15 <? S i)%nat eqn:Hlt.
    + apply Nat.ltb_lt in Hlt. simplify_eq. exists 1%nat. cbn.
      split; [lia|]. do 3 (split; [done|]). split; [intros; lia|].
      split; [done|].
      unfold Download.answer. rewrite Nat.add_0_r, Hr. split; [done|]. right. lia.
    + apply Nat.ltb_ge in Hlt.
      apply IH in H as (n & Hn & Hreq & Hd & He & Hprev & Hlast); [|lia..].
      exists (S n). cbn in Hreq, Hd, He. split; [lia|].
      split; [rewrite Hreq, <- app_assoc; done|]. do 2 (split; [done|]).
      assert (Hshift : forall k,
                Download.answer w
                  (Download.add_request URL
                     (Download.add_log
                        (Download.INFO, "Used arguments are: " +:+ extent_ +:+ ","
                                        +:+ platform_ +:+ "," +:+ daysback_ +:+ ".")
                        (Download.add_log
                           (Download.INFO,
                            "Starting fetch available products xml as user "
                            +:+ user_ +:+ ".")
                           (Download.add_log
                              (Download.WARNING,
                               "Got invalid response status code ("
                               +:+ pretty (Download.status_code response)
                               +:+ "). Retrying. Attempt no." +:+ pretty i
                               +:+ "/15.") s)))) URL user_ password_ k
                = Download.answer w s URL user_ password_ (S k)).
      { intros k. unfold Download.answer. cbn. rewrite length_app. cbn.
        f_equal. lia. }
      split.
      * intros [|k] Hk.
        -- exists r. unfold Download.answer. rewrite Nat.add_0_r, Hr.
           split; [done|]. destruct n as [|m]; [lia|]. by destruct Hlast.
        -- rewrite <- Hshift. apply Hprev. lia.
      * split; [done|]. destruct n as [|m].
        -- destruct Hlast as [-> Hs]. unfold Download.answer.
           rewrite Nat.add_0_r, Hr. split; [done|by left].
        -- destruct Hlast as [_ Hlast]. rewrite Hshift in Hlast.
           destruct (Download.answer w s URL user_ password_ (S m)); [|done].
           destruct Hlast as [-> [?|?]]; (split; [done|]); [by left|right; lia].
  - simplify_eq. exists 1%nat. cbn.
    split; [lia|]. do 3 (split; [done|]). split; [intros; lia|].
    split; [done|].
    unfold Download.answer. by rewrite Nat.add_0_r, Hr.
Qed.

(** X20. [getProductXML] never raises and sends between one and seventeen
    requests, all to the search URL: it repeats the request while the answer
    has a status other than 200 and gives up after sixteen repetitions. It
    returns the body of the last answer it received, which has status 200
    unless all seventeen answers were refused, in which case the body of the
    seventeenth, refused, answer is returned all the same; when a request
    raises, the error is logged and [None] is returned. *)
Theorem xml_fetch_is_bounded (w : Download.World)
    (user_ password_ extent_ platform_ daysback_ : string) (s : Download.State) :
  exists n res s',
    Download.getProductXML w user_ password_ extent_ platform_ daysback_ s
    = (Normal res, s')
    /\ (1 <= n <= 17)%nat
    /\ Download.requests s'
       = Download.requests s
         ++ replicate n (Download.search_url extent_ platform_ daysback_)
    /\ Download.dirs s' = Download.dirs s
    /\ Download.extracted s' = Download.extracted s
    /\ (forall k, (S k < n)%nat ->
          exists r,
            Download.answer w s (Download.search_url extent_ platform_ daysback_)
              user_ password_ k = Some r
            /\ Download.status_code r <> 200)
    /\ match Download.answer w s
               (Download.search_url extent_ platform_ daysback_) user_ password_
               (pred n) with
       | None => res = None
       | Some r =>
           res = Some (Download.content r)
           /\ (Download.status_code r = 200 \/ n = 17%nat)
       end.
Proof.
  set (URL := Download.search_url extent_ platform_ daysback_).
  unfold Download.getProductXML. fold URL.
  cbv [mbind Download.D_bind Download.bind Download.logging_info
       Download.logging_error Download.modify Download.requests_get_
       Download.try_except Download.ret Download.raise].
  cbn [Download.add_log Download.requests].
  set (s1 := Download.add_log _ (Download.add_log _ s)).
  destruct (Download.requests_get w (length (Download.requests s)) URL user_
              password_) as [r0|] eqn:H0.
  - set (s2 := Download.add_log _ (Download.add_request URL s1)).
    destruct (Download.retry w 16 user_ password_ extent_ platform_ daysback_
                URL r0 0 s2) as [o s3] eqn:Hretry.
    apply retry_spec in Hretry as (n & Hn & Hreq & Hd & He & Hprev & Hlast);
      [|lia..].
    assert (Hshift : forall k, Download.answer w s2 URL user_ password_ k
                               = Download.answer w s URL user_ password_ (S k)).
    { intros k. unfold Download.answer. cbn. rewrite length_app. cbn.
      f_equal. lia. }
    assert (Hfirst : Download.answer w s URL user_ password_ 0 = Some r0).
    { unfold Download.answer. by rewrite Nat.add_0_r. }
    destruct n as [|m].
    + destruct Hlast as [-> Hs]. exists 1%nat. do 2 eexists.
      split; [reflexivity|]. split; [lia|].
      split; [by rewrite Hreq, app_nil_r|]. do 2 (split; [done|]).
      split; [intros; lia|]. cbn. rewrite Hfirst. split; [done|by left].
    + destruct Hlast as [Hs Hlast]. rewrite Hshift in Hlast.
      destruct (Download.answer w s URL user_ password_ (S m)) as [r|] eqn:Hr.
      * destruct Hlast as [-> Hlast]. exists (S (S m)). do 2 eexists.
        split; [reflexivity|]. split; [lia|].
        split; [rewrite Hreq; cbn; by rewrite <- app_assoc|].
        do 2 (split; [done|]).
        split.
        { intros [|k] Hk; [by exists r0|]. rewrite <- Hshift. apply Hprev. lia. }
        cbn. rewrite Hr. split; [done|]. destruct Hlast; [by left|right; lia].
      * subst o. exists (S (S m)). do 2 eexists.
        split; [reflexivity|]. split; [lia|].
        split; [cbn; rewrite Hreq; cbn; by rewrite <- app_assoc|].
        do 2 (split; [done|]).
        split.
        { intros [|k] Hk; [by exists r0|]. rewrite <- Hshift. apply Hprev. lia. }
        cbn. by rewrite Hr.
  - exists 1%nat. do 2 eexists. split; [reflexivity|]. split; [lia|].
    do 3 (split; [done|]). split; [intros; lia|]. cbn.
    unfold Download.answer. by rewrite Nat.add_0_r, H0.
Qed.

(** *** The two passes of [getProductParams] *)

Lemma pretty_nat_ne (i j : nat) : i <> j -> String.eqb (pretty i) (pretty j) = false.
Proof. intros H. apply String.eqb_neq. intros Heq. by apply (inj pretty) in Heq. Qed.

Lemma dict_set_enumerate (i : nat) (l : list Download.Product)
    (el : Download.Product) :
  dict_set (pretty (i + length l)%nat) el (Download.enumerate_from i l)
  = Download.enumerate_from i (l ++ [el]).
Proof.
  revert i. induction l as [|x l IH]; intros i; cbn.
  - by rewrite Nat.add_0_r.
  - rewrite pretty_nat_ne by lia. f_equal.
    replace (i + S (length l))%nat with (S i + length l)%nat by lia. apply IH.
Qed.

Lemma enumerate_from_length (i : nat) (l : list Download.Product) :
  length (Download.enumerate_from i l) = length l.
Proof. revert i. induction l as [|x l IH]; intros i; cbn; [done|]. by rewrite IH. Qed.

Lemma enumerate_from_values (i : nat) (l : list Download.Product) :
  (Download.enumerate_from i l).*2 = l.
Proof. revert i. induction l as [|x l IH]; intros i; cbn; [done|]. by rewrite IH. Qed.

Lemma size_pos_informative (el : Download.Product) :
  (0 <? size el)%nat = bool_decide (Download.informative el).
Proof.
  unfold Download.informative. destruct (decide (el = ∅)) as [->|Hne].
  - rewrite map_size_empty. by rewrite bool_decide_false by auto.
  - rewrite bool_decide_true by done. apply Nat.ltb_lt.
    apply map_size_non_empty_iff in Hne. lia.
Qed.

Lemma first_pass_spec (w : Download.World) (childs : list Download.Element)
    (l : list Download.Product) (s : Download.State) :
  exists s',
    Download.first_pass w childs (length l) (Download.enumerate_from 0 l) s
    = (Normal (Download.enumerate_from 0
                 (l ++ filter Download.informative
                         (Download.read_child <$> childs))), s')
    /\ Download.requests s' = Download.requests s
    /\ Download.dirs s' = Download.dirs s
    /\ Download.extracted s' = Download.extracted s.
Proof.
  revert l s. induction childs as [|child rest IH]; intros l s.
  - exists s. cbn. by rewrite app_nil_r.
  - cbn [Download.first_pass fmap list_fmap]. rewrite size_pos_informative.
    rewrite filter_cons. destruct (decide (Download.informative _)) as [Hi|Hi].
    + rewrite bool_decide_true by done.
      cbv [mbind Download.D_bind Download.bind Download.logging_info
           Download.modify].
      pose proof (dict_set_enumerate 0 l (Download.read_child child)) as Hset.
      cbn in Hset. rewrite Hset.
      destruct (IH (l ++ [Download.read_child child])
                  (Download.add_log
                     (Download.INFO,
                      "Succesfully queried " +:+ pretty (length l) +:+ ": "
                      +:+ Download.repr w (Download.read_child child) +:+ ".") s))
        as (s' & Hrun & Hr & Hd & He).
      rewrite length_app in Hrun. cbn in Hrun.
      replace (length l + 1)%nat with (S (length l)) in Hrun by lia.
      exists s'. rewrite Hrun, <- app_assoc. done.
    + rewrite bool_decide_false by done. apply IH.
Qed.

Lemma second_pass_spec (w : Download.World) (lvl orb : string)
    (items : list (string * Download.Product)) (l : list Download.Product)
    (s : Download.State) :
  exists s',
    Download.second_pass w lvl orb items (length l)
      (Download.enumerate_from 0 l) s
    = (Normal (Download.enumerate_from 0
                 (l ++ filter (Download.selected lvl orb) items.*2)), s')
    /\ Download.requests s' = Download.requests s
    /\ Download.dirs s' = Download.dirs s
    /\ Download.extracted s' = Download.extracted s.
Proof.
  revert l s. induction items as [|[productNo el] rest IH]; intros l s.
  - exists s. cbn. by rewrite app_nil_r.
  - cbn [Download.second_pass fmap list_fmap snd]. rewrite filter_cons.
    destruct (decide (Download.selected lvl orb el)) as [Hsel|Hsel].
    + unfold Download.selected in Hsel. rewrite Hsel.
      cbv [mbind Download.D_bind Download.bind Download.logging_info
           Download.modify].
      pose proof (dict_set_enumerate 0 l el) as Hset. cbn in Hset. rewrite Hset.
      destruct (IH (l ++ [el])
                  (Download.add_log
                     (Download.INFO,
                      "Succesfully queried " +:+ pretty (length l) +:+ ": "
                      +:+ Download.repr w el +:+ ".") s))
        as (s' & Hrun & Hr & Hd & He).
      rewrite length_app in Hrun. cbn in Hrun.
      replace (length l + 1)%nat with (S (length l)) in Hrun by lia.
      exists s'. rewrite Hrun, <- app_assoc. done.
    + unfold Download.selected in Hsel. apply not_true_is_false in Hsel.
      rewrite Hsel. apply IH.
Qed.

Lemma getProductParams_parsed (w : Download.World) (body : string)
    (root : Download.Element) (lvl orb : string) (s : Download.State) :
  Download.ET_fromstring w body = Some root ->
  exists s',
    Download.getProductParams w (Some body) lvl orb s
    = (Normal (Download.enumerate_from 0
                 (filter (Download.selected lvl orb)
                    (filter Download.informative
                       (Download.read_child <$> Download.children root)))), s')
    /\ Download.requests s' = Download.requests s
    /\ Download.dirs s' = Download.dirs s
    /\ Download.extracted s' = Download.extracted s.
Proof.
  intros Hparse. unfold Download.getProductParams. rewrite Hparse.
  cbv [mbind Download.D_bind Download.bind Download.logging_info
       Download.logging_error Download.modify Download.try_except Download.ret].
  set (s1 := Download.add_log _ (Download.add_log _ s)).
  destruct (first_pass_spec w (Download.children root) [] s1)
    as (s2 & H1 & Hr1 & Hd1 & He1).
  cbn [length Download.enumerate_from app] in H1. rewrite H1.
  set (q := Download.enumerate_from 0 _).
  set (s3 := Download.add_log _ (Download.add_log _ s2)).
  destruct (second_pass_spec w lvl orb q [] s3) as (s4 & H2 & Hr2 & Hd2 & He2).
  cbn [length Download.enumerate_from app] in H2. rewrite H2.
  unfold q. rewrite enumerate_from_values.
  eexists. split; [reflexivity|]. cbn. by rewrite Hr2, Hd2, He2.
Qed.

Lemma enumerate_from_lookup (i : nat) (l : list Download.Product) (k : nat)
    (el : Download.Product) :
  l !! k = Some el ->
  Download.enumerate_from i l !! k = Some (pretty (i + k)%nat, el).
Proof.
  revert i k. induction l as [|x l IH]; intros i [|k] H; simplify_eq/=.
  - by rewrite Nat.add_0_r.
  - rewrite (IH (S i) k H).
    by replace (i + S k)%nat with (S i + k)%nat by lia.
Qed.

(** X21. On a body the parser accepts, [getProductParams] returns, numbered
    0, 1, 2, ... in document order, exactly the products of the document that
    carry at least one of the four recognised fields and among whose values
    are both the processing level and the relative orbit number asked for
    (in whichever field they stand); it sends no request and touches no
    folder. *)
Theorem selected_products_in_document_order (w : Download.World) (body : string)
    (root : Download.Element) (lvl orb : string) (s : Download.State) :
  Download.ET_fromstring w body = Some root ->
  exists productsToDownload s',
    Download.getProductParams w (Some body) lvl orb s
    = (Normal productsToDownload, s')
    /\ productsToDownload.*2
       = filter (Download.selected lvl orb)
           (filter Download.informative
              (Download.read_child <$> Download.children root))
    /\ (forall k el, productsToDownload.*2 !! k = Some el ->
          productsToDownload !! k = Some (pretty k, el))
    /\ Download.requests s' = Download.requests s
    /\ Download.dirs s' = Download.dirs s
    /\ Download.extracted s' = Download.extracted s.
Proof.
  intros Hparse.
  destruct (getProductParams_parsed w body root lvl orb s Hparse)
    as (s' & Hrun & Hr & Hd & He).
  eexists _, s'. split; [exact Hrun|].
  rewrite enumerate_from_values. split; [done|]. split; [|done].
  intros k el Hk. by apply (enumerate_from_lookup 0).
Qed.

(** X22. When the body cannot be parsed, or there is no body because the
    search request had raised, [getProductParams] logs the parsing error and
    then raises: the name [root] it iterates over was never bound. *)
Theorem unparsable_answer_raises (w : Download.World)
    (productXML : option string) (lvl orb : string) (s : Download.State) :
  productXML ≫= Download.ET_fromstring w = None ->
  exists s',
    Download.getProductParams w productXML lvl orb s
    = (Raised (UnboundLocalError "root"), s')
    /\ (Download.ERROR, "Error occured while parsing xml.") ∈ Download.log s'
    /\ Download.requests s' = Download.requests s.
Proof.
  intros Hnone. unfold Download.getProductParams.
  cbv [mbind Download.D_bind Download.bind Download.logging_info
       Download.logging_error Download.modify Download.try_except Download.ret
       Download.raise].
  destruct productXML as [body|]; cbn in Hnone; [rewrite Hnone|];
    (eexists; split; [reflexivity|]); cbn; (split; [|done]);
    rewrite !elem_of_app, !list_elem_of_singleton; naive_solver.
Qed.

Lemma selected_products_in_document_order_witness :
  exists productsToDownload s',
    Download.getProductParams Download.demo_hub (Some "feed") "Level-2A" "122"
      Download.initial_state
    = (Normal productsToDownload, s')
    /\ productsToDownload.*2
       = filter (Download.selected "Level-2A" "122")
           (filter Download.informative
              (Download.read_child <$> Download.children Download.demo_root))
    /\ (forall k el, productsToDownload.*2 !! k = Some el ->
          productsToDownload !! k = Some (pretty k, el))
    /\ Download.requests s' = Download.requests Download.initial_state
    /\ Download.dirs s' = Download.dirs Download.initial_state
    /\ Download.extracted s' = Download.extracted Download.initial_state.
Proof.
  apply (selected_products_in_document_order Download.demo_hub "feed"
           Download.demo_root "Level-2A" "122" Download.initial_state).
  reflexivity.
Defined.

Lemma unparsable_answer_raises_witness :
  exists s',
    Download.getProductParams Download.demo_hub (Some "busy") "Level-2A" "122"
      Download.initial_state
    = (Raised (UnboundLocalError "root"), s')
    /\ (Download.ERROR, "Error occured while parsing xml.") ∈ Download.log s'
    /\ Download.requests s' = Download.requests Download.initial_state.
Proof.
  apply (unparsable_answer_raises Download.demo_hub (Some "busy") "Level-2A"
           "122" Download.initial_state).
  reflexivity.
Defined.

(** *** The download loop *)

Lemma download_body_spec (w : Download.World)
    (user_ password_ outFolder_ : string) (el : Download.Product) (d : string)
    (s s' : Download.State) (o : Outcome unit) :
  Download.product_date el = Some d ->
  is_Some (el !! "uuid") ->
  Download.download_body w user_ password_ outFolder_ el s = (o, s') ->
  (forall e, o <> Raised e)
  /\ Download.imageryDate s' = Some d
  /\ ((Download.requests s' = Download.requests s
       /\ Download.extracted s' = Download.extracted s)
      \/ (Download.requests s'
          = Download.requests s
            ++ [Download.download_url (default None (el !! "uuid"))]
          /\ (Download.extracted s' = Download.extracted s
              \/ exists r,
                   Download.answer w s
                     (Download.download_url (default None (el !! "uuid")))
                     user_ password_ 0 = Some r
                   /\ Download.status_code r = 200
                   /\ Download.extracted s'
                      = Download.extracted s
                        ++ [(outFolder_ +:+ d +:+ Download.backslash,
                             Download.content r)]))).
Proof.
  unfold Download.product_date, Download.date_of.
  intros Hd [uuid Hu].
  destruct (el !! "filename") as [[f|]|] eqn:Hf; [|done..].
  destruct (split_on "_" f !! 2%nat) as [tok|] eqn:Htok; [|done].
  cbn in Hd. simplify_eq.
  unfold Download.download_body, Download.lookup_key, Download.split_text,
    Download.list_index, Download.createOutFolder, Download.makedirs.
  cbv [mbind Download.D_bind Download.bind Download.logging_info
       Download.logging_warning Download.logging_error Download.modify
       Download.try_except Download.ret Download.raise Download.continue_
       Download.get_state Download.requests_get_].
  rewrite Hf, Htok, Hu.
  cbn [Download.add_log Download.set_imageryDate Download.dirs
       Download.requests Download.imageryDate].
  set (folder := outFolder_ +:+ str_take 8 tok +:+ Download.backslash).
  destruct (bool_decide (folder ∈ Download.dirs s)); cbn [negb];
    [|destruct (Download.os_makedirs_raises w folder);
      [intros [= <- <-]; cbn; by auto|]];
    cbn [Download.add_log Download.add_dir Download.requests];
    unfold Download.answer; rewrite Nat.add_0_r; cbn [default];
    (destruct (Download.requests_get w _ _ user_ password_) as [r|] eqn:Hr;
     [destruct (Download.status_code r =? 200) eqn:E;
      [apply Z.eqb_eq in E; destruct (Download.extractall_raises w _ folder)|]|]);
    intros [= <- <-]; cbn;
    (split; [done|]); (split; [done|]); right; (split; [done|]); eauto.
Qed.

Lemma download_loop_spec (w : Download.World)
    (user_ password_ outFolder_ : string) (els : list Download.Product)
    (s s' : Download.State) (o : Outcome unit) :
  Forall Download.downloadable els ->
  Download.for_each els (Download.download_body w user_ password_ outFolder_) s
  = (o, s') ->
  o = Normal tt
  /\ Download.imageryDate s'
     = match last els with
       | Some el => Download.product_date el
       | None => Download.imageryDate s
       end
  /\ (length (Download.requests s)
      <= length (Download.requests s')
      <= length (Download.requests s) + length els)%nat
  /\ (length (Download.extracted s')
      <= length (Download.extracted s)
         + (length (Download.requests s') - length (Download.requests s)))%nat.
Proof.
  intros Hall. revert s.
  induction Hall as [|el els [[d Hd] Hu] Hall IH]; intros s H.
  - unfold Download.for_each, Download.ret in H. simplify_eq. cbn.
    split; [done|]. split; [done|]. lia.
  - rewrite D_for_each_cons in H.
    destruct (Download.download_body w user_ password_ outFolder_ el s)
      as [o1 s1] eqn:Hbody.
    apply (download_body_spec _ _ _ _ _ d) in Hbody
      as (Hnr & Hdate & Hreq); [|done..].
    assert (Hrest : Download.for_each els
                      (Download.download_body w user_ password_ outFolder_) s1
                    = (o, s')).
    { destruct o1 as [[]| |e]; [done..|by destruct (Hnr e)]. }
    apply IH in Hrest as (-> & Hlast & Hreq' & Hext').
    assert (Hgrow : (length (Download.requests s)
                     <= length (Download.requests s1)
                     <= S (length (Download.requests s)))%nat
                    /\ (length (Download.extracted s1)
                        <= length (Download.extracted s)
                           + (length (Download.requests s1)
                              - length (Download.requests s)))%nat).
    { destruct Hreq as [[-> ->]|[-> [->|(r & _ & _ & ->)]]];
        rewrite ?length_app; cbn; lia. }
    split; [done|]. split.
    + rewrite Hlast. destruct els as [|el' els']; [by cbn; rewrite Hdate|].
      change (last (el :: el' :: els')) with (last (el' :: els')).
      by rewrite last_cons_default.
    + cbn. lia.
Qed.

(** X23. When every selected product has a file name with a third token and
    an identifier, [downoadImagery] never raises and returns the date read
    from the file name of the LAST product, whatever became of the downloads:
    a refused or failed download, a folder that cannot be made or an archive
    that cannot be unpacked only skips that product. It sends at most one
    request per product and unpacks at most one archive per request. *)
Theorem download_returns_last_date (w : Download.World)
    (user_ password_ outFolder_ : string)
    (productParams : list (string * Download.Product))
    (el : Download.Product) (s : Download.State) :
  Forall Download.downloadable productParams.*2 ->
  last productParams.*2 = Some el ->
  exists d s',
    Download.downoadImagery w user_ password_ productParams outFolder_ s
    = (Normal d, s')
    /\ Download.product_date el = Some d
    /\ (length (Download.requests s')
        <= length (Download.requests s) + length productParams)%nat
    /\ (length (Download.extracted s')
        <= length (Download.extracted s)
           + (length (Download.requests s') - length (Download.requests s)))%nat.
Proof.
  intros Hall Hlast. unfold Download.downoadImagery.
  cbv [mbind Download.D_bind Download.bind Download.logging_info
       Download.modify Download.get_state].
  set (s1 := Download.add_log _ (Download.add_log _ _)).
  destruct (Download.for_each _ _ s1) as [o s2] eqn:Hloop.
  apply download_loop_spec in Hloop as (-> & Hdate & Hreq & Hext); [|done].
  rewrite Hlast in Hdate. rewrite Hdate.
  assert (Hd : is_Some (Download.product_date el)).
  { apply last_Some_elem_of in Hlast.
    rewrite Forall_forall in Hall. by destruct (Hall el Hlast). }
  destruct Hd as [d Hd]. rewrite Hd. exists d, s2.
  split; [done|]. split; [done|]. rewrite length_fmap in Hreq. cbn in *.
  split; lia.
Qed.

Lemma download_returns_last_date_witness :
  exists d s',
    Download.downoadImagery Download.demo_hub "u" "p"
      [("0", Download.demo_product)] "raw" Download.initial_state
    = (Normal d, s')
    /\ Download.product_date Download.demo_product = Some d
    /\ (length (Download.requests s')
        <= length (Download.requests Download.initial_state)
           + length [("0", Download.demo_product)])%nat
    /\ (length (Download.extracted s')
        <= length (Download.extracted Download.initial_state)
           + (length (Download.requests s')
              - length (Download.requests Download.initial_state)))%nat.
Proof.
  apply (download_returns_last_date Download.demo_hub "u" "p" "raw"
           [("0", Download.demo_product)] Download.demo_product
           Download.initial_state).
  - constructor; [|constructor]. split; by eexists.
  - reflexivity.
Defined.

(** *** The downloader as a whole *)

Lemma downoadImagery_nothing (w : Download.World)
    (user_ password_ outFolder_ : string) (s : Download.State) :
  exists s',
    Download.downoadImagery w user_ password_ [] outFolder_ s
    = (Raised (UnboundLocalError "imageryDate"), s')
    /\ Download.requests s' = Download.requests s
    /\ Download.extracted s' = Download.extracted s
    /\ Download.dirs s' = Download.dirs s.
Proof. by eexists. Qed.

(** X24. When the search is answered but no product of the answer matches
    the processing level and orbit asked for, the downloader does not report
    an empty result: the download loop has nothing to run over, the date it
    should return was never bound, and an [UnboundLocalError] is raised;
    nothing is downloaded. *)
Theorem no_matching_product_aborts_download (w : Download.World)
    (data : Download.Data) (body : string) (root : Download.Element)
    (s s1 : Download.State) :
  Download.getProductXML w (Download.user data) (Download.password data)
    (Download.extent data) (Download.platform data) (Download.daysback data) s
  = (Normal (Some body), s1) ->
  Download.ET_fromstring w body = Some root ->
  filter (Download.selected (Download.processinglevel data)
            (Download.relativeorbitnumber data))
    (filter Download.informative
       (Download.read_child <$> Download.children root)) = [] ->
  exists s',
    Download.sentinelImageryDownloader w data s
    = (Raised (UnboundLocalError "imageryDate"), s')
    /\ Download.requests s' = Download.requests s1
    /\ Download.extracted s' = Download.extracted s1.
Proof.
  intros Hfetch Hparse Hnone. unfold Download.sentinelImageryDownloader.
  rewrite D_bind_unfold, Hfetch, D_bind_unfold.
  destruct (getProductParams_parsed w body root
              (Download.processinglevel data) (Download.relativeorbitnumber data)
              s1 Hparse) as (s2 & -> & Hr & Hd & He).
  rewrite Hnone. cbn [Download.enumerate_from].
  destruct (downoadImagery_nothing w (Download.user data)
              (Download.password data) (Download.outFolder data) s2)
    as (s3 & -> & Hr3 & He3 & _).
  exists s3. split; [done|]. by rewrite Hr3, He3, Hr, He.
Qed.

Lemma no_matching_product_aborts_download_witness :
  exists s',
    Download.sentinelImageryDownloader Download.demo_hub
      Download.demo_data_other_orbit Download.initial_state
    = (Raised (UnboundLocalError "imageryDate"), s')
    /\ Download.requests s' = Download.requests Download.demo_fetch.2
    /\ Download.extracted s' = Download.extracted Download.demo_fetch.2.
Proof.
  apply (no_matching_product_aborts_download Download.demo_hub
           Download.demo_data_other_orbit "feed" Download.demo_root
           Download.initial_state Download.demo_fetch.2).
  - vm_compute; reflexivity.
  - reflexivity.
  - vm_compute; reflexivity.
Defined.

(** X25. When the search gives nothing the parser accepts (a request raised,
    so that [getProductXML] returned [None], or the body it returned is not
    a document, as the body of a refused answer may be), the downloader
    raises an [UnboundLocalError] for [root] instead of a date: the failure
    that [getProductXML] and the parsing step had logged and passed over is
    not recovered. *)
Theorem unusable_search_answer_crashes_downloader (w : Download.World)
    (data : Download.Data) (res : option string) (s s1 : Download.State) :
  Download.getProductXML w (Download.user data) (Download.password data)
    (Download.extent data) (Download.platform data) (Download.daysback data) s
  = (Normal res, s1) ->
  res ≫= Download.ET_fromstring w = None ->
  exists s',
    Download.sentinelImageryDownloader w data s
    = (Raised (UnboundLocalError "root"), s')
    /\ Download.requests s' = Download.requests s1
    /\ Download.extracted s' = Download.extracted s1.
Proof.
  intros Hfetch Hnone. unfold Download.sentinelImageryDownloader.
  rewrite D_bind_unfold, Hfetch, D_bind_unfold.
  unfold Download.getProductParams.
  cbv [mbind Download.D_bind Download.bind Download.logging_info
       Download.logging_error Download.modify Download.try_except Download.ret
       Download.raise].
  destruct res as [body|]; cbn in Hnone; [rewrite Hnone|];
    by eexists.
Qed.

Lemma unusable_search_answer_crashes_downloader_witness :
  exists s',
    Download.sentinelImageryDownloader Download.hub_down Download.demo_data
      Download.initial_state
    = (Raised (UnboundLocalError "root"), s')
    /\ Download.requests s'
       = Download.requests
           (Download.getProductXML Download.hub_down "u" "p"
              (Download.extent Download.demo_data) "Sentinel-2" "5DAYS"
              Download.initial_state).2
    /\ Download.extracted s'
       = Download.extracted
           (Download.getProductXML Download.hub_down "u" "p"
              (Download.extent Download.demo_data) "Sentinel-2" "5DAYS"
              Download.initial_state).2.
Proof.
  apply (unusable_search_answer_crashes_downloader Download.hub_down
           Download.demo_data None Download.initial_state).
  - vm_compute; reflexivity.
  - reflexivity.
Defined.

(** *** Products the loop cannot handle *)

Lemma download_body_no_date (w : Download.World)
    (user_ password_ outFolder_ : string) (el : Download.Product)
    (s : Download.State) :
  Download.product_date el = None ->
  exists e,
    Download.download_body w user_ password_ outFolder_ el s = (Raised e, s)
    /\ (e = KeyError "filename" \/ e = AttributeError \/ e = IndexError).
Proof.
  unfold Download.product_date, Download.date_of. intros Hd.
  unfold Download.download_body, Download.lookup_key, Download.split_text,
    Download.list_index.
  cbv [mbind Download.D_bind Download.bind Download.ret Download.raise].
  destruct (el !! "filename") as [[f|]|]; [|by eauto..].
  destruct (split_on "_" f !! 2%nat) as [tok|]; [done|by eauto].
Qed.

(** X26. The second pass may select a product without a usable file name (no
    filename field, an empty one, or a name with fewer than three tokens).
    The download loop reads the date from the file name outside any [try]:
    at the first such product it raises, after the products before it have
    been handled, and the products after it are not requested. *)
Theorem product_without_date_aborts_downloads (w : Download.World)
    (user_ password_ outFolder_ : string)
    (productParams : list (string * Download.Product))
    (before after : list Download.Product) (el : Download.Product)
    (s : Download.State) :
  productParams.*2 = before ++ el :: after ->
  Forall Download.downloadable before ->
  Download.product_date el = None ->
  exists e s',
    Download.downoadImagery w user_ password_ productParams outFolder_ s
    = (Raised e, s')
    /\ (e = KeyError "filename" \/ e = AttributeError \/ e = IndexError)
    /\ (length (Download.requests s')
        <= length (Download.requests s) + length before)%nat.
Proof.
  intros Hsplit Hall Hnone. unfold Download.downoadImagery.
  cbv [mbind Download.D_bind Download.bind Download.logging_info
       Download.modify Download.get_state].
  set (s1 := Download.add_log _ (Download.add_log _ _)).
  rewrite Hsplit.
  assert (Hloop : forall s0,
            exists e s',
              Download.for_each (before ++ el :: after)
                (Download.download_body w user_ password_ outFolder_) s0
              = (Raised e, s')
              /\ (e = KeyError "filename" \/ e = AttributeError \/ e = IndexError)
              /\ (length (Download.requests s')
                  <= length (Download.requests s0) + length before)%nat).
  { clear s s1 Hsplit. induction Hall as [|x xs [[d Hd] Hu] Hall IH]; intros s0.
    - cbn [app]. rewrite D_for_each_cons.
      destruct (download_body_no_date w user_ password_ outFolder_ el s0 Hnone)
        as (e & -> & He).
      exists e, s0. split; [done|]. split; [done|]. cbn. lia.
    - cbn [app]. rewrite D_for_each_cons.
      destruct (Download.download_body w user_ password_ outFolder_ x s0)
        as [o1 s2] eqn:Hbody.
      apply (download_body_spec _ _ _ _ _ d) in Hbody
        as (Hnr & _ & Hreq); [|done..].
      destruct (IH s2) as (e & s' & Hrun & He & Hlen).
      exists e, s'.
      assert (Hs2 : (length (Download.requests s2)
                     <= S (length (Download.requests s0)))%nat).
      { destruct Hreq as [[-> _]|[-> _]]; rewrite ?length_app; cbn; lia. }
      split; [|split; [done|cbn; lia]].
      destruct o1 as [[]| |e1]; [done..|by destruct (Hnr e1)]. }
  destruct (Hloop s1) as (e & s' & -> & He & Hlen). exists e, s'.
  split; [done|]. split; [done|]. exact Hlen.
Qed.

Lemma product_without_date_aborts_downloads_witness :
  exists e s',
    Download.downoadImagery Download.demo_hub "u" "p"
      [("0", Download.demo_product); ("1", Download.demo_product_short_name);
       ("2", Download.demo_product)] "raw" Download.initial_state
    = (Raised e, s')
    /\ (e = KeyError "filename" \/ e = AttributeError \/ e = IndexError)
    /\ (length (Download.requests s')
        <= length (Download.requests Download.initial_state)
           + length [Download.demo_product])%nat.
Proof.
  apply (product_without_date_aborts_downloads Download.demo_hub "u" "p" "raw"
           [("0", Download.demo_product); ("1", Download.demo_product_short_name);
            ("2", Download.demo_product)]
           [Download.demo_product] [Download.demo_product]
           Download.demo_product_short_name Download.initial_state).
  - reflexivity.
  - constructor; [|constructor]. split; by eexists.
  - vm_compute; reflexivity.
Defined.
